(** * Jump Cut Hero: calibration, silence classification and the
      debounced recording controller

    A shallow embedding of the recording logic of [App.tsx] (with
    [constants.ts]) and the properties its specification states about it.

    Conventions of the embedding.
    - JavaScript numbers that carry audio energies are idealised as exact
      rationals ([Q]); millisecond clocks and timer deadlines are integers.
    - A [Uint8Array] is a [list byte].
    - React state ([useState]) and the mutable refs ([useRef]) are fields of
      one explicit application state that every handler transforms.
    - The browser is part of the state: the clock, the table of pending
      timers, the pending animation-frame requests, the media streams whose
      tracks are live and the requests received by the [MediaRecorder]. *)

From Stdlib Require Import String ZArith QArith Qminmax Bool Lia List.
From Stdlib Require Import Strings.Byte.
Import ListNotations.

Local Open Scope Z_scope.

(** ** constants.ts *)

Definition CALIBRATION_TIME_MS : Z := 3000.
Definition SILENCE_DETECTION_TIME_MS : Z := 500.
Definition THRESHOLD_MULTIPLIER : Q := 18 # 10.
Definition FFT_SIZE : nat := 256.

(** [AnalyserNode.frequencyBinCount] is half the FFT size. *)
Definition frequencyBinCount : nat := Nat.div FFT_SIZE 2.

(** ** Numbers *)

(** The strict comparison [x < y] of two numbers, as a boolean. *)
Definition Qltb (x y : Q) : bool :=
  match (x ?= y)%Q with
  | Lt => true
  | _ => false
  end.

(** The value of one frequency bin. *)
Definition bin (b : byte) : Z := Z.of_N (Byte.to_N b).

(** ** Signal sampler and silence classifier ([runAudioAnalysis]) *)

(** [dataArray.reduce((acc, val) => acc + val, 0) / dataArray.length] *)
Definition averageVolume (dataArray : list byte) : Q :=
  let total := fold_left (fun acc val => acc + val) (map bin dataArray) 0 in
  (inject_Z total / inject_Z (Z.of_nat (length dataArray)))%Q.

(** [averageVolume < silenceThresholdRef.current * THRESHOLD_MULTIPLIER] *)
Definition isSilent (averageVolume silenceThreshold : Q) : bool :=
  Qltb averageVolume (silenceThreshold * THRESHOLD_MULTIPLIER)%Q.

(** The classifier in the specification's words, to state its properties
    with: the threshold is the noise floor times the multiplier, and a
    sample is Silent exactly when its energy is below the threshold. *)
Definition SilenceThreshold (noiseFloor : Q) : Q :=
  (noiseFloor * THRESHOLD_MULTIPLIER)%Q.

Inductive Classification := Silent | Sound.

Definition classify (sample threshold : Q) : Classification :=
  if Qltb sample threshold then Silent else Sound.

(** ** Calibrator: the baseline computed when the window expires
       (the [setTimeout] callback of [startCalibration]) *)

(** [calibrationData.reduce((a, b) => a + b, 0) / calibrationData.length] *)
Definition calibrationAverage (calibrationData : list Q) : Q :=
  let total := fold_left (fun a b => (a + b)%Q) calibrationData 0%Q in
  (total / inject_Z (Z.of_nat (length calibrationData)))%Q.

(** The value stored in [silenceThresholdRef.current] on expiry. *)
Definition noiseFloor (calibrationData : list Q) : Q :=
  if (0 <? Z.of_nat (length calibrationData)) then
    let average := calibrationAverage calibrationData in
    if Qltb 0 average then average else 1%Q
  else 1%Q.

(** The sum of the bin magnitudes of a sample, by recursion on the array:
    the quantity whose mean the specification calls the sample's energy. *)
Definition sumOfBins (dataArray : list byte) : Z :=
  fold_right Z.add 0 (map bin dataArray).

(** The arithmetic mean of a sample set, by recursion on the set: the
    quantity the specification names, to compare the code's running sum with. *)
Definition arithmeticMean (samples : list Q) : Q :=
  (fold_right Qplus 0 samples / inject_Z (Z.of_nat (length samples)))%Q.

(** A quiet calibration frame: half of the bins read 1, the others 0, so its
    energy is one half. *)
Definition quietFrame : list byte := repeat x01 64 ++ repeat x00 64.

(** ** The data model of the controller *)

(** Modelled from the spec: the enumeration [RecordingState] of [types.ts],
    a file the sources use and do not include.  The specification lists its
    values as Idle, Calibrating, Recording, Paused and Stopped; the members
    are named as [App.tsx] refers to them. *)
Inductive RecordingState := IDLE | CALIBRATING | RECORDING | PAUSED | STOPPED.

(** [MediaRecorder.state]: the state of the capture sink. *)
Inductive RecorderState := inactive | recording | paused.

(** [AudioContext.state] *)
Inductive AudioContextState := suspended | running | closed.

(** The [orientation] setting. *)
Inductive Orientation := landscape | portrait.

(** The object URL of the recording, named by the chunks of its blob. *)
Inductive Url := ObjectURL (chunks : list Z).

(** The requests the controller makes to the capture sink. *)
Inductive SinkRequest := SinkStart | SinkPause | SinkResume | SinkStop.

(** The callbacks the application hands to [setTimeout] and [setInterval].
    The three callbacks of a calibration share its [calibrationData] array,
    named here by the handle [cal]; the expiry callback also holds the two
    interval handles and the [recordingState] its [runAudioAnalysis] closes
    over. *)
Inductive Callback :=
| SilenceTimeout
| CountdownTick
| CollectCalibrationData (cal : nat)
| CalibrationTimeout (cal collectionInterval countdownInterval : nat)
                     (closure : RecordingState).

(** A pending timer of the browser: [period] is set for an interval. *)
Record Timer := mkTimer {
  tid : nat;
  due : Z;
  period : option Z;
  callback : Callback
}.

(** The [useState] values of the component that the recording logic reads
    or writes. *)
Record ReactState := mkReactState {
  recordingState : RecordingState;
  videoUrl : option Url;
  error : option string;
  calibrationCountdown : Z;
  hasPermissions : bool
}.

(** The [useRef] values.  A stream is held by its handle; the recorder and
    the audio context are held with their current state; [analyserRef] tells
    whether an analyser has been created; [animationFrameRef] is 0 until a
    frame has been requested. *)
Record Refs := mkRefs {
  streamRef : option nat;
  mediaRecorderRef : option RecorderState;
  recordedChunksRef : list Z;
  audioContextRef : option AudioContextState;
  analyserRef : bool;
  silenceTimerRef : option nat;
  silenceThresholdRef : Q;
  animationFrameRef : nat
}.

(** The browser: the clock in milliseconds, the source of fresh handles, the
    pending timers, the pending animation-frame requests (each with the
    [recordingState] its callback closes over), the streams whose tracks are
    live, the analyser's current byte frequency data, the [calibrationData]
    arrays of the calibration closures, the number of [stop] events of the
    recorder not yet delivered, and the requests the sink has received, each
    with the state the sink was in when it received it. *)
Record Host := mkHost {
  now : Z;
  nextId : nat;
  timers : list Timer;
  rafRequests : list (nat * RecordingState);
  liveStreams : list nat;
  analyserData : list byte;
  calStore : list (nat * list Q);
  onstopQueued : nat;
  sinkLog : list (SinkRequest * RecorderState)
}.

Record App := mkApp {
  react : ReactState;
  refs : Refs;
  host : Host
}.

(** The component as first rendered. *)
Definition initial : App :=
  {| react := {| recordingState := IDLE; videoUrl := None; error := None;
                 calibrationCountdown := CALIBRATION_TIME_MS;
                 hasPermissions := false |};
     refs := {| streamRef := None; mediaRecorderRef := None;
                recordedChunksRef := []; audioContextRef := None;
                analyserRef := false; silenceTimerRef := None;
                silenceThresholdRef := 0; animationFrameRef := 0%nat |};
     host := {| now := 0; nextId := 0%nat; timers := []; rafRequests := [];
                liveStreams := []; analyserData := []; calStore := [];
                onstopQueued := 0%nat; sinkLog := [] |} |}.

(** ** Functional updates of one field of the application state *)

Definition set_react (r : ReactState) (s : App) : App :=
  {| react := r; refs := refs s; host := host s |}.

Definition set_recordingState (v : RecordingState) (s : App) : App :=
  set_react
    {| recordingState := v;
       videoUrl := videoUrl (react s);
       error := error (react s);
       calibrationCountdown := calibrationCountdown (react s);
       hasPermissions := hasPermissions (react s) |} s.

Definition set_videoUrl (v : option Url) (s : App) : App :=
  set_react
    {| recordingState := recordingState (react s);
       videoUrl := v;
       error := error (react s);
       calibrationCountdown := calibrationCountdown (react s);
       hasPermissions := hasPermissions (react s) |} s.

Definition set_error (v : option string) (s : App) : App :=
  set_react
    {| recordingState := recordingState (react s);
       videoUrl := videoUrl (react s);
       error := v;
       calibrationCountdown := calibrationCountdown (react s);
       hasPermissions := hasPermissions (react s) |} s.

Definition set_calibrationCountdown (v : Z) (s : App) : App :=
  set_react
    {| recordingState := recordingState (react s);
       videoUrl := videoUrl (react s);
       error := error (react s);
       calibrationCountdown := v;
       hasPermissions := hasPermissions (react s) |} s.

Definition set_hasPermissions (v : bool) (s : App) : App :=
  set_react
    {| recordingState := recordingState (react s);
       videoUrl := videoUrl (react s);
       error := error (react s);
       calibrationCountdown := calibrationCountdown (react s);
       hasPermissions := v |} s.

Definition set_refs (r : Refs) (s : App) : App :=
  {| react := react s; refs := r; host := host s |}.

Definition set_streamRef (v : option nat) (s : App) : App :=
  set_refs
    {| streamRef := v;
       mediaRecorderRef := mediaRecorderRef (refs s);
       recordedChunksRef := recordedChunksRef (refs s);
       audioContextRef := audioContextRef (refs s);
       analyserRef := analyserRef (refs s);
       silenceTimerRef := silenceTimerRef (refs s);
       silenceThresholdRef := silenceThresholdRef (refs s);
       animationFrameRef := animationFrameRef (refs s) |} s.

Definition set_mediaRecorderRef (v : option RecorderState) (s : App) : App :=
  set_refs
    {| streamRef := streamRef (refs s);
       mediaRecorderRef := v;
       recordedChunksRef := recordedChunksRef (refs s);
       audioContextRef := audioContextRef (refs s);
       analyserRef := analyserRef (refs s);
       silenceTimerRef := silenceTimerRef (refs s);
       silenceThresholdRef := silenceThresholdRef (refs s);
       animationFrameRef := animationFrameRef (refs s) |} s.

Definition set_recordedChunksRef (v : list Z) (s : App) : App :=
  set_refs
    {| streamRef := streamRef (refs s);
       mediaRecorderRef := mediaRecorderRef (refs s);
       recordedChunksRef := v;
       audioContextRef := audioContextRef (refs s);
       analyserRef := analyserRef (refs s);
       silenceTimerRef := silenceTimerRef (refs s);
       silenceThresholdRef := silenceThresholdRef (refs s);
       animationFrameRef := animationFrameRef (refs s) |} s.

Definition set_audioContextRef (v : option AudioContextState) (s : App) : App :=
  set_refs
    {| streamRef := streamRef (refs s);
       mediaRecorderRef := mediaRecorderRef (refs s);
       recordedChunksRef := recordedChunksRef (refs s);
       audioContextRef := v;
       analyserRef := analyserRef (refs s);
       silenceTimerRef := silenceTimerRef (refs s);
       silenceThresholdRef := silenceThresholdRef (refs s);
       animationFrameRef := animationFrameRef (refs s) |} s.

Definition set_analyserRef (v : bool) (s : App) : App :=
  set_refs
    {| streamRef := streamRef (refs s);
       mediaRecorderRef := mediaRecorderRef (refs s);
       recordedChunksRef := recordedChunksRef (refs s);
       audioContextRef := audioContextRef (refs s);
       analyserRef := v;
       silenceTimerRef := silenceTimerRef (refs s);
       silenceThresholdRef := silenceThresholdRef (refs s);
       animationFrameRef := animationFrameRef (refs s) |} s.

Definition set_silenceTimerRef (v : option nat) (s : App) : App :=
  set_refs
    {| streamRef := streamRef (refs s);
       mediaRecorderRef := mediaRecorderRef (refs s);
       recordedChunksRef := recordedChunksRef (refs s);
       audioContextRef := audioContextRef (refs s);
       analyserRef := analyserRef (refs s);
       silenceTimerRef := v;
       silenceThresholdRef := silenceThresholdRef (refs s);
       animationFrameRef := animationFrameRef (refs s) |} s.

Definition set_silenceThresholdRef (v : Q) (s : App) : App :=
  set_refs
    {| streamRef := streamRef (refs s);
       mediaRecorderRef := mediaRecorderRef (refs s);
       recordedChunksRef := recordedChunksRef (refs s);
       audioContextRef := audioContextRef (refs s);
       analyserRef := analyserRef (refs s);
       silenceTimerRef := silenceTimerRef (refs s);
       silenceThresholdRef := v;
       animationFrameRef := animationFrameRef (refs s) |} s.

Definition set_animationFrameRef (v : nat) (s : App) : App :=
  set_refs
    {| streamRef := streamRef (refs s);
       mediaRecorderRef := mediaRecorderRef (refs s);
       recordedChunksRef := recordedChunksRef (refs s);
       audioContextRef := audioContextRef (refs s);
       analyserRef := analyserRef (refs s);
       silenceTimerRef := silenceTimerRef (refs s);
       silenceThresholdRef := silenceThresholdRef (refs s);
       animationFrameRef := v |} s.

Definition set_host (r : Host) (s : App) : App :=
  {| react := react s; refs := refs s; host := r |}.

Definition set_now (v : Z) (s : App) : App :=
  set_host
    {| now := v;
       nextId := nextId (host s);
       timers := timers (host s);
       rafRequests := rafRequests (host s);
       liveStreams := liveStreams (host s);
       analyserData := analyserData (host s);
       calStore := calStore (host s);
       onstopQueued := onstopQueued (host s);
       sinkLog := sinkLog (host s) |} s.

Definition set_nextId (v : nat) (s : App) : App :=
  set_host
    {| now := now (host s);
       nextId := v;
       timers := timers (host s);
       rafRequests := rafRequests (host s);
       liveStreams := liveStreams (host s);
       analyserData := analyserData (host s);
       calStore := calStore (host s);
       onstopQueued := onstopQueued (host s);
       sinkLog := sinkLog (host s) |} s.

Definition set_timers (v : list Timer) (s : App) : App :=
  set_host
    {| now := now (host s);
       nextId := nextId (host s);
       timers := v;
       rafRequests := rafRequests (host s);
       liveStreams := liveStreams (host s);
       analyserData := analyserData (host s);
       calStore := calStore (host s);
       onstopQueued := onstopQueued (host s);
       sinkLog := sinkLog (host s) |} s.

Definition set_rafRequests (v : list (nat * RecordingState)) (s : App) : App :=
  set_host
    {| now := now (host s);
       nextId := nextId (host s);
       timers := timers (host s);
       rafRequests := v;
       liveStreams := liveStreams (host s);
       analyserData := analyserData (host s);
       calStore := calStore (host s);
       onstopQueued := onstopQueued (host s);
       sinkLog := sinkLog (host s) |} s.

Definition set_liveStreams (v : list nat) (s : App) : App :=
  set_host
    {| now := now (host s);
       nextId := nextId (host s);
       timers := timers (host s);
       rafRequests := rafRequests (host s);
       liveStreams := v;
       analyserData := analyserData (host s);
       calStore := calStore (host s);
       onstopQueued := onstopQueued (host s);
       sinkLog := sinkLog (host s) |} s.

Definition set_analyserData (v : list byte) (s : App) : App :=
  set_host
    {| now := now (host s);
       nextId := nextId (host s);
       timers := timers (host s);
       rafRequests := rafRequests (host s);
       liveStreams := liveStreams (host s);
       analyserData := v;
       calStore := calStore (host s);
       onstopQueued := onstopQueued (host s);
       sinkLog := sinkLog (host s) |} s.

Definition set_calStore (v : list (nat * list Q)) (s : App) : App :=
  set_host
    {| now := now (host s);
       nextId := nextId (host s);
       timers := timers (host s);
       rafRequests := rafRequests (host s);
       liveStreams := liveStreams (host s);
       analyserData := analyserData (host s);
       calStore := v;
       onstopQueued := onstopQueued (host s);
       sinkLog := sinkLog (host s) |} s.

Definition set_onstopQueued (v : nat) (s : App) : App :=
  set_host
    {| now := now (host s);
       nextId := nextId (host s);
       timers := timers (host s);
       rafRequests := rafRequests (host s);
       liveStreams := liveStreams (host s);
       analyserData := analyserData (host s);
       calStore := calStore (host s);
       onstopQueued := v;
       sinkLog := sinkLog (host s) |} s.

Definition set_sinkLog (v : list (SinkRequest * RecorderState)) (s : App) : App :=
  set_host
    {| now := now (host s);
       nextId := nextId (host s);
       timers := timers (host s);
       rafRequests := rafRequests (host s);
       liveStreams := liveStreams (host s);
       analyserData := analyserData (host s);
       calStore := calStore (host s);
       onstopQueued := onstopQueued (host s);
       sinkLog := v |} s.

(** ** Comparisons of enumerated values ([===]) *)

Definition isCalibrating (st : RecordingState) : bool :=
  match st with CALIBRATING => true | _ => false end.

Definition isIdleOrStopped (st : RecordingState) : bool :=
  match st with IDLE | STOPPED => true | _ => false end.

(** A stored handle is truthy when it is present and not 0. *)
Definition truthy (r : option nat) : bool :=
  match r with
  | Some (S _) => true
  | _ => false
  end.

(** ** The browser's services *)

(** A fresh handle.  Handles are positive, as the browser's are. *)
Definition fresh (s : App) : nat * App :=
  let id := S (nextId (host s)) in (id, set_nextId id s).

Definition setTimer (cb : Callback) (delay : Z) (per : option Z) (s : App)
  : nat * App :=
  let (id, s1) := fresh s in
  (id, set_timers
         (timers (host s1) ++ [mkTimer id (now (host s1) + delay) per cb]) s1).

Definition setTimeout (cb : Callback) (delay : Z) (s : App) : nat * App :=
  setTimer cb delay None s.

Definition setInterval (cb : Callback) (delay : Z) (s : App) : nat * App :=
  setTimer cb delay (Some delay) s.

Definition clearTimeout (id : nat) (s : App) : App :=
  set_timers (filter (fun t => negb (Nat.eqb (tid t) id)) (timers (host s))) s.

Definition clearInterval (id : nat) (s : App) : App := clearTimeout id s.

Definition requestAnimationFrame (closure : RecordingState) (s : App)
  : nat * App :=
  let (id, s1) := fresh s in
  (id, set_rafRequests (rafRequests (host s1) ++ [(id, closure)]) s1).

Definition cancelAnimationFrame (id : nat) (s : App) : App :=
  set_rafRequests
    (filter (fun r => negb (Nat.eqb (fst r) id)) (rafRequests (host s))) s.

(** [track.stop()] on every track of a stream. *)
Definition stopTracks (stream : nat) (s : App) : App :=
  set_liveStreams
    (filter (fun i => negb (Nat.eqb i stream)) (liveStreams (host s))) s.

(** [new Uint8Array(frequencyBinCount)] filled by [getByteFrequencyData]:
    the array is zero-initialised and holds exactly [frequencyBinCount]
    bytes of the analyser's current data. *)
Definition getByteFrequencyData (s : App) : list byte :=
  firstn frequencyBinCount
         (analyserData (host s) ++ repeat x00 frequencyBinCount).

(** The [calibrationData] array of a calibration closure. *)
Fixpoint calibrationData (cal : nat) (store : list (nat * list Q)) : list Q :=
  match store with
  | [] => []
  | (c, data) :: rest =>
      if Nat.eqb c cal then data else calibrationData cal rest
  end.

(** [calibrationData.push(v)] *)
Fixpoint pushCalibration (cal : nat) (v : Q) (store : list (nat * list Q))
  : list (nat * list Q) :=
  match store with
  | [] => []
  | (c, data) :: rest =>
      if Nat.eqb c cal then (c, data ++ [v]) :: rest
      else (c, data) :: pushCalibration cal v rest
  end.

(** ** The capture sink: a [MediaRecorder] *)

(** The state of the recorder after a request.  A request the recorder's
    state does not admit leaves the state as it is. *)
Definition recorderAfter (r : SinkRequest) (st : RecorderState)
  : RecorderState :=
  match r, st with
  | SinkStart, inactive => recording
  | SinkPause, recording => paused
  | SinkResume, paused => recording
  | SinkStop, _ => inactive
  | _, _ => st
  end.

(** A method call on [mediaRecorderRef.current]: the sink records the
    request with the state it was in, and changes state. *)
Definition request (r : SinkRequest) (s : App) : App :=
  match mediaRecorderRef (refs s) with
  | Some st =>
      set_mediaRecorderRef (Some (recorderAfter r st))
        (set_sinkLog (sinkLog (host s) ++ [(r, st)]) s)
  | None => s
  end.

(** ** [cleanup] *)

Definition cleanup (s : App) : App :=
  let s1 :=
    match animationFrameRef (refs s) with
    | O => s
    | S _ => cancelAnimationFrame (animationFrameRef (refs s)) s
    end in
  let s2 :=
    match streamRef (refs s1) with
    | Some stream => set_streamRef None (stopTracks stream s1)
    | None => s1
    end in
  let s3 :=
    match audioContextRef (refs s2) with
    | Some closed => s2
    | Some _ => set_audioContextRef (Some closed) s2
    | None => s2
    end in
  set_recordedChunksRef [] (set_mediaRecorderRef None s3).

(** ** [runAudioAnalysis]

    [closure] is the [recordingState] of the render that created the
    callback; the callback reschedules itself, so the value is the same for
    the whole life of one analysis loop. *)

(** The callback given to [setTimeout] when silence begins. *)
Definition silenceTimeout (s : App) : App :=
  match mediaRecorderRef (refs s) with
  | Some recording => set_recordingState PAUSED (request SinkPause s)
  | _ => s
  end.

(** [animationFrameRef.current = requestAnimationFrame(runAudioAnalysis)] *)
Definition scheduleAnalysis (closure : RecordingState) (s : App) : App :=
  let (id, s1) := requestAnimationFrame closure s in
  set_animationFrameRef id s1.

Definition runAudioAnalysis (closure : RecordingState) (s : App) : App :=
  if negb (analyserRef (refs s)) || isCalibrating closure then
    scheduleAnalysis closure s
  else
    let dataArray := getByteFrequencyData s in
    let volume := averageVolume dataArray in
    let silent := isSilent volume (silenceThresholdRef (refs s)) in
    let s1 :=
      match mediaRecorderRef (refs s) with
      | Some recording =>
          if silent then
            if negb (truthy (silenceTimerRef (refs s))) then
              let (id, s') :=
                setTimeout SilenceTimeout SILENCE_DETECTION_TIME_MS s in
              set_silenceTimerRef (Some id) s'
            else s
          else
            match silenceTimerRef (refs s) with
            | Some (S _ as id) => set_silenceTimerRef None (clearTimeout id s)
            | _ => s
            end
      | Some paused =>
          if silent then s
          else set_recordingState RECORDING (request SinkResume s)
      | _ => s
      end in
    scheduleAnalysis closure s1.

(** ** [startActualRecording]

    [new MediaRecorder] creates the sink inactive, with its two handlers
    attached; [start(1000)] is the sink's start request. *)
Definition startActualRecording (closure : RecordingState) (s : App) : App :=
  match streamRef (refs s) with
  | None => s
  | Some _ =>
      let s1 := set_recordingState RECORDING s in
      let s2 := set_mediaRecorderRef (Some inactive) s1 in
      let s3 := request SinkStart s2 in
      runAudioAnalysis closure s3
  end.

(** [mediaRecorderRef.current.ondataavailable] *)
Definition ondataavailable (size : Z) (s : App) : App :=
  if 0 <? size then
    set_recordedChunksRef (recordedChunksRef (refs s) ++ [size]) s
  else s.

(** [mediaRecorderRef.current.onstop] *)
Definition onstop (s : App) : App :=
  let url := ObjectURL (recordedChunksRef (refs s)) in
  cleanup (set_videoUrl (Some url) s).

(** ** [startCalibration] *)

(** What acquiring the media turns out to be: [getUserMedia] rejects with an
    error of the given name; or it resolves and the construction of the
    audio context throws; or the context is created, in the given state, and
    connecting the stream to it throws; or everything is acquired. *)
Inductive AcquireOutcome :=
| GetUserMediaRejects (name : string)
| AudioContextThrows (name : string)
| CreateSourceThrows (ctx : AudioContextState) (name : string)
| Acquired (ctx : AudioContextState).

Definition orientationName (o : Orientation) : string :=
  match o with
  | landscape => "landscape"
  | portrait => "portrait"
  end.

(** The message reported for an error, by the error's name. *)
Definition errorMessage (o : Orientation) (name : string) : string :=
  if String.eqb name "OverconstrainedError" then
    "The selected camera does not support " ++ orientationName o
    ++ " orientation. Please try another setting or camera."
  else "Could not access camera/microphone. Please check permissions.".

(** The [catch] block. *)
Definition catchBlock (o : Orientation) (name : string) (s : App) : App :=
  cleanup (set_recordingState IDLE (set_error (Some (errorMessage o name)) s)).

(** [collectCalibrationData] of the calibration [cal]. *)
Definition collectCalibrationData (cal : nat) (s : App) : App :=
  match audioContextRef (refs s) with
  | Some running =>
      if analyserRef (refs s) then
        let dataArray := getByteFrequencyData s in
        let volume := averageVolume dataArray in
        set_calStore (pushCalibration cal volume (calStore (host s))) s
      else s
  | _ => s
  end.

(** The callback given to [setTimeout] for the end of the calibration. *)
Definition calibrationTimeout
    (cal collectionInterval countdownInterval : nat)
    (closure : RecordingState) (s : App) : App :=
  let s1 := clearInterval collectionInterval s in
  let s2 := clearInterval countdownInterval s1 in
  let s3 :=
    set_silenceThresholdRef
      (noiseFloor (calibrationData cal (calStore (host s2)))) s2 in
  startActualRecording closure s3.

(** [getUserMedia] resolved: the stream is stored and its tracks are live. *)
Definition storeStream (s : App) : App :=
  let (stream, s1) := fresh s in
  let s2 := set_liveStreams (liveStreams (host s1) ++ [stream]) s1 in
  set_hasPermissions true (set_streamRef (Some stream) s2).

(** The handler runs in the render that created it, so the analysis loop it
    will start closes over the [recordingState] current at the call.  The
    handler awaits [getUserMedia]; it is taken as one step, together with
    the outcome of the acquisition. *)
Definition startCalibration (o : Orientation) (outcome : AcquireOutcome)
    (s : App) : App :=
  let closure := recordingState (react s) in
  let s0 :=
    set_recordedChunksRef []
      (set_videoUrl None (set_error None (set_recordingState CALIBRATING s))) in
  match outcome with
  | GetUserMediaRejects name => catchBlock o name s0
  | AudioContextThrows name => catchBlock o name (storeStream s0)
  | CreateSourceThrows ctx name =>
      catchBlock o name (set_audioContextRef (Some ctx) (storeStream s0))
  | Acquired ctx =>
      let s1 := set_audioContextRef (Some ctx) (storeStream s0) in
      let s2 := set_analyserRef true s1 in
      let (cal, s3) := fresh s2 in
      let s4 := set_calStore (calStore (host s3) ++ [(cal, [])]) s3 in
      let s5 := set_calibrationCountdown CALIBRATION_TIME_MS s4 in
      let (countdownInterval, s6) := setInterval CountdownTick 100 s5 in
      let (collectionInterval, s7) :=
        setInterval (CollectCalibrationData cal) 50 s6 in
      snd (setTimeout
             (CalibrationTimeout cal collectionInterval countdownInterval
                                 closure)
             CALIBRATION_TIME_MS s7)
  end.

(** ** [stopRecording] and [handleReset] *)

(** [MediaRecorder.stop()]: an active recorder becomes inactive and its
    [stop] event is queued. *)
Definition stopRecorder (s : App) : App :=
  match mediaRecorderRef (refs s) with
  | Some inactive => request SinkStop s
  | Some _ => set_onstopQueued (S (onstopQueued (host s))) (request SinkStop s)
  | None => s
  end.

Definition stopRecording (s : App) : App :=
  let s1 :=
    match mediaRecorderRef (refs s) with
    | Some _ =>
        if negb (isIdleOrStopped (recordingState (react s))) then
          set_recordingState STOPPED (stopRecorder s)
        else s
    | None => s
    end in
  match silenceTimerRef (refs s1) with
  | Some (S _ as id) => clearTimeout id s1
  | _ => s1
  end.

Definition handleReset (s : App) : App :=
  cleanup (set_error None (set_videoUrl None (set_recordingState IDLE s))).

(** The handlers the rendered controls offer in each state
    ([renderControls]): the button shown while calibrating is disabled. *)
Inductive Handler := StartCalibration | StopRecording | HandleReset.

Definition renderControls (st : RecordingState) : list Handler :=
  match st with
  | IDLE => [StartCalibration]
  | CALIBRATING => []
  | RECORDING | PAUSED => [StopRecording]
  | STOPPED => [HandleReset]
  end.

(** ** The event loop *)

Definition runCallback (cb : Callback) (s : App) : App :=
  match cb with
  | SilenceTimeout => silenceTimeout s
  | CountdownTick =>
      set_calibrationCountdown (calibrationCountdown (react s) - 100) s
  | CollectCalibrationData cal => collectCalibrationData cal s
  | CalibrationTimeout cal collectionInterval countdownInterval closure =>
      calibrationTimeout cal collectionInterval countdownInterval closure s
  end.

(** An interval is armed again one period later; a timeout leaves the
    table. *)
Definition rearm (id : nat) (t : Timer) (s : App) : App :=
  match period t with
  | Some p =>
      set_timers
        (map (fun u => if Nat.eqb (tid u) id
                       then mkTimer (tid u) (due u + p) (period u) (callback u)
                       else u)
             (timers (host s))) s
  | None => clearTimeout id s
  end.

(** The browser runs the callback of a pending timer. *)
Definition fire (id : nat) (s : App) : App :=
  match find (fun t => Nat.eqb (tid t) id) (timers (host s)) with
  | Some t => runCallback (callback t) (rearm id t s)
  | None => s
  end.

Definition dueTimers (s : App) : list nat :=
  map tid (filter (fun t => due t <=? now (host s)) (timers (host s))).

(** One millisecond passes; the timers that are due run in table order, a
    timer cleared by an earlier callback does not run. *)
Definition advance1 (s : App) : App :=
  let s1 := set_now (now (host s) + 1) s in
  fold_left (fun acc id => fire id acc) (dueTimers s1) s1.

Fixpoint elapse (ms : nat) (s : App) : App :=
  match ms with
  | O => s
  | S k => elapse k (advance1 s)
  end.

(** The browser runs the animation-frame callbacks requested so far. *)
Definition animationFrame (s : App) : App :=
  fold_left (fun acc r => runAudioAnalysis (snd r) acc)
            (rafRequests (host s)) (set_rafRequests [] s).

(** The [stop] event of the recorder is delivered, if one is queued. *)
Definition deliverStop (s : App) : App :=
  match onstopQueued (host s) with
  | O => s
  | S k => onstop (set_onstopQueued k s)
  end.

Inductive Event :=
| Audio (data : list byte)
| AnimationFrame
| Elapse (ms : nat)
| Start (o : Orientation) (outcome : AcquireOutcome)
| Stop
| Reset
| DataAvailable (size : Z)
| RecorderStopped.

Definition step (s : App) (e : Event) : App :=
  match e with
  | Audio data => set_analyserData data s
  | AnimationFrame => animationFrame s
  | Elapse ms => elapse ms s
  | Start o outcome => startCalibration o outcome s
  | Stop => stopRecording s
  | Reset => handleReset s
  | DataAvailable size => ondataavailable size s
  | RecorderStopped => deliverStop s
  end.

Definition run (events : list Event) (s : App) : App :=
  fold_left step events s.

(** The handler an event invokes, when it is a user's. *)
Definition handlerOf (e : Event) : option Handler :=
  match e with
  | Start _ _ => Some StartCalibration
  | Stop => Some StopRecording
  | Reset => Some HandleReset
  | _ => None
  end.

Definition Handler_eqb (a b : Handler) : bool :=
  match a, b with
  | StartCalibration, StartCalibration => true
  | StopRecording, StopRecording => true
  | HandleReset, HandleReset => true
  | _, _ => false
  end.

(** An event can happen through the user interface when it is the
    browser's, or when the controls rendered for the current state offer its
    handler. *)
Definition offered (s : App) (e : Event) : bool :=
  match handlerOf e with
  | Some h => existsb (Handler_eqb h) (renderControls (recordingState (react s)))
  | None => true
  end.

(** ** Properties of states and of executions *)

(** A logged request is admitted when the sink was in the state the
    request is made for: a pause reached a recording sink, a resume a paused
    one. *)
Definition admitted (entry : SinkRequest * RecorderState) : Prop :=
  match fst entry with
  | SinkPause => snd entry = recording
  | SinkResume => snd entry = paused
  | _ => True
  end.

(** Every request the sink has received so far was admitted. *)
Definition wellSequenced (s : App) : Prop :=
  Forall admitted (sinkLog (host s)).

(** The number of pause requests among the requests received. *)
Definition pauseCount (log : list (SinkRequest * RecorderState)) : nat :=
  length (filter (fun entry => match fst entry with
                               | SinkPause => true
                               | _ => false
                               end) log).

(** The name of the error of a failed acquisition. *)
Definition failureName (outcome : AcquireOutcome) : option string :=
  match outcome with
  | GetUserMediaRejects name => Some name
  | AudioContextThrows name => Some name
  | CreateSourceThrows _ name => Some name
  | Acquired _ => None
  end.

(** An audio context reference holds no open context. *)
Definition contextReleased (r : option AudioContextState) : Prop :=
  r = None \/ r = Some closed.

(** The two classes of acquisition errors the messages tell apart. *)
Inductive ErrorClass := ConstraintUnsupported | DeviceUnavailable.

Definition classOfMessage (o : Orientation) (message : string)
  : option ErrorClass :=
  if String.eqb message (errorMessage o "OverconstrainedError")
  then Some ConstraintUnsupported
  else if String.eqb message (errorMessage o "NotAllowedError")
  then Some DeviceUnavailable
  else None.

Definition classOfName (name : string) : ErrorClass :=
  if String.eqb name "OverconstrainedError"
  then ConstraintUnsupported else DeviceUnavailable.

(** The frame the classifier reads after the analyser's data is [data]. *)
Definition frameOf (data : list byte) : list byte :=
  firstn frequencyBinCount (data ++ repeat x00 frequencyBinCount).

(** An event during which no sound is heard: time passes, an animation frame
    runs, or the analyser's data changes to a frame that is silent against
    the threshold of noise floor [nf]. *)
Definition quiet (nf : Q) (e : Event) : Prop :=
  match e with
  | AnimationFrame => True
  | Elapse _ => True
  | Audio data => isSilent (averageVolume (frameOf data)) nf = true
  | _ => False
  end.

(** The sink is recording in silence while [silenceTimerRef] still names a
    timer that is no longer pending, and no timer is pending at all. *)
Definition staleTimer (nf : Q) (log : list (SinkRequest * RecorderState))
    (s : App) : Prop :=
  recordingState (react s) = RECORDING
  /\ mediaRecorderRef (refs s) = Some recording
  /\ truthy (silenceTimerRef (refs s)) = true
  /\ timers (host s) = []
  /\ isSilent (averageVolume (getByteFrequencyData s)) nf = true
  /\ silenceThresholdRef (refs s) = nf
  /\ sinkLog (host s) = log.

(** ** Scenarios *)

Definition silentFrame : list byte := repeat x00 128.
Definition loudFrame : list byte := repeat x40 128.

(** [n] animation frames, each followed by [spacing] milliseconds. *)
Fixpoint frames (n spacing : nat) : list Event :=
  match n with
  | O => []
  | S k => AnimationFrame :: Elapse spacing :: frames k spacing
  end.

(** A session is started in a quiet room and calibrates for 3000 ms. *)
Definition calibrate : list Event :=
  [Start landscape (Acquired running); Audio quietFrame; Elapse 3000].

(** 200 ms of speech, sampled every 50 ms. *)
Definition speak : list Event := Audio loudFrame :: frames 4 50.

(** Silence, sampled [n] times at 50 ms spacing. *)
Definition fallSilent (n : nat) : list Event :=
  Audio silentFrame :: frames n 50.

(** A first session: calibration, speech, then 11 silent samples. *)
Definition untilPaused : list Event := calibrate ++ speak ++ fallSilent 11.

(** One loud sample resumes the recording, then the room is silent again. *)
Definition afterResume : App :=
  run (untilPaused ++ [Audio loudFrame; AnimationFrame; Audio silentFrame])
      initial.

(** A first session is stopped 150 ms into a silence and reset; a second
    session is started and calibrates in a silent room. *)
Definition untilRestarted : list Event :=
  calibrate ++ speak ++ fallSilent 3
  ++ [Stop; RecorderStopped; Reset;
      Start landscape (Acquired running); Audio silentFrame; Elapse 3000].

Definition afterRestart : App := run untilRestarted initial.

(** A session that is still calibrating, one second in. *)
Definition whileCalibrating : App :=
  run [Start landscape (Acquired running); Audio quietFrame; Elapse 1000]
      initial.

(** The first session is paused and the analyser hears a loud frame. *)
Definition pausedHearingSound : App :=
  run (untilPaused ++ [Audio loudFrame]) initial.

(** Every event of a scenario is offered in the state it happens in. *)
Fixpoint allOffered (events : list Event) (s : App) : bool :=
  match events with
  | [] => true
  | e :: rest => offered s e && allOffered rest (step s e)
  end.

(** Sound and silence alternate every 400 ms, [n] times, sampled every
    50 ms. *)
Fixpoint alternate (n : nat) : list Event :=
  match n with
  | O => []
  | S k =>
      (Audio loudFrame :: frames 8 50) ++ (Audio silentFrame :: frames 8 50)
      ++ alternate k
  end.

(** ** Device enumeration and the selected camera *)

(** [MediaDeviceInfo], with the fields the component reads. *)
Inductive MediaDeviceKind := audioinput | audiooutput | videoinput.

Record MediaDeviceInfo := mkMediaDeviceInfo {
  deviceId : string;
  kind : MediaDeviceKind;
  label : string
}.

Definition isVideoInput (device : MediaDeviceInfo) : bool :=
  match kind device with
  | videoinput => true
  | _ => false
  end.

(** [getDevices]: [enumerated] is what [enumerateDevices] resolved to, or
    [None] when it rejected; the result is the new value of [devices]. *)
Definition getDevices (enumerated : option (list MediaDeviceInfo))
    (devices : list MediaDeviceInfo) : list MediaDeviceInfo :=
  match enumerated with
  | Some allDevices => filter isVideoInput allDevices
  | None => devices
  end.

(** The effect on [devices] and [selectedDeviceId]: the new value of
    [selectedDeviceId]. *)
Definition selectAvailableDevice (devices : list MediaDeviceInfo)
    (selectedDeviceId : string) : string :=
  match devices with
  | first :: _ =>
      if negb (existsb (fun d => String.eqb (deviceId d) selectedDeviceId)
                       devices)
      then deviceId first
      else selectedDeviceId
  | [] => selectedDeviceId
  end.

(** ** The video constraints of [startCalibration] *)

Record MediaTrackConstraints := mkMediaTrackConstraints {
  exactDeviceId : option string;
  idealAspectRatio : Q;
  idealWidth : Z;
  idealHeight : Z
}.

Definition videoConstraints (selectedDeviceId : string) (o : Orientation)
  : MediaTrackConstraints :=
  let exact :=
    if String.eqb selectedDeviceId "" then None else Some selectedDeviceId in
  match o with
  | landscape =>
      {| exactDeviceId := exact; idealAspectRatio := 16 # 9;
         idealWidth := 1280; idealHeight := 720 |}
  | portrait =>
      {| exactDeviceId := exact; idealAspectRatio := 9 # 16;
         idealWidth := 720; idealHeight := 1280 |}
  end.

(** ** VideoPreview.tsx *)

(** The [video] element, with what the effect touches: its two sources,
    [muted], [controls], the class list, and how often [load] and [play]
    have been called. *)
Record VideoElement := mkVideoElement {
  srcObject : option nat;
  src : option Url;
  muted : bool;
  controls : bool;
  classList : list string;
  loadCalls : nat;
  playCalls : nat
}.

Definition mirrorClass : string := "scale-x-[-1]".

(** [classList.add] and [classList.remove] *)
Definition classListAdd (c : string) (classes : list string) : list string :=
  if existsb (String.eqb c) classes then classes else classes ++ [c].

Definition classListRemove (c : string) (classes : list string)
  : list string :=
  filter (fun x => negb (String.eqb x c)) classes.

(** The effect of [VideoPreview] on [videoRef.current]. *)
Definition previewEffect (stream : option nat) (videoUrl : option Url)
    (isMirrored : bool) (videoElement : option VideoElement)
  : option VideoElement :=
  match videoElement with
  | None => None
  | Some el =>
      match videoUrl, stream with
      | Some url, _ =>
          Some {| srcObject := None; src := Some url; muted := false;
                  controls := true;
                  classList := classListRemove mirrorClass (classList el);
                  loadCalls := S (loadCalls el);
                  playCalls := S (playCalls el) |}
      | None, Some st =>
          Some {| srcObject := Some st; src := None; muted := true;
                  controls := false;
                  classList :=
                    if isMirrored
                    then classListAdd mirrorClass (classList el)
                    else classListRemove mirrorClass (classList el);
                  loadCalls := loadCalls el;
                  playCalls := S (playCalls el) |}
      | None, None =>
          Some {| srcObject := None; src := None; muted := muted el;
                  controls := false; classList := classList el;
                  loadCalls := loadCalls el; playCalls := playCalls el |}
      end
  end.

(** The attributes of the element that decide what it shows. *)
Definition attributes (el : VideoElement)
  : option nat * option Url * bool * bool * list string :=
  (srcObject el, src el, muted el, controls el, classList el).

(** The preview as [App] renders it in a state: the stream held, the saved
    URL, and the effect the render triggers. *)
Definition renderPreview (s : App) (isMirrored : bool)
    (videoElement : option VideoElement) : option VideoElement :=
  previewEffect (streamRef (refs s)) (videoUrl (react s)) isMirrored
                videoElement.

(** ** Invariants of the executions the controls allow *)

(** The streams a reference holds. *)
Definition heldStream (r : option nat) : list nat :=
  match r with
  | Some stream => [stream]
  | None => []
  end.

(** No stream is live but the one [streamRef] holds, and none is held while
    idle. *)
Definition streamsInv (s : App) : Prop :=
  (recordingState (react s) = IDLE -> streamRef (refs s) = None)
  /\ liveStreams (host s) = heldStream (streamRef (refs s)).

(** The displayed state agrees with the state of the recorder held. *)
Definition agrees (st : RecordingState) (r : option RecorderState) : Prop :=
  match r with
  | Some recording => st = RECORDING
  | Some paused => st = PAUSED
  | Some inactive => st = STOPPED
  | None => True
  end.

(** The sessions a [MediaRecorder] admits: start when inactive, pause when
    recording, resume when paused, stop when recording or paused.  A request
    made in another state, or logged with another state than the session is
    in, ends the run with [None]. *)
Definition sinkStep (q : option RecorderState)
    (entry : SinkRequest * RecorderState) : option RecorderState :=
  match q, entry with
  | Some inactive, (SinkStart, inactive) => Some recording
  | Some recording, (SinkPause, recording) => Some paused
  | Some paused, (SinkResume, paused) => Some recording
  | Some recording, (SinkStop, recording) => Some inactive
  | Some paused, (SinkStop, paused) => Some inactive
  | _, _ => None
  end.

Definition sinkSession (log : list (SinkRequest * RecorderState))
  : option RecorderState :=
  fold_left sinkStep log (Some inactive).

(** The requests made so far form admitted sessions; the recorder held is in
    the state the last session is in; a session is open only while the
    controller is in Recording or Paused. *)
Definition protocolInv (s : App) : Prop :=
  exists q : RecorderState,
    sinkSession (sinkLog (host s)) = Some q
    /\ (forall r : RecorderState, mediaRecorderRef (refs s) = Some r -> r = q)
    /\ (q <> inactive ->
        recordingState (react s) = RECORDING
        \/ recordingState (react s) = PAUSED).

(** At most one analysis callback is pending; it is the one
    [animationFrameRef] names and it closes over IDLE; none is pending while
    idle or calibrating. *)
Definition loopInv (s : App) : Prop :=
  (rafRequests (host s) = []
   \/ exists n : nat,
        animationFrameRef (refs s) = S n
        /\ rafRequests (host s) = [(S n, IDLE)])
  /\ (recordingState (react s) = IDLE
      \/ recordingState (react s) = CALIBRATING ->
      rafRequests (host s) = []).

Definition isCalibrationTimeout (t : Timer) : bool :=
  match callback t with
  | CalibrationTimeout _ _ _ _ => true
  | _ => false
  end.

Definition closureOf (cb : Callback) : option RecordingState :=
  match cb with
  | CalibrationTimeout _ _ _ closure => Some closure
  | _ => None
  end.

(** The calibrations whose window has not expired. *)
Definition pendingCalibrations (s : App) : list Timer :=
  filter isCalibrationTimeout (timers (host s)).

(** At most one calibration is pending, only while calibrating; its expiry
    is a timeout, not an interval, and closes over IDLE. *)
Definition calibrationInv (s : App) : Prop :=
  match pendingCalibrations s with
  | [] => True
  | [t] =>
      recordingState (react s) = CALIBRATING
      /\ period t = None
      /\ closureOf (callback t) = Some IDLE
  | _ => False
  end.

Definition uiInvariant (s : App) : Prop :=
  streamsInv s
  /\ agrees (recordingState (react s)) (mediaRecorderRef (refs s))
  /\ protocolInv s
  /\ loopInv s
  /\ calibrationInv s.

Definition isSilenceTimeout (t : Timer) : bool :=
  match callback t with
  | SilenceTimeout => true
  | _ => false
  end.

(** The silence timers that are pending. *)
Definition pendingPauses (s : App) : list Timer :=
  filter isSilenceTimeout (timers (host s)).

(** At most one silence timer is pending, and it is the one
    [silenceTimerRef] names. *)
Definition silenceInv (s : App) : Prop :=
  match pendingPauses s with
  | [] => True
  | [t] => silenceTimerRef (refs s) = Some (tid t) /\ tid t <> 0%nat
  | _ => False
  end.

(** The stored noise floor and every calibration sample collected are
    energies: they lie between 0 and 255. *)
Definition thresholdInv (s : App) : Prop :=
  (0 <= silenceThresholdRef (refs s) <= 255)%Q
  /\ Forall (fun entry => Forall (fun x => 0 <= x <= 255)%Q (snd entry))
            (calStore (host s)).

(** ** A calibration in a steady room *)

(** The states of a session started at the first render, with an audio
    context in state [ctx], while the analyser's data stays [data]: they
    differ in
    the displayed state and countdown, the recorder, the silence timer
    reference, the noise floor, the frame reference, the clock, the last
    handle, the timers, the frame requests, the samples collected and the
    requests made of the sink. *)
Definition steadySession (ctx : AudioContextState) (data : list byte)
    (st : RecordingState) (countdown : Z) (recorder : option RecorderState)
    (silenceTimer : option nat) (threshold : Q) (frame : nat)
    (clock : Z) (lastId : nat) (pending : list Timer)
    (requests : list (nat * RecordingState)) (samples : list Q)
    (log : list (SinkRequest * RecorderState)) : App :=
  {| react := {| recordingState := st; videoUrl := None; error := None;
                 calibrationCountdown := countdown;
                 hasPermissions := true |};
     refs := {| streamRef := Some 1%nat; mediaRecorderRef := recorder;
                recordedChunksRef := []; audioContextRef := Some ctx;
                analyserRef := true; silenceTimerRef := silenceTimer;
                silenceThresholdRef := threshold;
                animationFrameRef := frame |};
     host := {| now := clock; nextId := lastId; timers := pending;
                rafRequests := requests; liveStreams := [1%nat];
                analyserData := data; calStore := [(2%nat, samples)];
                onstopQueued := 0%nat; sinkLog := log |} |}.

(** The energy of the room. *)
Definition roomEnergy (data : list byte) : Q := averageVolume (frameOf data).

(** One millisecond before the calibration window expires: 59 samples have
    been collected. *)
Definition beforeExpiry (data : list byte) : App :=
  steadySession running data CALIBRATING 100 None None 0 0%nat 2999 5%nat
    [mkTimer 3 3000 (Some 100) CountdownTick;
     mkTimer 4 3000 (Some 50) (CollectCalibrationData 2);
     mkTimer 5 3000 None (CalibrationTimeout 2 4 3 IDLE)]
    [] (repeat (roomEnergy data) 59) [].

(** At expiry, when the two intervals have run for the last time. *)
Definition atExpiry (data : list byte) : App :=
  steadySession running data CALIBRATING 0 None None 0 0%nat 3000 5%nat
    [mkTimer 3 3100 (Some 100) CountdownTick;
     mkTimer 4 3050 (Some 50) (CollectCalibrationData 2);
     mkTimer 5 3000 None (CalibrationTimeout 2 4 3 IDLE)]
    [] (repeat (roomEnergy data) 60) [].

(** When the window has expired: the recording has started and its first
    analysis has armed the silence timer. *)
Definition afterExpiry (data : list byte) : App :=
  steadySession running data RECORDING 0 (Some recording) (Some 6%nat)
    (noiseFloor (repeat (roomEnergy data) 60))
    7%nat 3000 7%nat
    [mkTimer 6 3500 None SilenceTimeout] [(7%nat, IDLE)]
    (repeat (roomEnergy data) 60)
    [(SinkStart, inactive)].

(** The same session when the audio context is not running: no sample is
    collected.  The state in which [startActualRecording] runs its first
    analysis. *)
Definition unsampledRecording (ctx : AudioContextState) (data : list byte)
  : App :=
  steadySession ctx data RECORDING 0 (Some recording) None 1 0%nat 3000 5%nat
    [] [] [] [(SinkStart, inactive)].

(** ** The debounce, once the timer is armed *)

(** The sink records in silence and the only pending timer is the silence
    timer, named by [silenceTimerRef] and due at [deadline], which has not
    been reached. *)
Definition armed (nf : Q) (deadline : Z)
    (log : list (SinkRequest * RecorderState)) (s : App) : Prop :=
  recordingState (react s) = RECORDING
  /\ mediaRecorderRef (refs s) = Some recording
  /\ (exists id : nat,
        silenceTimerRef (refs s) = Some (S id)
        /\ timers (host s) = [mkTimer (S id) deadline None SilenceTimeout])
  /\ now (host s) < deadline
  /\ isSilent (averageVolume (getByteFrequencyData s)) nf = true
  /\ silenceThresholdRef (refs s) = nf
  /\ sinkLog (host s) = log.

(** The deadline has passed: the sink has been paused, once, and no timer
    is pending. *)
Definition pausedBySilence (nf : Q) (deadline : Z)
    (log : list (SinkRequest * RecorderState)) (s : App) : Prop :=
  recordingState (react s) = PAUSED
  /\ mediaRecorderRef (refs s) = Some paused
  /\ timers (host s) = []
  /\ deadline <= now (host s)
  /\ isSilent (averageVolume (getByteFrequencyData s)) nf = true
  /\ silenceThresholdRef (refs s) = nf
  /\ sinkLog (host s) = log ++ [(SinkPause, recording)].

Definition debouncing (nf : Q) (deadline : Z)
    (log : list (SinkRequest * RecorderState)) (s : App) : Prop :=
  armed nf deadline log s \/ pausedBySilence nf deadline log s.

(** ** Facts about numbers *)

Lemma Qltb_lt (x y : Q) : Qltb x y = true <-> (x < y)%Q.
Proof.
  unfold Qltb. rewrite Qlt_alt.
  destruct (x ?= y)%Q; split; intro H; try reflexivity; discriminate H.
Qed.

Lemma Qltb_ge (x y : Q) : Qltb x y = false <-> (y <= x)%Q.
Proof.
  split; intro H.
  - apply Qnot_lt_le. intro L. apply Qltb_lt in L. congruence.
  - destruct (Qltb x y) eqn:E; [|reflexivity].
    apply Qltb_lt in E. exfalso. exact (Qle_not_lt _ _ H E).
Qed.

Lemma fold_left_add_shift (l : list Z) (a : Z) :
  fold_left (fun acc val => acc + val) l a = a + fold_right Z.add 0 l.
Proof.
  revert a. induction l as [|x l IH]; intro a; simpl.
  - lia.
  - rewrite IH. lia.
Qed.

Lemma THRESHOLD_MULTIPLIER_pos : (0 < THRESHOLD_MULTIPLIER)%Q.
Proof. reflexivity. Qed.

(** ** The classifier *)

(** C3 (confirmed).  For a data array of [frequencyBinCount] bins and any
    stored noise floor, the sample is silent exactly when the mean of its bin
    magnitudes is strictly below the noise floor times 1.8; a sample whose
    mean equals that threshold is not silent, it is Sound. *)
Theorem C3_classification_is_strict_comparison
    (dataArray : list byte) (nf : Q)
    (Hlen : length dataArray = frequencyBinCount) :
  (isSilent (averageVolume dataArray) nf = true <->
   (inject_Z (sumOfBins dataArray) / 128 < nf * (18 # 10))%Q)
  /\ (classify (averageVolume dataArray) (SilenceThreshold nf) = Silent <->
      isSilent (averageVolume dataArray) nf = true)
  /\ ((inject_Z (sumOfBins dataArray) / 128 == nf * (18 # 10))%Q ->
      classify (averageVolume dataArray) (SilenceThreshold nf) = Sound).
Proof.
  assert (E : averageVolume dataArray
              = (inject_Z (sumOfBins dataArray) / 128)%Q).
  { unfold averageVolume. rewrite Hlen, fold_left_add_shift. reflexivity. }
  rewrite E. unfold isSilent, classify, SilenceThreshold, THRESHOLD_MULTIPLIER.
  split; [apply Qltb_lt|]. split.
  - destruct (Qltb _ _); split; intro H; try reflexivity; discriminate H.
  - intro Heq. rewrite (proj2 (Qltb_ge _ _)); [reflexivity|].
    rewrite Heq. apply Qle_refl.
Qed.

Lemma C3_classification_witness :
  length (repeat x09 128) = frequencyBinCount
  /\ classify (averageVolume (repeat x09 128)) (SilenceThreshold 5) = Sound.
Proof.
  split; [reflexivity|].
  apply (C3_classification_is_strict_comparison (repeat x09 128) 5 eq_refl).
  reflexivity.
Defined.

(** C9 (corrected), the claim as stated fails: raising the threshold does
    turn a Sound classification into Silent.  A frame whose bins are all 5
    has energy 5; it is Sound against the threshold of noise floor 1 (1.8)
    and Silent against the higher threshold of noise floor 5 (9). *)
Lemma C9_raising_threshold_turns_sound_into_silent :
  ~ (forall (dataArray : list byte) (nf1 nf2 : Q),
        (SilenceThreshold nf1 <= SilenceThreshold nf2)%Q ->
        classify (averageVolume dataArray) (SilenceThreshold nf1) = Sound ->
        classify (averageVolume dataArray) (SilenceThreshold nf2) = Sound).
Proof.
  intro H.
  specialize (H (repeat x05 128) 1%Q 5%Q).
  assert (D : Silent = Sound) by (apply H; [discriminate | reflexivity]).
  discriminate D.
Qed.

(** C9 (corrected), the amended claim: classification is monotonic in the
    threshold in the other direction.  Lowering the threshold never turns a
    Sound classification into Silent (equivalently, raising it never turns
    Silent into Sound), while raising the threshold may turn Sound into
    Silent. *)
Theorem C9_classify_monotonic_in_threshold :
  (forall (sample t1 t2 : Q),
      (t2 <= t1)%Q ->
      classify sample t1 = Sound -> classify sample t2 = Sound)
  /\ (forall (sample t1 t2 : Q),
      (t1 <= t2)%Q ->
      classify sample t1 = Silent -> classify sample t2 = Silent)
  /\ (forall (volume nf1 nf2 : Q),
      (nf2 <= nf1)%Q ->
      isSilent volume nf1 = false -> isSilent volume nf2 = false)
  /\ (exists (dataArray : list byte) (nf1 nf2 : Q),
      (SilenceThreshold nf1 <= SilenceThreshold nf2)%Q
      /\ classify (averageVolume dataArray) (SilenceThreshold nf1) = Sound
      /\ classify (averageVolume dataArray) (SilenceThreshold nf2) = Silent).
Proof.
  split; [|split].
  - intros sample t1 t2 Hle. unfold classify.
    destruct (Qltb sample t1) eqn:E1; [discriminate|]. intros _.
    apply Qltb_ge in E1.
    rewrite (proj2 (Qltb_ge sample t2)); [reflexivity|].
    apply Qle_trans with t1; assumption.
  - intros sample t1 t2 Hle. unfold classify.
    destruct (Qltb sample t1) eqn:E1; [|discriminate]. intros _.
    apply Qltb_lt in E1.
    rewrite (proj2 (Qltb_lt sample t2)); [reflexivity|].
    apply Qlt_le_trans with t1; assumption.
  - split.
    { intros volume nf1 nf2 Hle. unfold isSilent. intro E1.
      apply Qltb_ge in E1. apply Qltb_ge.
      apply Qle_trans with (nf1 * THRESHOLD_MULTIPLIER)%Q; [|exact E1].
      apply Qmult_le_compat_r; [exact Hle|].
      apply Qlt_le_weak, THRESHOLD_MULTIPLIER_pos. }
    exists (repeat x05 128), 1%Q, 5%Q.
    split; [discriminate|]. split; reflexivity.
Qed.

Lemma C9_classify_monotonic_witness :
  (SilenceThreshold 1 <= SilenceThreshold 5)%Q
  /\ classify (averageVolume (repeat x09 128)) (SilenceThreshold 5) = Sound
  /\ classify (averageVolume (repeat x09 128)) (SilenceThreshold 1) = Sound.
Proof.
  assert (Hle : (SilenceThreshold 1 <= SilenceThreshold 5)%Q) by discriminate.
  assert (Hs : classify (averageVolume (repeat x09 128)) (SilenceThreshold 5) = Sound)
    by reflexivity.
  split; [exact Hle|]. split; [exact Hs|].
  exact (proj1 C9_classify_monotonic_in_threshold _ _ _ Hle Hs).
Defined.

(** ** The calibrator *)

Lemma fold_left_Qplus_shift (l : list Q) (a : Q) :
  (fold_left (fun a b => a + b) l a == a + fold_right Qplus 0 l)%Q.
Proof.
  revert a. induction l as [|x l IH]; intro a; simpl.
  - ring.
  - rewrite IH. ring.
Qed.

Lemma calibrationAverage_mean (l : list Q) :
  (calibrationAverage l == arithmeticMean l)%Q.
Proof.
  unfold calibrationAverage, arithmeticMean.
  rewrite fold_left_Qplus_shift. rewrite Qplus_0_l. reflexivity.
Qed.

Lemma length_pos_nonempty {A : Type} (l : list A) :
  (0 <? Z.of_nat (length l)) = true <-> l <> [].
Proof.
  destruct l; simpl; split; intro H; try reflexivity; try discriminate.
  contradiction.
Qed.

(** The analysis never writes the stored noise floor. *)
Lemma runAudioAnalysis_threshold (closure : RecordingState) (s : App) :
  silenceThresholdRef (refs (runAudioAnalysis closure s))
  = silenceThresholdRef (refs s).
Proof.
  unfold runAudioAnalysis.
  destruct (negb (analyserRef (refs s)) || isCalibrating closure);
    [reflexivity|].
  cbv zeta.
  destruct (mediaRecorderRef (refs s)) as [[| |]|]; try reflexivity.
  - destruct (isSilent _ _).
    + destruct (negb (truthy (silenceTimerRef (refs s)))); reflexivity.
    + destruct (silenceTimerRef (refs s)) as [[|n]|]; reflexivity.
  - destruct (isSilent _ _); [reflexivity|].
    unfold request. destruct (mediaRecorderRef (refs s)); reflexivity.
Qed.

(** When the calibration window expires, the value stored as noise floor is
    [noiseFloor] of the samples the calibration has collected. *)
Lemma calibrationTimeout_threshold
    (cal ci cdi : nat) (closure : RecordingState) (s : App) :
  silenceThresholdRef (refs (calibrationTimeout cal ci cdi closure s))
  = noiseFloor (calibrationData cal (calStore (host s))).
Proof.
  unfold calibrationTimeout, startActualRecording. cbn.
  destruct (streamRef (refs s)); [|reflexivity].
  rewrite runAudioAnalysis_threshold. reflexivity.
Qed.

(** C4 (corrected), the claim as stated fails: a positive mean below 1 is
    not raised to 1.  One calibration sample of energy 1/2 gives the noise
    floor 1/2, while the maximum of the mean and 1 is 1. *)
Lemma C4_noise_floor_is_not_floored_to_one :
  ~ (forall samples : list Q,
        samples <> [] ->
        (noiseFloor samples == Qmax (arithmeticMean samples) 1)%Q).
Proof.
  intro H.
  specialize (H [averageVolume quietFrame]).
  assert (E : (noiseFloor [averageVolume quietFrame]
               == Qmax (arithmeticMean [averageVolume quietFrame]) 1)%Q)
    by (apply H; discriminate).
  vm_compute in E. discriminate E.
Qed.

(** C4 (corrected), the amended claim: when the calibration window expires
    the noise floor stored is computed from the samples collected; it is
    their arithmetic mean when that mean is greater than 0, and the constant
    1 when the mean is not greater than 0 and when no samples were
    collected. *)
Theorem C4_noise_floor_on_expiry (samples : list Q) :
  (forall (cal ci cdi : nat) (closure : RecordingState) (s : App),
      silenceThresholdRef (refs (calibrationTimeout cal ci cdi closure s))
      = noiseFloor (calibrationData cal (calStore (host s))))
  /\ (samples = [] -> noiseFloor samples = 1%Q)
  /\ (samples <> [] -> (0 < arithmeticMean samples)%Q ->
      (noiseFloor samples == arithmeticMean samples)%Q)
  /\ (samples <> [] -> (arithmeticMean samples <= 0)%Q ->
      noiseFloor samples = 1%Q).
Proof.
  split; [exact calibrationTimeout_threshold|].
  unfold noiseFloor. split; [|split].
  - intros ->. reflexivity.
  - intros Hne Hpos.
    rewrite (proj2 (length_pos_nonempty samples) Hne).
    rewrite (proj2 (Qltb_lt 0 (calibrationAverage samples))).
    + apply calibrationAverage_mean.
    + rewrite calibrationAverage_mean. exact Hpos.
  - intros Hne Hle.
    rewrite (proj2 (length_pos_nonempty samples) Hne).
    rewrite (proj2 (Qltb_ge 0 (calibrationAverage samples)));
      [reflexivity|].
    rewrite calibrationAverage_mean. exact Hle.
Qed.

Lemma C4_noise_floor_witness :
  [averageVolume quietFrame] <> []
  /\ (0 < arithmeticMean [averageVolume quietFrame])%Q
  /\ (noiseFloor [averageVolume quietFrame]
      == arithmeticMean [averageVolume quietFrame])%Q.
Proof.
  assert (Hne : [averageVolume quietFrame] <> []) by discriminate.
  assert (Hpos : (0 < arithmeticMean [averageVolume quietFrame])%Q)
    by reflexivity.
  split; [exact Hne|]. split; [exact Hpos|].
  exact (proj1 (proj2 (proj2 (C4_noise_floor_on_expiry _))) Hne Hpos).
Defined.

(** C5 (confirmed).  For every calibration sample set, empty or not, the
    noise floor computed on expiry is strictly greater than 0, and so is the
    value the expiry callback stores.  (The samples need not even be
    non-negative.) *)
Theorem C5_noise_floor_positive (samples : list Q) :
  (0 < noiseFloor samples)%Q
  /\ (forall (cal ci cdi : nat) (closure : RecordingState) (s : App),
      (0 < silenceThresholdRef
             (refs (calibrationTimeout cal ci cdi closure s)))%Q).
Proof.
  assert (P : forall l : list Q, (0 < noiseFloor l)%Q).
  { intro l. unfold noiseFloor.
    destruct (0 <? Z.of_nat (length l)); [|reflexivity].
    cbv zeta.
    destruct (Qltb 0 (calibrationAverage l)) eqn:E.
    - apply Qltb_lt. exact E.
    - reflexivity. }
  split; [apply P|].
  intros. rewrite calibrationTimeout_threshold. apply P.
Qed.

(** ** The sink only receives requests it admits *)

Ltac break_match :=
  match goal with
  | |- context [match ?x with _ => _ end] => destruct x eqn:?
  | |- context [if ?x then _ else _] => destruct x eqn:?
  end.

Lemma wellSequenced_snoc (s : App) (entry : SinkRequest * RecorderState) :
  wellSequenced s -> admitted entry ->
  Forall admitted (sinkLog (host s) ++ [entry]).
Proof.
  intros Hs He. apply Forall_app. split; [exact Hs|].
  constructor; [exact He | constructor].
Qed.

Lemma sinkLog_cleanup (s : App) :
  sinkLog (host (cleanup s)) = sinkLog (host s).
Proof. unfold cleanup. repeat break_match; reflexivity. Qed.

Lemma sinkLog_scheduleAnalysis (closure : RecordingState) (s : App) :
  sinkLog (host (scheduleAnalysis closure s)) = sinkLog (host s).
Proof. reflexivity. Qed.

Lemma wellSequenced_silenceTimeout (s : App) :
  wellSequenced s -> wellSequenced (silenceTimeout s).
Proof.
  intro H. unfold silenceTimeout.
  destruct (mediaRecorderRef (refs s)) as [[| |]|] eqn:E; try exact H.
  unfold wellSequenced, request. rewrite E. cbn.
  apply wellSequenced_snoc; [exact H | reflexivity].
Qed.

Lemma wellSequenced_runAudioAnalysis (closure : RecordingState) (s : App) :
  wellSequenced s -> wellSequenced (runAudioAnalysis closure s).
Proof.
  intro H. unfold wellSequenced, runAudioAnalysis.
  destruct (negb (analyserRef (refs s)) || isCalibrating closure);
    [exact H|].
  cbv zeta. rewrite sinkLog_scheduleAnalysis.
  destruct (mediaRecorderRef (refs s)) as [[| |]|] eqn:E; try exact H.
  - destruct (isSilent _ _).
    + destruct (negb (truthy (silenceTimerRef (refs s)))); exact H.
    + destruct (silenceTimerRef (refs s)) as [[|n]|]; exact H.
  - destruct (isSilent _ _); [exact H|].
    unfold request. rewrite E. cbn.
    apply wellSequenced_snoc; [exact H | reflexivity].
Qed.

Lemma wellSequenced_startActualRecording (closure : RecordingState) (s : App) :
  wellSequenced s -> wellSequenced (startActualRecording closure s).
Proof.
  intro H. unfold startActualRecording.
  destruct (streamRef (refs s)); [|exact H].
  apply wellSequenced_runAudioAnalysis.
  unfold wellSequenced, request. cbn.
  apply wellSequenced_snoc; [exact H | exact I].
Qed.

Lemma wellSequenced_runCallback (cb : Callback) (s : App) :
  wellSequenced s -> wellSequenced (runCallback cb s).
Proof.
  intro H. destruct cb; cbn.
  - apply wellSequenced_silenceTimeout, H.
  - exact H.
  - unfold collectCalibrationData. repeat break_match; exact H.
  - apply wellSequenced_startActualRecording. exact H.
Qed.

Lemma wellSequenced_fire (id : nat) (s : App) :
  wellSequenced s -> wellSequenced (fire id s).
Proof.
  intro H. unfold fire.
  destruct (find _ _) as [t|]; [|exact H].
  apply wellSequenced_runCallback.
  unfold rearm. destruct (period t); exact H.
Qed.

Lemma wellSequenced_advance1 (s : App) :
  wellSequenced s -> wellSequenced (advance1 s).
Proof.
  intro H. unfold advance1.
  assert (G : forall ids acc, wellSequenced acc ->
              wellSequenced (fold_left (fun a id => fire id a) ids acc)).
  { induction ids as [|id ids IH]; intros acc Ha; simpl.
    - exact Ha.
    - apply IH, wellSequenced_fire, Ha. }
  apply G. exact H.
Qed.

Lemma wellSequenced_elapse (ms : nat) (s : App) :
  wellSequenced s -> wellSequenced (elapse ms s).
Proof.
  revert s. induction ms as [|k IH]; intros s H; simpl.
  - exact H.
  - apply IH, wellSequenced_advance1, H.
Qed.

Lemma wellSequenced_animationFrame (s : App) :
  wellSequenced s -> wellSequenced (animationFrame s).
Proof.
  intro H. unfold animationFrame.
  assert (G : forall rs acc, wellSequenced acc ->
              wellSequenced
                (fold_left (fun a (r : nat * RecordingState) =>
                              runAudioAnalysis (snd r) a) rs acc)).
  { induction rs as [|r rs IH]; intros acc Ha; simpl.
    - exact Ha.
    - apply IH, wellSequenced_runAudioAnalysis, Ha. }
  apply G. exact H.
Qed.

Lemma wellSequenced_startCalibration
    (o : Orientation) (outcome : AcquireOutcome) (s : App) :
  wellSequenced s -> wellSequenced (startCalibration o outcome s).
Proof.
  intro H. unfold wellSequenced, startCalibration.
  destruct outcome; unfold catchBlock; rewrite ?sinkLog_cleanup; exact H.
Qed.

Lemma wellSequenced_stopRecording (s : App) :
  wellSequenced s -> wellSequenced (stopRecording s).
Proof.
  intro H. unfold stopRecording.
  assert (G : wellSequenced
                match mediaRecorderRef (refs s) with
                | Some _ =>
                    if negb (isIdleOrStopped (recordingState (react s)))
                    then set_recordingState STOPPED (stopRecorder s)
                    else s
                | None => s
                end).
  { destruct (mediaRecorderRef (refs s)) as [st|] eqn:E; [|exact H].
    destruct (negb _); [|exact H].
    unfold wellSequenced, stopRecorder, request. rewrite E.
    destruct st; cbn; apply wellSequenced_snoc; try exact H; exact I. }
  revert G. generalize (match mediaRecorderRef (refs s) with
                | Some _ =>
                    if negb (isIdleOrStopped (recordingState (react s)))
                    then set_recordingState STOPPED (stopRecorder s)
                    else s
                | None => s
                end).
  intros s1 G. destruct (silenceTimerRef (refs s1)) as [[|n]|]; exact G.
Qed.

Lemma wellSequenced_step (s : App) (e : Event) :
  wellSequenced s -> wellSequenced (step s e).
Proof.
  intro H. destruct e; cbn.
  - exact H.
  - apply wellSequenced_animationFrame, H.
  - apply wellSequenced_elapse, H.
  - apply wellSequenced_startCalibration, H.
  - apply wellSequenced_stopRecording, H.
  - unfold wellSequenced, handleReset. rewrite sinkLog_cleanup. exact H.
  - unfold ondataavailable. destruct (0 <? size); exact H.
  - unfold deliverStop. destruct (onstopQueued (host s)); [exact H|].
    unfold wellSequenced, onstop. rewrite sinkLog_cleanup. exact H.
Qed.

Lemma wellSequenced_run (events : list Event) (s : App) :
  wellSequenced s -> wellSequenced (run events s).
Proof.
  revert s. induction events as [|e events IH]; intros s H; simpl.
  - exact H.
  - apply IH, wellSequenced_step, H.
Qed.

(** C6 (confirmed).  In every execution from the first render, whatever the
    events and their order, each pause request reached the sink while it was
    recording and each resume request while it was paused.  In particular
    the deferred pause of the silence timer is issued exactly when the sink
    is recording at expiry: otherwise the callback changes nothing. *)
Theorem C6_sink_requests_respect_sink_state (events : list Event) :
  wellSequenced (run events initial)
  /\ (forall s : App,
        mediaRecorderRef (refs s) <> Some recording -> silenceTimeout s = s)
  /\ (forall s : App,
        mediaRecorderRef (refs s) = Some recording ->
        sinkLog (host (silenceTimeout s))
        = sinkLog (host s) ++ [(SinkPause, recording)]).
Proof.
  split; [|split].
  - apply wellSequenced_run. constructor.
  - intros s H. unfold silenceTimeout.
    destruct (mediaRecorderRef (refs s)) as [[| |]|]; try reflexivity.
    exfalso. apply H. reflexivity.
  - intros s H. unfold silenceTimeout, request. rewrite H. reflexivity.
Qed.

Lemma C6_sink_requests_witness :
  sinkLog (host afterResume)
  = [(SinkStart, inactive); (SinkPause, recording); (SinkResume, paused)]
  /\ wellSequenced afterResume
  /\ silenceTimeout initial = initial.
Proof.
  split; [vm_compute; reflexivity|]. split.
  - exact (proj1 (C6_sink_requests_respect_sink_state
                    (untilPaused
                     ++ [Audio loudFrame; AnimationFrame; Audio silentFrame]))).
  - apply (proj1 (proj2 (C6_sink_requests_respect_sink_state []))).
    discriminate.
Defined.

(** ** Resume *)

Lemma resume_on_sound (closure : RecordingState) (s : App) :
  analyserRef (refs s) = true ->
  closure <> CALIBRATING ->
  mediaRecorderRef (refs s) = Some paused ->
  classify (averageVolume (getByteFrequencyData s))
           (SilenceThreshold (silenceThresholdRef (refs s))) = Sound ->
  recordingState (react (runAudioAnalysis closure s)) = RECORDING
  /\ mediaRecorderRef (refs (runAudioAnalysis closure s)) = Some recording
  /\ sinkLog (host (runAudioAnalysis closure s))
     = sinkLog (host s) ++ [(SinkResume, paused)]
  /\ timers (host (runAudioAnalysis closure s)) = timers (host s).
Proof.
  intros Hanalyser Hclosure Hpaused Hsound.
  assert (Hs : isSilent (averageVolume (getByteFrequencyData s))
                        (silenceThresholdRef (refs s)) = false).
  { revert Hsound. unfold classify, SilenceThreshold, isSilent.
    destruct (Qltb _ _); [discriminate | reflexivity]. }
  unfold runAudioAnalysis. rewrite Hanalyser.
  assert (Hc : isCalibrating closure = false)
    by (destruct closure; try reflexivity; exfalso; apply Hclosure; reflexivity).
  rewrite Hc. cbn [negb orb]. cbv zeta. rewrite Hpaused, Hs.
  unfold request. rewrite Hpaused. repeat split; reflexivity.
Qed.

(** C2 (confirmed).  When the analysis runs while the sink is paused and the
    sample is Sound, that one run requests resume of the paused sink and
    sets the controller to Recording; no timer is armed or awaited.  So the
    animation frame on which the running analysis loop sees the first Sound
    sample ends with the controller in Recording. *)
Theorem C2_resume_is_immediate (closure : RecordingState) (s : App)
    (Hanalyser : analyserRef (refs s) = true)
    (Hclosure : closure <> CALIBRATING)
    (Hpaused : mediaRecorderRef (refs s) = Some paused)
    (Hsound : classify (averageVolume (getByteFrequencyData s))
                       (SilenceThreshold (silenceThresholdRef (refs s)))
              = Sound) :
  (recordingState (react (runAudioAnalysis closure s)) = RECORDING
   /\ mediaRecorderRef (refs (runAudioAnalysis closure s)) = Some recording
   /\ sinkLog (host (runAudioAnalysis closure s))
      = sinkLog (host s) ++ [(SinkResume, paused)]
   /\ timers (host (runAudioAnalysis closure s)) = timers (host s))
  /\ (forall id : nat,
        rafRequests (host s) = [(id, closure)] ->
        recordingState (react (step s AnimationFrame)) = RECORDING
        /\ mediaRecorderRef (refs (step s AnimationFrame)) = Some recording
        /\ sinkLog (host (step s AnimationFrame))
           = sinkLog (host s) ++ [(SinkResume, paused)]
        /\ timers (host (step s AnimationFrame)) = timers (host s)).
Proof.
  split.
  - apply resume_on_sound; assumption.
  - intros id Hraf. cbn [step]. unfold animationFrame. rewrite Hraf.
    cbn [fold_left snd].
    exact (resume_on_sound closure (set_rafRequests [] s)
             Hanalyser Hclosure Hpaused Hsound).
Qed.

Lemma C2_resume_witness :
  recordingState (react pausedHearingSound) = PAUSED
  /\ recordingState (react (step pausedHearingSound AnimationFrame))
     = RECORDING.
Proof.
  assert (Hanalyser : analyserRef (refs pausedHearingSound) = true)
    by (vm_compute; reflexivity).
  assert (Hclosure : IDLE <> CALIBRATING) by discriminate.
  assert (Hpaused : mediaRecorderRef (refs pausedHearingSound) = Some paused)
    by (vm_compute; reflexivity).
  assert (Hsound :
            classify (averageVolume (getByteFrequencyData pausedHearingSound))
              (SilenceThreshold (silenceThresholdRef (refs pausedHearingSound)))
            = Sound)
    by (vm_compute; reflexivity).
  assert (Hraf : rafRequests (host pausedHearingSound) = [(23%nat, IDLE)])
    by (vm_compute; reflexivity).
  split; [vm_compute; reflexivity|].
  exact (proj1 (proj2 (C2_resume_is_immediate IDLE pausedHearingSound
                         Hanalyser Hclosure Hpaused Hsound) 23%nat Hraf)).
Defined.

(** ** Stop while calibrating *)

(** C7 (corrected), the claim as stated fails.  One second into a
    calibration a stop request leaves the controller in Calibrating with the
    stream still live and the calibration timers still pending; two seconds
    later the window expires, the noise floor is computed (one half, the
    room's energy) and the sink is started. *)
Lemma C7_stop_while_calibrating_does_not_abort :
  recordingState (react whileCalibrating) = CALIBRATING
  /\ recordingState (react (step whileCalibrating Stop)) <> IDLE
  /\ liveStreams (host (step whileCalibrating Stop)) <> []
  /\ timers (host (step whileCalibrating Stop))
     = timers (host whileCalibrating)
  /\ (silenceThresholdRef
        (refs (run [Stop; Elapse 2000] whileCalibrating)) == 1 # 2)%Q
  /\ sinkLog (host (run [Stop; Elapse 2000] whileCalibrating))
     = [(SinkStart, inactive)]
  /\ recordingState (react (run [Stop; Elapse 2000] whileCalibrating))
     = RECORDING.
Proof.
  split; [vm_compute; reflexivity|].
  split; [vm_compute; discriminate|].
  split; [vm_compute; discriminate|].
  vm_compute. repeat split; reflexivity.
Qed.

(** C7 (corrected), the amended claim.  A stop request received while in
    Calibrating, when no recorder has been created yet, does not abort: the
    controller stays in Calibrating, no reference changes, no stream is
    released and the sink receives nothing; the only effect is that the
    timer named by the silence-timer reference, if any, is cancelled.  The
    controls rendered while calibrating offer no stop.  When the calibration
    window then expires with the stream still held, the noise floor is
    computed from the samples collected, the sink is started and the
    controller is in Recording. *)
Theorem C7_stop_while_calibrating_is_ignored (s : App)
    (Hcal : recordingState (react s) = CALIBRATING)
    (Hrec : mediaRecorderRef (refs s) = None) :
  renderControls (recordingState (react s)) = []
  /\ react (stopRecording s) = react s
  /\ refs (stopRecording s) = refs s
  /\ liveStreams (host (stopRecording s)) = liveStreams (host s)
  /\ sinkLog (host (stopRecording s)) = sinkLog (host s)
  /\ calStore (host (stopRecording s)) = calStore (host s)
  /\ (forall t : Timer,
        In t (timers (host s)) ->
        silenceTimerRef (refs s) <> Some (tid t) ->
        In t (timers (host (stopRecording s))))
  /\ (forall (cal ci cdi : nat) (closure : RecordingState),
        streamRef (refs s) <> None ->
        let s' := calibrationTimeout cal ci cdi closure (stopRecording s) in
        silenceThresholdRef (refs s')
        = noiseFloor (calibrationData cal (calStore (host s)))
        /\ sinkLog (host s') = sinkLog (host s) ++ [(SinkStart, inactive)]
        /\ recordingState (react s') = RECORDING).
Proof.
  assert (E : stopRecording s
              = match silenceTimerRef (refs s) with
                | Some (S _ as id) => clearTimeout id s
                | _ => s
                end).
  { unfold stopRecording. rewrite Hrec. reflexivity. }
  rewrite E, Hcal.
  split; [reflexivity|].
  split; [destruct (silenceTimerRef (refs s)) as [[|n]|]; reflexivity|].
  split; [destruct (silenceTimerRef (refs s)) as [[|n]|]; reflexivity|].
  split; [destruct (silenceTimerRef (refs s)) as [[|n]|]; reflexivity|].
  split; [destruct (silenceTimerRef (refs s)) as [[|n]|]; reflexivity|].
  split; [destruct (silenceTimerRef (refs s)) as [[|n]|]; reflexivity|].
  split.
  - intros t Hin Hne.
    destruct (silenceTimerRef (refs s)) as [[|n]|]; try exact Hin.
    cbn. apply filter_In. split; [exact Hin|].
    apply negb_true_iff, Nat.eqb_neq. intro Heq. apply Hne. congruence.
  - intros cal ci cdi closure Hstream.
    assert (G : forall s0 : App,
               streamRef (refs s0) <> None ->
               mediaRecorderRef (refs s0) = None ->
               let s' := calibrationTimeout cal ci cdi closure s0 in
               silenceThresholdRef (refs s')
               = noiseFloor (calibrationData cal (calStore (host s0)))
               /\ sinkLog (host s') = sinkLog (host s0) ++ [(SinkStart, inactive)]
               /\ recordingState (react s') = RECORDING).
    { intros s0 Hst _. cbv zeta. unfold calibrationTimeout, startActualRecording.
      cbn. destruct (streamRef (refs s0)) as [stream|] eqn:Es;
        [|exfalso; apply Hst; reflexivity].
      unfold runAudioAnalysis. cbn.
      destruct (negb (analyserRef (refs s0)) || isCalibrating closure);
        [cbn; repeat split; reflexivity|].
      destruct (isSilent _ _).
      - destruct (negb (truthy (silenceTimerRef (refs s0))));
          cbn; repeat split; reflexivity.
      - destruct (silenceTimerRef (refs s0)) as [[|n]|];
          cbn; repeat split; reflexivity. }
    destruct (silenceTimerRef (refs s)) as [[|n]|];
      [ exact (G s Hstream Hrec)
      | exact (G (clearTimeout (S n) s) Hstream Hrec)
      | exact (G s Hstream Hrec) ].
Qed.

(** A reset while calibrating does return to Idle and releases the stream,
    and the sink is never started; the noise floor is still computed when
    the window expires. *)
Example reset_while_calibrating :
  recordingState (react (run [Reset; Elapse 2000] whileCalibrating)) = IDLE
  /\ liveStreams (host (run [Reset; Elapse 2000] whileCalibrating)) = []
  /\ sinkLog (host (run [Reset; Elapse 2000] whileCalibrating)) = []
  /\ (silenceThresholdRef
        (refs (run [Reset; Elapse 2000] whileCalibrating)) == 1 # 2)%Q.
Proof. vm_compute. repeat split; reflexivity. Qed.

Lemma C7_stop_while_calibrating_witness :
  recordingState (react whileCalibrating) = CALIBRATING
  /\ mediaRecorderRef (refs whileCalibrating) = None
  /\ react (stopRecording whileCalibrating) = react whileCalibrating.
Proof.
  assert (Hcal : recordingState (react whileCalibrating) = CALIBRATING)
    by (vm_compute; reflexivity).
  assert (Hrec : mediaRecorderRef (refs whileCalibrating) = None)
    by (vm_compute; reflexivity).
  split; [exact Hcal|]. split; [exact Hrec|].
  exact (proj1 (proj2
           (C7_stop_while_calibrating_is_ignored whileCalibrating Hcal Hrec))).
Defined.

(** ** [cleanup] releases what the references hold *)

Lemma not_In_filter_neq (x : nat) (l : list nat) :
  ~ In x (filter (fun i => negb (Nat.eqb i x)) l).
Proof.
  intro H. apply filter_In in H. destruct H as [_ H].
  rewrite Nat.eqb_refl in H. discriminate H.
Qed.

Lemma In_filter_incl {A : Type} (f : A -> bool) (x : A) (l : list A) :
  In x (filter f l) -> In x l.
Proof. intro H. apply filter_In in H. exact (proj1 H). Qed.

Lemma cleanup_preserves (s : App) :
  react (cleanup s) = react s
  /\ timers (host (cleanup s)) = timers (host s)
  /\ calStore (host (cleanup s)) = calStore (host s)
  /\ now (host (cleanup s)) = now (host s).
Proof. unfold cleanup. repeat break_match; repeat split; reflexivity. Qed.

Lemma cleanup_refs (s : App) :
  streamRef (refs (cleanup s)) = None
  /\ mediaRecorderRef (refs (cleanup s)) = None
  /\ recordedChunksRef (refs (cleanup s)) = []
  /\ contextReleased (audioContextRef (refs (cleanup s))).
Proof.
  unfold cleanup, contextReleased.
  destruct (animationFrameRef (refs s));
    destruct (streamRef (refs s)) eqn:Es; cbn; rewrite ?Es; cbn;
    destruct (audioContextRef (refs s)) as [[| |]|] eqn:Ec; cbn; rewrite ?Ec;
    repeat split; auto.
Qed.

Lemma cleanup_liveStreams (s : App) :
  liveStreams (host (cleanup s))
  = match streamRef (refs s) with
    | Some stream =>
        filter (fun i => negb (Nat.eqb i stream)) (liveStreams (host s))
    | None => liveStreams (host s)
    end.
Proof.
  unfold cleanup.
  destruct (animationFrameRef (refs s));
    destruct (streamRef (refs s)) eqn:Es; cbn; rewrite ?Es; cbn;
    destruct (audioContextRef (refs s)) as [[| |]|] eqn:Ec; cbn; rewrite ?Ec;
    reflexivity.
Qed.

Lemma cleanup_rafRequests (s : App) :
  rafRequests (host (cleanup s))
  = match animationFrameRef (refs s) with
    | O => rafRequests (host s)
    | S _ =>
        filter (fun r => negb (Nat.eqb (fst r) (animationFrameRef (refs s))))
               (rafRequests (host s))
    end.
Proof.
  unfold cleanup.
  destruct (animationFrameRef (refs s)) eqn:Ea;
    destruct (streamRef (refs s)) eqn:Es; cbn; rewrite ?Es; cbn;
    destruct (audioContextRef (refs s)) as [[| |]|] eqn:Ec; cbn; rewrite ?Ec;
    reflexivity.
Qed.

(** ** Reset *)

(** C10 (confirmed).  [handleReset] has no guard: from every state it yields
    Idle with the saved video URL and the error message cleared, the stream
    reference emptied and that stream's tracks stopped, the audio context
    closed, the recorder reference dropped, the buffered chunks discarded and
    the pending analysis frame cancelled. *)
Theorem C10_reset_from_any_state (s : App) :
  recordingState (react (handleReset s)) = IDLE
  /\ videoUrl (react (handleReset s)) = None
  /\ error (react (handleReset s)) = None
  /\ streamRef (refs (handleReset s)) = None
  /\ (forall stream : nat,
        streamRef (refs s) = Some stream ->
        ~ In stream (liveStreams (host (handleReset s))))
  /\ (forall stream : nat,
        In stream (liveStreams (host (handleReset s))) ->
        In stream (liveStreams (host s)))
  /\ contextReleased (audioContextRef (refs (handleReset s)))
  /\ mediaRecorderRef (refs (handleReset s)) = None
  /\ recordedChunksRef (refs (handleReset s)) = []
  /\ (animationFrameRef (refs s) <> 0%nat ->
      ~ In (animationFrameRef (refs s))
           (map fst (rafRequests (host (handleReset s))))).
Proof.
  unfold handleReset.
  set (s0 := set_error None (set_videoUrl None (set_recordingState IDLE s))).
  destruct (cleanup_preserves s0) as [Hreact _].
  destruct (cleanup_refs s0) as [Hstream [Hrec [Hchunks Hctx]]].
  rewrite Hreact.
  split; [reflexivity|]. split; [reflexivity|]. split; [reflexivity|].
  split; [exact Hstream|].
  split; [|split].
  - intros stream Hs. rewrite cleanup_liveStreams.
    change (streamRef (refs s0)) with (streamRef (refs s)). rewrite Hs.
    apply not_In_filter_neq.
  - intros stream. rewrite cleanup_liveStreams.
    change (streamRef (refs s0)) with (streamRef (refs s)).
    change (liveStreams (host s0)) with (liveStreams (host s)).
    destruct (streamRef (refs s)); [apply In_filter_incl | exact (fun H => H)].
  - split; [exact Hctx|]. split; [exact Hrec|]. split; [exact Hchunks|].
    intros Hne. rewrite cleanup_rafRequests.
    change (animationFrameRef (refs s0)) with (animationFrameRef (refs s)).
    change (rafRequests (host s0)) with (rafRequests (host s)).
    destruct (animationFrameRef (refs s)) as [|k] eqn:Ea;
      [exfalso; apply Hne; reflexivity|].
    intro Hin. apply in_map_iff in Hin. destruct Hin as [r [Hfst Hin]].
    apply filter_In in Hin. destruct Hin as [_ Hin].
    rewrite Hfst, Nat.eqb_refl in Hin. discriminate Hin.
Qed.

Lemma C10_reset_witness :
  streamRef (refs afterResume) = Some 1%nat
  /\ recordingState (react afterResume) = RECORDING
  /\ ~ In 1%nat (liveStreams (host (handleReset afterResume))).
Proof.
  assert (Hs : streamRef (refs afterResume) = Some 1%nat)
    by (vm_compute; reflexivity).
  split; [exact Hs|]. split; [vm_compute; reflexivity|].
  exact (proj1 (proj2 (proj2 (proj2 (proj2
           (C10_reset_from_any_state afterResume))))) 1%nat Hs).
Defined.

(** ** Failed acquisition *)

Lemma errorMessage_classified (o : Orientation) (name : string) :
  classOfMessage o (errorMessage o name) = Some (classOfName name).
Proof.
  unfold classOfMessage, classOfName, errorMessage.
  destruct (String.eqb name "OverconstrainedError");
    destruct o; vm_compute; reflexivity.
Qed.

Lemma catchBlock_spec (o : Orientation) (name : string) (s : App) :
  recordingState (react (catchBlock o name s)) = IDLE
  /\ error (react (catchBlock o name s)) = Some (errorMessage o name)
  /\ streamRef (refs (catchBlock o name s)) = None
  /\ contextReleased (audioContextRef (refs (catchBlock o name s)))
  /\ mediaRecorderRef (refs (catchBlock o name s)) = None
  /\ recordedChunksRef (refs (catchBlock o name s)) = []
  /\ timers (host (catchBlock o name s)) = timers (host s)
  /\ sinkLog (host (catchBlock o name s)) = sinkLog (host s).
Proof.
  unfold catchBlock.
  set (s0 := set_recordingState IDLE (set_error (Some (errorMessage o name)) s)).
  destruct (cleanup_preserves s0) as [Hreact [Htimers _]].
  destruct (cleanup_refs s0) as [Hstream [Hrec [Hchunks Hctx]]].
  rewrite Hreact, Htimers, sinkLog_cleanup.
  repeat split; assumption || reflexivity.
Qed.

Lemma catchBlock_liveStreams (o : Orientation) (name : string) (s : App) :
  forall stream : nat,
    In stream (liveStreams (host (catchBlock o name s))) ->
    In stream (liveStreams (host s)) /\ streamRef (refs s) <> Some stream.
Proof.
  intros stream. unfold catchBlock. rewrite cleanup_liveStreams. cbn.
  destruct (streamRef (refs s)) as [held|].
  - intro H. apply filter_In in H. destruct H as [Hin Hne]. split; [exact Hin|].
    intro Heq. injection Heq as ->. rewrite Nat.eqb_refl in Hne. discriminate.
  - intro H. split; [exact H | discriminate].
Qed.

(** C8 (confirmed).  When acquiring the media fails, at whichever step, the
    error is reported by a message that tells an unsupported constraint from
    an unavailable device, the controller is back in Idle, and everything
    acquired so far is released: the stream reference is empty and no stream
    is live that was not live before (in particular none at all when none
    was before), the audio context is closed, no recorder exists.  Nothing is
    scheduled: the pending timers are those of before, so no retry and no
    calibration follow, and the sink has received nothing. *)
Theorem C8_failed_acquisition_reverts_to_idle
    (o : Orientation) (outcome : AcquireOutcome) (name : string) (s : App)
    (Hfail : failureName outcome = Some name) :
  recordingState (react (startCalibration o outcome s)) = IDLE
  /\ error (react (startCalibration o outcome s)) = Some (errorMessage o name)
  /\ classOfMessage o (errorMessage o name) = Some (classOfName name)
  /\ streamRef (refs (startCalibration o outcome s)) = None
  /\ (forall stream : nat,
        In stream (liveStreams (host (startCalibration o outcome s))) ->
        In stream (liveStreams (host s)))
  /\ (liveStreams (host s) = [] ->
      liveStreams (host (startCalibration o outcome s)) = [])
  /\ contextReleased (audioContextRef (refs (startCalibration o outcome s)))
  /\ mediaRecorderRef (refs (startCalibration o outcome s)) = None
  /\ timers (host (startCalibration o outcome s)) = timers (host s)
  /\ sinkLog (host (startCalibration o outcome s)) = sinkLog (host s).
Proof.
  assert (Hincl : forall stream : nat,
             In stream (liveStreams (host (startCalibration o outcome s))) ->
             In stream (liveStreams (host s))).
  { intros stream Hin. unfold startCalibration in Hin.
    destruct outcome as [n|n|ctx n|ctx]; try discriminate Hfail;
      apply catchBlock_liveStreams in Hin; destruct Hin as [Hin Hne];
      cbn in Hin, Hne.
    - exact Hin.
    - apply in_app_or in Hin. destruct Hin as [Hin|[Heq|[]]]; [exact Hin|].
      exfalso. apply Hne. rewrite Heq. reflexivity.
    - apply in_app_or in Hin. destruct Hin as [Hin|[Heq|[]]]; [exact Hin|].
      exfalso. apply Hne. rewrite Heq. reflexivity. }
  assert (Hrest :
    recordingState (react (startCalibration o outcome s)) = IDLE
    /\ error (react (startCalibration o outcome s)) = Some (errorMessage o name)
    /\ streamRef (refs (startCalibration o outcome s)) = None
    /\ contextReleased (audioContextRef (refs (startCalibration o outcome s)))
    /\ mediaRecorderRef (refs (startCalibration o outcome s)) = None
    /\ recordedChunksRef (refs (startCalibration o outcome s)) = []
    /\ timers (host (startCalibration o outcome s)) = timers (host s)
    /\ sinkLog (host (startCalibration o outcome s)) = sinkLog (host s)).
  { unfold startCalibration.
    destruct outcome as [n|n|ctx n|ctx]; try discriminate Hfail;
      injection Hfail as ->;
      match goal with
      | |- context [catchBlock ?o' ?n' ?x] => exact (catchBlock_spec o' n' x)
      end. }
  destruct Hrest as [H1 [H2 [H3 [H4 [H5 [_ [H7 H8]]]]]]].
  split; [exact H1|]. split; [exact H2|].
  split; [apply errorMessage_classified|].
  split; [exact H3|]. split; [exact Hincl|].
  split.
  - intro Hclean.
    destruct (liveStreams (host (startCalibration o outcome s))) as [|i l] eqn:E;
      [reflexivity|].
    exfalso. specialize (Hincl i (or_introl eq_refl)).
    rewrite Hclean in Hincl. exact Hincl.
  - split; [exact H4|]. split; [exact H5|]. split; [exact H7 | exact H8].
Qed.

Lemma C8_failed_acquisition_witness :
  failureName (CreateSourceThrows running "InvalidStateError")
  = Some "InvalidStateError"%string
  /\ recordingState
       (react (startCalibration portrait
                 (CreateSourceThrows running "InvalidStateError") initial))
     = IDLE
  /\ classOfName "InvalidStateError" = DeviceUnavailable
  /\ classOfName "OverconstrainedError" = ConstraintUnsupported.
Proof.
  split; [reflexivity|]. split; [|split; reflexivity].
  exact (proj1 (C8_failed_acquisition_reverts_to_idle
                  portrait (CreateSourceThrows running "InvalidStateError")
                  "InvalidStateError" initial eq_refl)).
Defined.

(** ** The silence debounce *)

(** In a first session the debounce works as specified: 499 ms into an
    uninterrupted silence the controller is still recording, at 500 ms it is
    paused, and it pauses once. *)
Example pause_fires_at_the_500ms_mark :
  let silenceBegins := run (calibrate ++ speak ++ [Audio silentFrame]) initial in
  recordingState
    (react (run (frames 9 50 ++ [AnimationFrame; Elapse 49]) silenceBegins))
  = RECORDING
  /\ recordingState (react (run (frames 10 50) silenceBegins)) = PAUSED
  /\ pauseCount (sinkLog (host (run (frames 40 50) silenceBegins))) = 1%nat.
Proof. vm_compute. repeat split; reflexivity. Qed.

(** Silences of 400 ms between sounds never pause a first session. *)
Example alternating_every_400ms_never_pauses :
  let s := run (calibrate ++ alternate 5) initial in
  recordingState (react s) = RECORDING
  /\ pauseCount (sinkLog (host s)) = 0%nat.
Proof. vm_compute. split; reflexivity. Qed.

(** The two scenarios below only use what the rendered controls offer. *)
Lemma scenarios_offered :
  allOffered (untilPaused ++ [Audio loudFrame; AnimationFrame; Audio silentFrame])
             initial = true
  /\ allOffered untilRestarted initial = true.
Proof. vm_compute. split; reflexivity. Qed.

(** How the debounce is built.  A silent sample of a recording sink arms
    the timer only when [silenceTimerRef] is empty; a Sound sample cancels
    the timer the reference names and empties the reference. *)
Lemma silence_onset_arms_the_timer (closure : RecordingState) (s : App) :
  analyserRef (refs s) = true ->
  closure <> CALIBRATING ->
  mediaRecorderRef (refs s) = Some recording ->
  isSilent (averageVolume (getByteFrequencyData s))
           (silenceThresholdRef (refs s)) = true ->
  truthy (silenceTimerRef (refs s)) = false ->
  silenceTimerRef (refs (runAudioAnalysis closure s))
  = Some (S (nextId (host s)))
  /\ timers (host (runAudioAnalysis closure s))
     = timers (host s)
       ++ [mkTimer (S (nextId (host s)))
                   (now (host s) + SILENCE_DETECTION_TIME_MS)
                   None SilenceTimeout].
Proof.
  intros Ha Hc Hr Hs Ht. unfold runAudioAnalysis. rewrite Ha.
  assert (E : isCalibrating closure = false)
    by (destruct closure; try reflexivity; exfalso; apply Hc; reflexivity).
  rewrite E. cbn [negb orb]. cbv zeta. rewrite Hr, Hs, Ht.
  split; reflexivity.
Qed.

Lemma sound_cancels_the_pending_pause
    (closure : RecordingState) (s : App) (id : nat) :
  analyserRef (refs s) = true ->
  closure <> CALIBRATING ->
  mediaRecorderRef (refs s) = Some recording ->
  isSilent (averageVolume (getByteFrequencyData s))
           (silenceThresholdRef (refs s)) = false ->
  silenceTimerRef (refs s) = Some (S id) ->
  silenceTimerRef (refs (runAudioAnalysis closure s)) = None
  /\ (forall t : Timer,
        In t (timers (host (runAudioAnalysis closure s))) -> tid t <> S id).
Proof.
  intros Ha Hc Hr Hs Ht. unfold runAudioAnalysis. rewrite Ha.
  assert (E : isCalibrating closure = false)
    by (destruct closure; try reflexivity; exfalso; apply Hc; reflexivity).
  rewrite E. cbn [negb orb]. cbv zeta. rewrite Hr, Hs, Ht.
  split; [reflexivity|].
  intros t Hin. cbn in Hin. apply filter_In in Hin. destruct Hin as [_ Hin].
  apply negb_true_iff, Nat.eqb_neq in Hin. exact Hin.
Qed.

(** The slip: neither the expiry of the timer nor [stopRecording] empties
    the reference, so it goes on naming a timer that is gone. *)
Lemma expiry_keeps_the_reference (s : App) :
  silenceTimerRef (refs (silenceTimeout s)) = silenceTimerRef (refs s).
Proof.
  unfold silenceTimeout, request.
  destruct (mediaRecorderRef (refs s)) as [[| |]|]; reflexivity.
Qed.

Lemma stopRecording_keeps_the_reference (s : App) :
  silenceTimerRef (refs (stopRecording s)) = silenceTimerRef (refs s).
Proof.
  unfold stopRecording, stopRecorder, request.
  match goal with
  | |- context [match silenceTimerRef (refs ?x) with _ => _ end] =>
      set (s1 := x)
  end.
  assert (E : silenceTimerRef (refs s1) = silenceTimerRef (refs s)).
  { subst s1.
    destruct (mediaRecorderRef (refs s)) as [[| |]|];
      destruct (negb (isIdleOrStopped (recordingState (react s))));
      reflexivity. }
  clearbody s1. rewrite <- E.
  destruct (silenceTimerRef (refs s1)) as [[|n]|] eqn:E1;
    cbn; rewrite ?E1; reflexivity.
Qed.

Section StaleTimer.

(** Once [silenceTimerRef] names a timer that is gone, silence changes
    nothing: for a noise floor [nf] and a request log [log], the following
    events preserve [staleTimer nf log]. *)
Variable nf : Q.
Variable log : list (SinkRequest * RecorderState).

Lemma staleTimer_runAudioAnalysis (closure : RecordingState) (s : App) :
  staleTimer nf log s -> staleTimer nf log (runAudioAnalysis closure s).
Proof.
  intros H. pose proof H as [H1 [H2 [H3 [H4 [H5 [H6 H7]]]]]].
  unfold runAudioAnalysis.
  destruct (negb (analyserRef (refs s)) || isCalibrating closure);
    [exact H|].
  cbv zeta. rewrite H2, H6, H5, H3. exact H.
Qed.

Lemma staleTimer_animationFrame (s : App) :
  staleTimer nf log s -> staleTimer nf log (animationFrame s).
Proof.
  intro H. unfold animationFrame.
  assert (G : forall rs acc, staleTimer nf log acc ->
              staleTimer nf log
                (fold_left (fun a (r : nat * RecordingState) =>
                              runAudioAnalysis (snd r) a) rs acc)).
  { induction rs as [|r rs IH]; intros acc Ha; simpl.
    - exact Ha.
    - apply IH, staleTimer_runAudioAnalysis, Ha. }
  apply G. exact H.
Qed.

Lemma staleTimer_elapse (ms : nat) (s : App) :
  staleTimer nf log s -> staleTimer nf log (elapse ms s).
Proof.
  revert s. induction ms as [|k IH]; intros s H; simpl.
  - exact H.
  - apply IH. pose proof H as [_ [_ [_ [H4 _]]]].
    unfold advance1, dueTimers. cbn. rewrite H4. exact H.
Qed.

Lemma staleTimer_step (s : App) (e : Event) :
  quiet nf e -> staleTimer nf log s -> staleTimer nf log (step s e).
Proof.
  intros Hq H. destruct e; cbn in Hq; try contradiction; cbn [step].
  - destruct H as [H1 [H2 [H3 [H4 [_ [H6 H7]]]]]].
    repeat split; assumption.
  - apply staleTimer_animationFrame, H.
  - apply staleTimer_elapse, H.
Qed.

Lemma staleTimer_run (events : list Event) (s : App) :
  Forall (quiet nf) events -> staleTimer nf log s ->
  staleTimer nf log (run events s).
Proof.
  revert s. induction events as [|e events IH]; intros s Hq H; simpl.
  - exact H.
  - inversion Hq; subst. apply IH; [assumption|].
    apply staleTimer_step; assumption.
Qed.

End StaleTimer.

Lemma staleTimer_afterResume :
  staleTimer (silenceThresholdRef (refs afterResume))
             (sinkLog (host afterResume)) afterResume.
Proof.
  unfold staleTimer.
  repeat split; try reflexivity; vm_compute; reflexivity.
Qed.

Lemma staleTimer_afterRestart :
  staleTimer (silenceThresholdRef (refs afterRestart))
             (sinkLog (host afterRestart)) afterRestart.
Proof.
  unfold staleTimer.
  repeat split; try reflexivity; vm_compute; reflexivity.
Qed.

(** C1 (the code departs from the claim).  The claim requires a pause after
    500 ms of uninterrupted silence in every reachable Recording state.  In
    the state reached when a single loud sample has resumed a paused
    recording, and in the state reached when a second session starts after a
    stop, [silenceTimerRef] still names the timer of an earlier silence: the
    expiry callback and [stopRecording] leave the reference set, so the next
    silence arms no timer.  From either state, silence of any length, sampled
    however often, leaves the controller in Recording: the sink receives no
    further request and no timer is ever pending. *)
Theorem C1_silence_after_resume_or_restart_never_pauses
    (s : App) (events : list Event)
    (Hstate : s = afterResume \/ s = afterRestart)
    (Hquiet : Forall (quiet (silenceThresholdRef (refs s))) events) :
  recordingState (react (run events s)) = RECORDING
  /\ mediaRecorderRef (refs (run events s)) = Some recording
  /\ sinkLog (host (run events s)) = sinkLog (host s)
  /\ timers (host (run events s)) = [].
Proof.
  assert (H : staleTimer (silenceThresholdRef (refs s)) (sinkLog (host s)) s).
  { destruct Hstate as [-> | ->];
      [apply staleTimer_afterResume | apply staleTimer_afterRestart]. }
  pose proof (staleTimer_run _ _ events s Hquiet H)
    as [H1 [H2 [_ [H4 [_ [_ H7]]]]]].
  repeat split; assumption.
Qed.

Lemma C1_silence_after_resume_witness :
  Forall (quiet (silenceThresholdRef (refs afterResume))) (fallSilent 40)
  /\ now (host (run (fallSilent 40) afterResume)) - now (host afterResume)
     = 2000
  /\ recordingState (react (run (fallSilent 40) afterResume)) = RECORDING
  /\ recordingState (react (run (fallSilent 40) afterRestart)) = RECORDING.
Proof.
  assert (Hq : Forall (quiet (silenceThresholdRef (refs afterResume)))
                      (fallSilent 40)).
  { repeat constructor. }
  assert (Hq' : Forall (quiet (silenceThresholdRef (refs afterRestart)))
                       (fallSilent 40)).
  { repeat constructor. }
  split; [exact Hq|]. split; [vm_compute; reflexivity|]. split.
  - exact (proj1 (C1_silence_after_resume_or_restart_never_pauses
                    afterResume (fallSilent 40) (or_introl eq_refl) Hq)).
  - exact (proj1 (C1_silence_after_resume_or_restart_never_pauses
                    afterRestart (fallSilent 40) (or_intror eq_refl) Hq')).
Defined.

(** * Further properties of the code *)

(** ** The range of the energies *)

Lemma bin_bounds (b : byte) : 0 <= bin b <= 255.
Proof.
  unfold bin. pose proof (Byte.to_N_bounded b) as H. split; lia.
Qed.

Lemma sumOfBins_bounds (dataArray : list byte) :
  0 <= sumOfBins dataArray <= 255 * Z.of_nat (length dataArray).
Proof.
  unfold sumOfBins. induction dataArray as [|b l IH].
  - simpl. lia.
  - pose proof (bin_bounds b) as Hb.
    change (fold_right Z.add 0 (map bin (b :: l)))
      with (bin b + fold_right Z.add 0 (map bin l)).
    change (length (b :: l)) with (S (length l)).
    rewrite Nat2Z.inj_succ. lia.
Qed.

Lemma averageVolume_sumOfBins (dataArray : list byte) :
  averageVolume dataArray
  = (inject_Z (sumOfBins dataArray)
     / inject_Z (Z.of_nat (length dataArray)))%Q.
Proof.
  unfold averageVolume, sumOfBins. rewrite fold_left_add_shift. reflexivity.
Qed.

Lemma averageVolume_nonneg (dataArray : list byte) :
  (0 <= averageVolume dataArray)%Q.
Proof.
  rewrite averageVolume_sumOfBins.
  pose proof (sumOfBins_bounds dataArray) as [H _].
  destruct dataArray as [|b l].
  - discriminate.
  - apply Qle_shift_div_l.
    + change 0%Q with (inject_Z 0). rewrite <- Zlt_Qlt.
      change (length (b :: l)) with (S (length l)). lia.
    + rewrite Qmult_0_l. change 0%Q with (inject_Z 0).
      rewrite <- Zle_Qle. exact H.
Qed.

Lemma averageVolume_le_255 (dataArray : list byte) :
  (averageVolume dataArray <= 255)%Q.
Proof.
  rewrite averageVolume_sumOfBins.
  pose proof (sumOfBins_bounds dataArray) as [_ H].
  destruct dataArray as [|b l].
  - discriminate.
  - apply Qle_shift_div_r.
    + change 0%Q with (inject_Z 0). rewrite <- Zlt_Qlt.
      change (length (b :: l)) with (S (length l)). lia.
    + change 255%Q with (inject_Z 255). rewrite <- inject_Z_mult.
      rewrite <- Zle_Qle. exact H.
Qed.

Lemma length_getByteFrequencyData (s : App) :
  length (getByteFrequencyData s) = frequencyBinCount.
Proof.
  unfold getByteFrequencyData.
  rewrite length_firstn, length_app, repeat_length. lia.
Qed.

(** X1.  Whatever the analyser supplies (fewer bins, more bins, none), the
    array the analysis reads has exactly 128 bins, and the energy computed
    from it lies between 0 and 255. *)
Theorem sampled_energy_in_range (s : App) :
  length (getByteFrequencyData s) = 128%nat
  /\ (0 <= averageVolume (getByteFrequencyData s) <= 255)%Q.
Proof.
  split; [apply length_getByteFrequencyData|].
  split; [apply averageVolume_nonneg | apply averageVolume_le_255].
Qed.

(** ** What the floor of the noise floor is for *)

Lemma noiseFloor_positive (samples : list Q) : (0 < noiseFloor samples)%Q.
Proof.
  unfold noiseFloor.
  destruct (0 <? Z.of_nat (length samples)); [|reflexivity].
  cbv zeta. destruct (Qltb 0 (calibrationAverage samples)) eqn:E.
  - apply Qltb_lt. exact E.
  - reflexivity.
Qed.

Lemma averageVolume_zero (dataArray : list byte) :
  Forall (fun b => b = x00) dataArray -> (averageVolume dataArray == 0)%Q.
Proof.
  intro H. rewrite averageVolume_sumOfBins.
  assert (E : sumOfBins dataArray = 0).
  { unfold sumOfBins. induction H as [|b l Hb _ IH]; [reflexivity|].
    subst b. simpl. exact IH. }
  rewrite E. unfold Qdiv. apply Qmult_0_l.
Qed.

(** X2.  With the threshold still at its initial 0 no frame at all is
    classified silent; once a calibration has stored its noise floor,
    whatever the samples it collected, a frame whose bins are all zero is
    always classified silent. *)
Theorem zero_frame_is_silent_exactly_after_calibration
    (dataArray : list byte) (samples : list Q)
    (Hzero : Forall (fun b => b = x00) dataArray) :
  isSilent (averageVolume dataArray) (noiseFloor samples) = true
  /\ (forall anyArray : list byte, isSilent (averageVolume anyArray) 0 = false).
Proof.
  split.
  - unfold isSilent. apply Qltb_lt.
    rewrite (averageVolume_zero dataArray Hzero).
    apply Qmult_lt_0_compat;
      [apply noiseFloor_positive | apply THRESHOLD_MULTIPLIER_pos].
  - intro anyArray. unfold isSilent. apply Qltb_ge.
    rewrite Qmult_0_l. apply averageVolume_nonneg.
Qed.

Lemma zero_frame_witness :
  Forall (fun b => b = x00) silentFrame
  /\ isSilent (averageVolume silentFrame) (noiseFloor [averageVolume quietFrame])
     = true.
Proof.
  assert (H : Forall (fun b => b = x00) silentFrame).
  { unfold silentFrame. apply Forall_forall. intros b Hb.
    apply repeat_spec in Hb. exact Hb. }
  split; [exact H|].
  exact (proj1 (zero_frame_is_silent_exactly_after_calibration
                  silentFrame [averageVolume quietFrame] H)).
Defined.

(** ** The mean of the calibration samples *)

Lemma fold_right_Qplus_bounds (lo hi : Q) (samples : list Q) :
  Forall (fun x => lo <= x <= hi)%Q samples ->
  (lo * inject_Z (Z.of_nat (length samples)) <= fold_right Qplus 0 samples
   /\ fold_right Qplus 0 samples
      <= hi * inject_Z (Z.of_nat (length samples)))%Q.
Proof.
  induction 1 as [|x l [Hlo Hhi] _ [IHlo IHhi]].
  - simpl. split; rewrite Qmult_0_r; apply Qle_refl.
  - change (length (x :: l)) with (S (length l)).
    rewrite Nat2Z.inj_succ. unfold Z.succ. rewrite inject_Z_plus.
    change (fold_right Qplus 0 (x :: l))%Q
      with (x + fold_right Qplus 0 l)%Q.
    split.
    + setoid_replace (lo * (inject_Z (Z.of_nat (length l)) + inject_Z 1))%Q
        with (lo + lo * inject_Z (Z.of_nat (length l)))%Q by ring.
      apply Qplus_le_compat; assumption.
    + setoid_replace (hi * (inject_Z (Z.of_nat (length l)) + inject_Z 1))%Q
        with (hi + hi * inject_Z (Z.of_nat (length l)))%Q by ring.
      apply Qplus_le_compat; assumption.
Qed.

Lemma arithmeticMean_bounds (lo hi : Q) (samples : list Q) :
  samples <> [] ->
  Forall (fun x => lo <= x <= hi)%Q samples ->
  (lo <= arithmeticMean samples <= hi)%Q.
Proof.
  intros Hne H. destruct (fold_right_Qplus_bounds lo hi samples H) as [Hlo Hhi].
  assert (Hn : (0 < inject_Z (Z.of_nat (length samples)))%Q).
  { change 0%Q with (inject_Z 0). rewrite <- Zlt_Qlt.
    destruct samples; [contradiction | simpl; lia]. }
  unfold arithmeticMean. split.
  - apply Qle_shift_div_l; assumption.
  - apply Qle_shift_div_r; assumption.
Qed.

Lemma noiseFloor_cases (samples : list Q) :
  (noiseFloor samples == arithmeticMean samples
   /\ 0 < arithmeticMean samples /\ samples <> [])%Q
  \/ noiseFloor samples = 1%Q.
Proof.
  unfold noiseFloor.
  destruct (0 <? Z.of_nat (length samples)) eqn:El; [|right; reflexivity].
  cbv zeta. destruct (Qltb 0 (calibrationAverage samples)) eqn:E;
    [|right; reflexivity].
  left. apply Qltb_lt in E. rewrite calibrationAverage_mean in E.
  split; [apply calibrationAverage_mean|]. split; [exact E|].
  apply length_pos_nonempty. exact El.
Qed.

(** X3.  When every calibration sample is an energy, between 0 and 255, the
    noise floor lies in the same range, above 0; and it is no lower than any
    bound, of at least 1, that every sample of a non-empty calibration
    reaches. *)
Theorem noiseFloor_within_the_samples_range (samples : list Q)
    (Hrange : Forall (fun x => 0 <= x <= 255)%Q samples) :
  (0 < noiseFloor samples <= 255)%Q
  /\ (forall lo : Q,
        samples <> [] -> (1 <= lo)%Q ->
        Forall (fun x => lo <= x)%Q samples ->
        (lo <= noiseFloor samples)%Q).
Proof.
  split; [split; [apply noiseFloor_positive|]|].
  - destruct (noiseFloor_cases samples) as [[E [_ Hne]] | E].
    + rewrite E. apply (arithmeticMean_bounds 0 255 samples Hne Hrange).
    + rewrite E. discriminate.
  - intros lo Hne Hlo1 Hlo.
    assert (Hboth : Forall (fun x => lo <= x <= 255)%Q samples).
    { rewrite Forall_forall in *. intros x Hx. split.
      - apply Hlo, Hx.
      - apply Hrange, Hx. }
    pose proof (arithmeticMean_bounds lo 255 samples Hne Hboth) as [Hm _].
    assert (Hpos : (0 < calibrationAverage samples)%Q).
    { rewrite calibrationAverage_mean.
      apply Qlt_le_trans with lo; [|exact Hm].
      apply Qlt_le_trans with 1%Q; [reflexivity | exact Hlo1]. }
    unfold noiseFloor.
    rewrite (proj2 (length_pos_nonempty samples) Hne). cbv zeta.
    rewrite (proj2 (Qltb_lt _ _) Hpos).
    rewrite calibrationAverage_mean. exact Hm.
Qed.

Lemma noiseFloor_range_witness :
  Forall (fun x => 0 <= x <= 255)%Q [averageVolume quietFrame]
  /\ (0 < noiseFloor [averageVolume quietFrame] <= 255)%Q.
Proof.
  assert (H : Forall (fun x => 0 <= x <= 255)%Q [averageVolume quietFrame]).
  { constructor; [|constructor].
    split; [apply averageVolume_nonneg | apply averageVolume_le_255]. }
  split; [exact H|].
  exact (proj1 (noiseFloor_within_the_samples_range _ H)).
Defined.

(** X4.  A calibration whose samples all reach 142 stores a noise floor whose
    threshold exceeds 255, the largest energy a frame can have: from then on
    every frame is classified silent, so nothing can end a pause. *)
Theorem loud_calibration_silences_every_frame
    (samples : list Q) (dataArray : list byte)
    (Hne : samples <> [])
    (Hloud : Forall (fun x => 142 <= x <= 255)%Q samples) :
  (255 < SilenceThreshold (noiseFloor samples))%Q
  /\ isSilent (averageVolume dataArray) (noiseFloor samples) = true.
Proof.
  assert (Hrange : Forall (fun x => 0 <= x <= 255)%Q samples).
  { rewrite Forall_forall in *. intros x Hx. destruct (Hloud x Hx) as [H1 H2].
    split; [|exact H2]. apply Qle_trans with 142%Q; [discriminate | exact H1]. }
  assert (Hlo : Forall (fun x => 142 <= x)%Q samples).
  { rewrite Forall_forall in *. intros x Hx. exact (proj1 (Hloud x Hx)). }
  pose proof (proj2 (noiseFloor_within_the_samples_range samples Hrange)
                142%Q Hne ltac:(discriminate) Hlo) as Hnf.
  assert (Hthr : (255 < SilenceThreshold (noiseFloor samples))%Q).
  { unfold SilenceThreshold.
    apply Qlt_le_trans with (142 * THRESHOLD_MULTIPLIER)%Q; [reflexivity|].
    apply Qmult_le_compat_r; [exact Hnf|].
    apply Qlt_le_weak, THRESHOLD_MULTIPLIER_pos. }
  split; [exact Hthr|].
  unfold isSilent. apply Qltb_lt.
  apply Qle_lt_trans with 255%Q; [apply averageVolume_le_255 | exact Hthr].
Qed.

Lemma loud_calibration_witness :
  [averageVolume (repeat xff 128)] <> []
  /\ Forall (fun x => 142 <= x <= 255)%Q [averageVolume (repeat xff 128)]
  /\ isSilent (averageVolume (repeat xff 128))
              (noiseFloor [averageVolume (repeat xff 128)]) = true.
Proof.
  assert (Hne : [averageVolume (repeat xff 128)] <> []) by discriminate.
  assert (Hloud : Forall (fun x => 142 <= x <= 255)%Q
                         [averageVolume (repeat xff 128)]).
  { constructor; [|constructor]. split; discriminate. }
  split; [exact Hne|]. split; [exact Hloud|].
  exact (proj2 (loud_calibration_silences_every_frame
                  _ (repeat xff 128) Hne Hloud)).
Defined.

(** ** The selected camera *)

Lemma existsb_deviceId (devices : list MediaDeviceInfo) (id : string) :
  existsb (fun d => String.eqb (deviceId d) id) devices = true
  <-> exists d, In d devices /\ deviceId d = id.
Proof.
  rewrite existsb_exists. split; intros [d [Hin H]]; exists d; split;
    try exact Hin; apply String.eqb_eq; exact H.
Qed.

Lemma selectAvailableDevice_listed
    (devices : list MediaDeviceInfo) (selectedDeviceId : string) :
  devices <> [] ->
  exists d, In d devices
            /\ deviceId d = selectAvailableDevice devices selectedDeviceId.
Proof.
  intro Hne. destruct devices as [|first rest]; [contradiction|].
  unfold selectAvailableDevice.
  destruct (existsb _ (first :: rest)) eqn:E; cbn [negb].
  - apply existsb_deviceId in E. exact E.
  - exists first. split; [left; reflexivity | reflexivity].
Qed.

Lemma selectAvailableDevice_kept
    (devices : list MediaDeviceInfo) (selectedDeviceId : string) :
  (exists d, In d devices /\ deviceId d = selectedDeviceId) ->
  selectAvailableDevice devices selectedDeviceId = selectedDeviceId.
Proof.
  intros Hex. destruct devices as [|first rest]; [reflexivity|].
  unfold selectAvailableDevice.
  rewrite (proj2 (existsb_deviceId (first :: rest) selectedDeviceId) Hex).
  reflexivity.
Qed.

(** X5.  After an enumeration the list of cameras holds exactly the video
    inputs enumerated.  Whenever that list is not empty, the selection the
    effect leaves names one of its cameras; a selection that names a listed
    camera is kept; the effect applied again changes nothing.  When no
    camera is listed the previous selection stays. *)
Theorem selected_camera_is_listed
    (allDevices previous : list MediaDeviceInfo) (selectedDeviceId : string) :
  (forall d : MediaDeviceInfo,
      In d (getDevices (Some allDevices) previous)
      <-> In d allDevices /\ kind d = videoinput)
  /\ (forall devices : list MediaDeviceInfo,
        (devices <> [] ->
         exists d, In d devices
                   /\ deviceId d = selectAvailableDevice devices selectedDeviceId)
        /\ ((exists d, In d devices /\ deviceId d = selectedDeviceId) ->
            selectAvailableDevice devices selectedDeviceId = selectedDeviceId)
        /\ selectAvailableDevice devices
             (selectAvailableDevice devices selectedDeviceId)
           = selectAvailableDevice devices selectedDeviceId
        /\ (devices = [] ->
            selectAvailableDevice devices selectedDeviceId = selectedDeviceId)).
Proof.
  split.
  - intro d. unfold getDevices. rewrite filter_In. unfold isVideoInput.
    split; intros [Hin Hk]; split; try exact Hin.
    + destruct (kind d); try discriminate; reflexivity.
    + rewrite Hk. reflexivity.
  - intro devices.
    split; [apply selectAvailableDevice_listed|].
    split; [apply selectAvailableDevice_kept|]. split.
    + destruct devices as [|first rest]; [reflexivity|].
      apply selectAvailableDevice_kept, selectAvailableDevice_listed.
      discriminate.
    + intros ->. reflexivity.
Qed.

Lemma selected_camera_witness :
  getDevices
    (Some [mkMediaDeviceInfo "mic-1" audioinput "Mic";
           mkMediaDeviceInfo "cam-1" videoinput "Front"]) []
  <> []
  /\ exists d,
       In d (getDevices
               (Some [mkMediaDeviceInfo "mic-1" audioinput "Mic";
                      mkMediaDeviceInfo "cam-1" videoinput "Front"]) [])
       /\ deviceId d
          = selectAvailableDevice
              (getDevices
                 (Some [mkMediaDeviceInfo "mic-1" audioinput "Mic";
                        mkMediaDeviceInfo "cam-1" videoinput "Front"]) [])
              "gone".
Proof.
  assert (Hne : getDevices
                  (Some [mkMediaDeviceInfo "mic-1" audioinput "Mic";
                         mkMediaDeviceInfo "cam-1" videoinput "Front"]) []
                <> []) by discriminate.
  split; [exact Hne|].
  exact (proj1 (proj2 (selected_camera_is_listed [] [] "gone") _) Hne).
Defined.

(** X6.  The video constraints ask for a shape whose ideal width and height
    are in the ideal aspect ratio, and the portrait shape is the landscape
    one turned; the camera is requested by exact id unless the selection is
    the empty id, and once the effect has run on a non-empty list the id
    requested is that of a listed camera. *)
Theorem constraints_ask_for_a_listed_camera
    (devices : list MediaDeviceInfo) (selectedDeviceId : string)
    (o : Orientation) :
  (inject_Z (idealWidth (videoConstraints selectedDeviceId o))
   / inject_Z (idealHeight (videoConstraints selectedDeviceId o))
   == idealAspectRatio (videoConstraints selectedDeviceId o))%Q
  /\ idealWidth (videoConstraints selectedDeviceId portrait)
     = idealHeight (videoConstraints selectedDeviceId landscape)
  /\ idealHeight (videoConstraints selectedDeviceId portrait)
     = idealWidth (videoConstraints selectedDeviceId landscape)
  /\ (exactDeviceId (videoConstraints selectedDeviceId o) = None
      <-> selectedDeviceId = ""%string)
  /\ (devices <> [] ->
      forall id : string,
        exactDeviceId
          (videoConstraints (selectAvailableDevice devices selectedDeviceId) o)
        = Some id ->
        exists d, In d devices /\ deviceId d = id).
Proof.
  split; [destruct o; reflexivity|].
  split; [reflexivity|]. split; [reflexivity|]. split.
  - destruct o; cbn; destruct (String.eqb selectedDeviceId "") eqn:E;
      (split; intro H;
       [ try discriminate H; apply String.eqb_eq; exact E
       | try reflexivity; apply String.eqb_eq in H; congruence ]).
  - intros Hne id Hid.
    destruct (selectAvailableDevice_listed devices selectedDeviceId Hne)
      as [d [Hin Hd]].
    exists d. split; [exact Hin|].
    destruct o; cbn in Hid;
      destruct (String.eqb (selectAvailableDevice devices selectedDeviceId) "");
      try discriminate Hid; injection Hid as <-; exact Hd.
Qed.

Lemma constraints_witness :
  [mkMediaDeviceInfo "cam-1" videoinput "Front"] <> []
  /\ exactDeviceId
       (videoConstraints
          (selectAvailableDevice
             [mkMediaDeviceInfo "cam-1" videoinput "Front"] "gone")
          portrait)
     = Some "cam-1"%string
  /\ exists d,
       In d [mkMediaDeviceInfo "cam-1" videoinput "Front"]
       /\ deviceId d = "cam-1"%string.
Proof.
  assert (Hne : [mkMediaDeviceInfo "cam-1" videoinput "Front"] <> [])
    by discriminate.
  assert (Hid : exactDeviceId
                  (videoConstraints
                     (selectAvailableDevice
                        [mkMediaDeviceInfo "cam-1" videoinput "Front"] "gone")
                     portrait)
                = Some "cam-1"%string) by reflexivity.
  split; [exact Hne|]. split; [exact Hid|].
  exact (proj2 (proj2 (proj2 (proj2
           (constraints_ask_for_a_listed_camera
              [mkMediaDeviceInfo "cam-1" videoinput "Front"] "gone" portrait))))
           Hne "cam-1"%string Hid).
Defined.

(** ** The video preview *)

Lemma In_classListAdd (c m : string) (classes : list string) :
  In c (classListAdd m classes) <-> c = m \/ In c classes.
Proof.
  unfold classListAdd. destruct (existsb (String.eqb m) classes) eqn:E.
  - split; [intro H; right; exact H|].
    intros [-> | H]; [|exact H].
    apply existsb_exists in E. destruct E as [x [Hin Hx]].
    apply String.eqb_eq in Hx. subst x. exact Hin.
  - rewrite in_app_iff. simpl. split.
    + intros [H | [H | []]]; [right; exact H | left; symmetry; exact H].
    + intros [-> | H]; [right; left; reflexivity | left; exact H].
Qed.

Lemma In_classListRemove (c m : string) (classes : list string) :
  In c (classListRemove m classes) <-> In c classes /\ c <> m.
Proof.
  unfold classListRemove. rewrite filter_In.
  rewrite negb_true_iff, String.eqb_neq. reflexivity.
Qed.

Lemma classListRemove_idempotent (m : string) (classes : list string) :
  classListRemove m (classListRemove m classes) = classListRemove m classes.
Proof.
  unfold classListRemove. induction classes as [|x l IH]; [reflexivity|].
  simpl. destruct (negb (String.eqb x m)) eqn:E; simpl; rewrite ?E, IH;
    reflexivity.
Qed.

Lemma classListAdd_idempotent (m : string) (classes : list string) :
  classListAdd m (classListAdd m classes) = classListAdd m classes.
Proof.
  unfold classListAdd. destruct (existsb (String.eqb m) classes) eqn:E.
  - rewrite E. reflexivity.
  - rewrite existsb_app. simpl.
    rewrite String.eqb_refl, orb_true_r. reflexivity.
Qed.

(** X7.  The effect always leaves the element with at most one source, and
    the saved URL has precedence over the stream.  Playback is never muted
    and never mirrored, whatever the element was before, and has controls;
    the live preview is always muted, has no controls, and is mirrored
    exactly when asked.  No class other than the mirror class is added or
    removed, and controls are shown only for playback. *)
Theorem preview_shows_one_source
    (stream : option nat) (videoUrl : option Url) (isMirrored : bool)
    (el : VideoElement) :
  exists el' : VideoElement,
    previewEffect stream videoUrl isMirrored (Some el) = Some el'
    /\ (srcObject el' = None \/ src el' = None)
    /\ src el' = videoUrl
    /\ (videoUrl = None -> srcObject el' = stream)
    /\ (src el' <> None ->
        muted el' = false /\ controls el' = true
        /\ ~ In mirrorClass (classList el'))
    /\ (srcObject el' <> None ->
        muted el' = true /\ controls el' = false
        /\ (In mirrorClass (classList el') <-> isMirrored = true))
    /\ (forall c : string,
          c <> mirrorClass -> (In c (classList el') <-> In c (classList el)))
    /\ (controls el' = true <-> videoUrl <> None).
Proof.
  destruct videoUrl as [url|]; [|destruct stream as [st|]];
    eexists; (split; [reflexivity|]); cbn.
  - split; [left; reflexivity|]. split; [reflexivity|].
    split; [discriminate|]. split.
    + intros _. split; [reflexivity|]. split; [reflexivity|].
      intro H. apply In_classListRemove in H. destruct H as [_ H].
      apply H. reflexivity.
    + split; [intro H; exfalso; apply H; reflexivity|]. split.
      * intros c Hc. rewrite In_classListRemove. tauto.
      * split; [discriminate | reflexivity].
  - split; [right; reflexivity|]. split; [reflexivity|].
    split; [reflexivity|]. split; [intro H; exfalso; apply H; reflexivity|].
    split.
    + intros _. split; [reflexivity|]. split; [reflexivity|].
      destruct isMirrored.
      * rewrite In_classListAdd. split; [reflexivity | left; reflexivity].
      * rewrite In_classListRemove. split; [|discriminate].
        intros [_ H]. exfalso. apply H. reflexivity.
    + split.
      * intros c Hc. destruct isMirrored.
        -- rewrite In_classListAdd. tauto.
        -- rewrite In_classListRemove. tauto.
      * split; [discriminate | intro H; exfalso; apply H; reflexivity].
  - split; [left; reflexivity|]. split; [reflexivity|].
    split; [reflexivity|]. split; [intro H; exfalso; apply H; reflexivity|].
    split; [intro H; exfalso; apply H; reflexivity|].
    split; [intros c _; reflexivity|].
    split; [discriminate | intro H; exfalso; apply H; reflexivity].
Qed.

Lemma preview_witness :
  exists el' : VideoElement,
    previewEffect (Some 1%nat) (Some (ObjectURL [3])) true
      (Some (mkVideoElement (Some 1%nat) None true false
                            ["w-full"%string; mirrorClass] 0 1))
    = Some el'
    /\ muted el' = false /\ ~ In mirrorClass (classList el').
Proof.
  destruct (preview_shows_one_source (Some 1%nat) (Some (ObjectURL [3])) true
              (mkVideoElement (Some 1%nat) None true false
                              ["w-full"%string; mirrorClass] 0 1))
    as [el' [E [_ [Hsrc [_ [Hplay _]]]]]].
  exists el'. split; [exact E|].
  assert (Hne : src el' <> None) by (rewrite Hsrc; discriminate).
  destruct (Hplay Hne) as [Hm [_ Hc]]. split; assumption.
Defined.

(** X8.  Running the effect again with the same stream, URL and mirroring
    leaves every attribute of the element as the first run left it: only the
    calls of [load] and [play] are repeated. *)
Theorem preview_effect_is_idempotent
    (stream : option nat) (videoUrl : option Url) (isMirrored : bool)
    (el : VideoElement) :
  option_map attributes
    (previewEffect stream videoUrl isMirrored
       (previewEffect stream videoUrl isMirrored (Some el)))
  = option_map attributes
      (previewEffect stream videoUrl isMirrored (Some el)).
Proof.
  destruct videoUrl as [url|]; [|destruct stream as [st|]];
    cbn -[classListRemove classListAdd mirrorClass];
    unfold attributes; cbn -[classListRemove classListAdd mirrorClass].
  - rewrite classListRemove_idempotent. reflexivity.
  - destruct isMirrored;
      rewrite ?classListAdd_idempotent, ?classListRemove_idempotent;
      reflexivity.
  - reflexivity.
Qed.

(** X9.  What a render shows after the controller's transitions.  After the
    recorder's stop event the preview plays the recording assembled from the
    chunks buffered, unmuted, with controls and unmirrored, although the
    stream has just been released; after a reset, and after a failed start,
    it has no source and no controls; after a successful start it shows the
    stream just acquired, muted. *)
Theorem preview_follows_the_controller
    (s : App) (isMirrored : bool) (el : VideoElement) :
  (forall k : nat,
      onstopQueued (host s) = S k ->
      exists el',
        renderPreview (deliverStop s) isMirrored (Some el) = Some el'
        /\ src el' = Some (ObjectURL (recordedChunksRef (refs s)))
        /\ srcObject el' = None /\ muted el' = false /\ controls el' = true
        /\ ~ In mirrorClass (classList el'))
  /\ (exists el',
        renderPreview (handleReset s) isMirrored (Some el) = Some el'
        /\ src el' = None /\ srcObject el' = None /\ controls el' = false)
  /\ (forall (o : Orientation) (outcome : AcquireOutcome) (name : string),
        failureName outcome = Some name ->
        exists el',
          renderPreview (startCalibration o outcome s) isMirrored (Some el)
          = Some el'
          /\ src el' = None /\ srcObject el' = None /\ controls el' = false)
  /\ (forall (o : Orientation) (ctx : AudioContextState),
        exists el',
          renderPreview (startCalibration o (Acquired ctx) s) isMirrored
                        (Some el) = Some el'
          /\ src el' = None /\ srcObject el' = Some (S (nextId (host s)))
          /\ muted el' = true /\ controls el' = false).
Proof.
  assert (Hnone : forall s0 : App,
            videoUrl (react s0) = None -> streamRef (refs s0) = None ->
            exists el',
              renderPreview s0 isMirrored (Some el) = Some el'
              /\ src el' = None /\ srcObject el' = None
              /\ controls el' = false).
  { intros s0 Hu Hs. unfold renderPreview. rewrite Hu, Hs. cbn.
    eexists. split; [reflexivity|]. cbn. repeat split; reflexivity. }
  split; [|split; [|split]].
  - intros k Hk. unfold renderPreview, deliverStop, onstop. rewrite Hk.
    destruct (cleanup_preserves
                (set_videoUrl
                   (Some (ObjectURL
                            (recordedChunksRef (refs (set_onstopQueued k s)))))
                   (set_onstopQueued k s))) as [Hreact _].
    rewrite Hreact. cbn. eexists. split; [reflexivity|]. cbn.
    split; [reflexivity|]. split; [reflexivity|]. split; [reflexivity|].
    split; [reflexivity|].
    intro H. apply In_classListRemove in H. destruct H as [_ H].
    apply H. reflexivity.
  - apply Hnone.
    + unfold handleReset.
      destruct (cleanup_preserves
                  (set_error None
                     (set_videoUrl None (set_recordingState IDLE s))))
        as [Hreact _].
      rewrite Hreact. reflexivity.
    + unfold handleReset. apply cleanup_refs.
  - intros o outcome name Hfail. apply Hnone.
    + unfold startCalibration.
      destruct outcome as [n|n|ctx n|ctx]; try discriminate Hfail;
        unfold catchBlock;
        match goal with
        | |- videoUrl (react (cleanup ?x)) = None =>
            destruct (cleanup_preserves x) as [Hreact _]; rewrite Hreact
        end; reflexivity.
    + unfold startCalibration.
      destruct outcome as [n|n|ctx n|ctx]; try discriminate Hfail;
        unfold catchBlock; apply cleanup_refs.
  - intros o ctx. unfold renderPreview. cbn.
    eexists. split; [reflexivity|]. cbn. repeat split; reflexivity.
Qed.

Lemma preview_controller_witness :
  onstopQueued (host (stopRecording afterResume)) = 1%nat
  /\ exists el',
       renderPreview (deliverStop (stopRecording afterResume)) true
         (Some (mkVideoElement None None true false [mirrorClass] 0 0))
       = Some el'
       /\ controls el' = true.
Proof.
  assert (Hq : onstopQueued (host (stopRecording afterResume)) = 1%nat)
    by (vm_compute; reflexivity).
  split; [exact Hq|].
  destruct (proj1 (preview_follows_the_controller
                     (stopRecording afterResume) true
                     (mkVideoElement None None true false [mirrorClass] 0 0))
              0%nat Hq) as [el' [E [_ [_ [_ [Hc _]]]]]].
  exists el'. split; [exact E | exact Hc].
Defined.

(** ** The buffered chunks and the saved recording *)

Lemma run_DataAvailable (sizes : list Z) (s : App) :
  recordedChunksRef (refs (run (map DataAvailable sizes) s))
  = recordedChunksRef (refs s) ++ filter (fun size => 0 <? size) sizes
  /\ react (run (map DataAvailable sizes) s) = react s
  /\ host (run (map DataAvailable sizes) s) = host s.
Proof.
  revert s. induction sizes as [|size sizes IH]; intro s.
  - cbn. rewrite app_nil_r. repeat split; reflexivity.
  - change (run (map DataAvailable (size :: sizes)) s)
      with (run (map DataAvailable sizes) (ondataavailable size s)).
    destruct (IH (ondataavailable size s)) as [H1 [H2 H3]].
    rewrite H1, H2, H3. unfold ondataavailable. cbn [filter].
    destruct (0 <? size); cbn.
    + rewrite <- app_assoc. repeat split; reflexivity.
    + repeat split; reflexivity.
Qed.

Lemma startCalibration_empties_the_buffer
    (o : Orientation) (outcome : AcquireOutcome) (s : App) :
  recordedChunksRef (refs (startCalibration o outcome s)) = [].
Proof.
  unfold startCalibration.
  destruct outcome; unfold catchBlock; try apply cleanup_refs. reflexivity.
Qed.

(** X10.  Every start empties the chunk buffer.  The chunks delivered
    afterwards are buffered in order, the empty ones dropped, and nothing
    else changes; when the recorder's stop event then arrives, the saved URL
    names the recording made of exactly those chunks and the buffer is
    emptied. *)
Theorem saved_recording_is_the_chunks_delivered
    (sizes : list Z) (s : App) :
  (forall (o : Orientation) (outcome : AcquireOutcome),
      recordedChunksRef (refs (startCalibration o outcome s)) = [])
  /\ recordedChunksRef (refs (run (map DataAvailable sizes) s))
     = recordedChunksRef (refs s) ++ filter (fun size => 0 <? size) sizes
  /\ react (run (map DataAvailable sizes) s) = react s
  /\ host (run (map DataAvailable sizes) s) = host s
  /\ (forall k : nat,
        onstopQueued (host s) = S k ->
        videoUrl (react (step (run (map DataAvailable sizes) s)
                              RecorderStopped))
        = Some (ObjectURL (recordedChunksRef (refs s)
                           ++ filter (fun size => 0 <? size) sizes))
        /\ recordedChunksRef
             (refs (step (run (map DataAvailable sizes) s) RecorderStopped))
           = []).
Proof.
  destruct (run_DataAvailable sizes s) as [H1 [H2 H3]].
  split; [intros; apply startCalibration_empties_the_buffer|].
  split; [exact H1|]. split; [exact H2|]. split; [exact H3|].
  intros k Hk. cbn [step]. unfold deliverStop. rewrite H3, Hk. unfold onstop.
  split.
  - match goal with
    | |- videoUrl (react (cleanup ?x)) = _ =>
        destruct (cleanup_preserves x) as [Hreact _]; rewrite Hreact
    end.
    cbn. rewrite H1. reflexivity.
  - apply cleanup_refs.
Qed.

Lemma saved_recording_witness :
  onstopQueued (host (stopRecording afterResume)) = 1%nat
  /\ videoUrl
       (react (step (run (map DataAvailable [5; 0; 7])
                         (stopRecording afterResume))
                    RecorderStopped))
     = Some (ObjectURL
               (recordedChunksRef (refs (stopRecording afterResume))
                ++ [5; 7])).
Proof.
  assert (Hq : onstopQueued (host (stopRecording afterResume)) = 1%nat)
    by (vm_compute; reflexivity).
  split; [exact Hq|].
  exact (proj1 (proj2 (proj2 (proj2 (proj2
           (saved_recording_is_the_chunks_delivered
              [5; 0; 7] (stopRecording afterResume)))))
           0%nat Hq)).
Defined.

(** ** Stopping twice *)




(** ** Invariants of executions *)

Section Invariant.

(** A property of states kept by the clock and by every timer callback is
    kept while time passes; a property kept by every step is kept by every
    execution, and one kept by the steps the controls offer is kept by the
    executions the controls allow. *)
Variable I : App -> Prop.

Lemma invariant_elapse :
  (forall s, I s -> I (set_now (now (host s) + 1) s)) ->
  (forall id s, I s -> I (fire id s)) ->
  forall (ms : nat) (s : App), I s -> I (elapse ms s).
Proof.
  intros Htick Hfire.
  assert (G : forall ids acc, I acc ->
              I (fold_left (fun a id => fire id a) ids acc)).
  { induction ids as [|id ids IH]; intros acc Ha; simpl.
    - exact Ha.
    - apply IH, Hfire, Ha. }
  induction ms as [|k IH]; intros s H; simpl.
  - exact H.
  - apply IH. unfold advance1. apply G, Htick, H.
Qed.

Lemma invariant_animationFrame :
  (forall s, I s -> I (set_rafRequests [] s)) ->
  (forall closure s, I s -> I (runAudioAnalysis closure s)) ->
  forall s : App, I s -> I (animationFrame s).
Proof.
  intros Hclear Hrun s H. unfold animationFrame.
  assert (G : forall rs acc, I acc ->
              I (fold_left (fun a (r : nat * RecordingState) =>
                              runAudioAnalysis (snd r) a) rs acc)).
  { induction rs as [|r rs IH]; intros acc Ha; simpl.
    - exact Ha.
    - apply IH, Hrun, Ha. }
  apply G, Hclear, H.
Qed.

Lemma invariant_run :
  (forall s e, I s -> I (step s e)) ->
  forall (events : list Event) (s : App), I s -> I (run events s).
Proof.
  intros Hstep. induction events as [|e events IH]; intros s H; simpl.
  - exact H.
  - apply IH, Hstep, H.
Qed.

Lemma invariant_offered_run :
  (forall s e, offered s e = true -> I s -> I (step s e)) ->
  forall (events : list Event) (s : App),
    allOffered events s = true -> I s -> I (run events s).
Proof.
  intros Hstep. induction events as [|e events IH]; intros s Ho H; simpl.
  - exact H.
  - simpl in Ho. apply andb_prop in Ho. destruct Ho as [Ho1 Ho2].
    apply IH; [exact Ho2|]. apply Hstep; assumption.
Qed.

End Invariant.

(** Lists with at most one element satisfying a test. *)

Lemma filter_snoc {A : Type} (f : A -> bool) (l : list A) (x : A) :
  filter f (l ++ [x]) = filter f l ++ (if f x then [x] else []).
Proof. rewrite filter_app. reflexivity. Qed.

Lemma filter_comm {A : Type} (f g : A -> bool) (l : list A) :
  filter f (filter g l) = filter g (filter f l).
Proof.
  induction l as [|x l IH]; [reflexivity|].
  simpl. destruct (f x) eqn:Ef, (g x) eqn:Eg; simpl;
    rewrite ?Ef, ?Eg, IH; reflexivity.
Qed.

Lemma filter_map_stable {A : Type} (f : A -> bool) (g : A -> A) (l : list A) :
  (forall x, f (g x) = f x) ->
  filter f (map g l) = map g (filter f l).
Proof.
  intro H. induction l as [|x l IH]; [reflexivity|].
  simpl. rewrite H. destruct (f x); simpl; rewrite IH; reflexivity.
Qed.

Lemma find_some_filter {A : Type} (f g : A -> bool) (l : list A) (x : A) :
  find g l = Some x -> f x = true -> In x (filter f l).
Proof.
  intros Hfind Hf. apply find_some in Hfind. destruct Hfind as [Hin _].
  apply filter_In. split; assumption.
Qed.

(** ** The pending pause *)

Lemma pendingPauses_clearTimeout (id : nat) (s : App) :
  pendingPauses (clearTimeout id s)
  = filter (fun t => negb (Nat.eqb (tid t) id)) (pendingPauses s).
Proof. unfold pendingPauses. cbn. apply filter_comm. Qed.

Lemma silenceInv_clearTimeout (id : nat) (s : App) :
  silenceInv s -> silenceInv (clearTimeout id s).
Proof.
  unfold silenceInv. rewrite pendingPauses_clearTimeout.
  change (silenceTimerRef (refs (clearTimeout id s)))
    with (silenceTimerRef (refs s)).
  destruct (pendingPauses s) as [|t [|u l]];
    simpl; try contradiction.
  - trivial.
  - destruct (negb (Nat.eqb (tid t) id)); trivial.
Qed.

Lemma silenceInv_rearm (id : nat) (t : Timer) (s : App) :
  silenceInv s -> silenceInv (rearm id t s).
Proof.
  intro H. unfold rearm. destruct (period t) as [p|];
    [|apply silenceInv_clearTimeout, H].
  revert H. unfold silenceInv, pendingPauses. cbn.
  rewrite filter_map_stable
    by (intro x; unfold isSilenceTimeout; destruct (Nat.eqb (tid x) id);
        reflexivity).
  destruct (filter isSilenceTimeout (timers (host s))) as [|u [|v l]];
    simpl; try contradiction; trivial.
  destruct (Nat.eqb (tid u) id); trivial.
Qed.

Lemma silenceInv_silenceTimeout (s : App) :
  silenceInv s -> silenceInv (silenceTimeout s).
Proof.
  intro H. unfold silenceTimeout, request.
  destruct (mediaRecorderRef (refs s)) as [[| |]|]; exact H.
Qed.

Lemma silenceInv_not_truthy (s : App) :
  silenceInv s -> truthy (silenceTimerRef (refs s)) = false ->
  pendingPauses s = [].
Proof.
  unfold silenceInv. destruct (pendingPauses s) as [|t [|u l]];
    try contradiction; [reflexivity|].
  intros [Href Hpos] Ht. rewrite Href in Ht.
  destruct (tid t); [exfalso; apply Hpos; reflexivity | discriminate Ht].
Qed.

Lemma silenceInv_runAudioAnalysis (closure : RecordingState) (s : App) :
  silenceInv s -> silenceInv (runAudioAnalysis closure s).
Proof.
  intro H. unfold runAudioAnalysis.
  destruct (negb (analyserRef (refs s)) || isCalibrating closure);
    [exact H|].
  cbv zeta.
  destruct (mediaRecorderRef (refs s)) as [[| |]|] eqn:Er; try exact H.
  - destruct (isSilent _ _).
    + destruct (negb (truthy (silenceTimerRef (refs s)))) eqn:Et;
        [|exact H].
      apply negb_true_iff in Et.
      pose proof (silenceInv_not_truthy s H Et) as Hnone.
      unfold silenceInv, pendingPauses in *. cbn.
      rewrite filter_snoc, Hnone. cbn. split; [reflexivity | discriminate].
    + destruct (silenceTimerRef (refs s)) as [[|n]|] eqn:Et; try exact H.
      assert (Hnone : pendingPauses (clearTimeout (S n) s) = []).
      { unfold silenceInv, pendingPauses in *. cbn. rewrite filter_comm.
        destruct (filter isSilenceTimeout (timers (host s))) as [|t [|u l]];
          try contradiction; [reflexivity|].
        destruct H as [Href _]. rewrite Et in Href. injection Href as Href.
        simpl. rewrite <- Href, Nat.eqb_refl. reflexivity. }
      unfold silenceInv. 
      change (pendingPauses
                (scheduleAnalysis closure
                   (set_silenceTimerRef None (clearTimeout (S n) s))))
        with (pendingPauses (clearTimeout (S n) s)).
      rewrite Hnone. exact I.
  - destruct (isSilent _ _); [exact H|].
    unfold request. rewrite Er. exact H.
Qed.

Lemma silenceInv_startActualRecording (closure : RecordingState) (s : App) :
  silenceInv s -> silenceInv (startActualRecording closure s).
Proof.
  intro H. unfold startActualRecording.
  destruct (streamRef (refs s)); [|exact H].
  apply silenceInv_runAudioAnalysis. exact H.
Qed.

Lemma silenceInv_runCallback (cb : Callback) (s : App) :
  silenceInv s -> silenceInv (runCallback cb s).
Proof.
  intro H. destruct cb as [| |cal|cal ci cdi closure]; cbn [runCallback].
  - apply silenceInv_silenceTimeout, H.
  - exact H.
  - unfold collectCalibrationData.
    destruct (audioContextRef (refs s)) as [[| |]|]; try exact H.
    destruct (analyserRef (refs s)); exact H.
  - unfold calibrationTimeout. apply silenceInv_startActualRecording.
    exact (silenceInv_clearTimeout cdi _ (silenceInv_clearTimeout ci _ H)).
Qed.

Lemma silenceInv_fire (id : nat) (s : App) :
  silenceInv s -> silenceInv (fire id s).
Proof.
  intro H. unfold fire. destruct (find _ _) as [t|]; [|exact H].
  apply silenceInv_runCallback, silenceInv_rearm, H.
Qed.

Lemma cleanup_keeps_the_timers (s : App) :
  timers (host (cleanup s)) = timers (host s)
  /\ silenceTimerRef (refs (cleanup s)) = silenceTimerRef (refs s)
  /\ sinkLog (host (cleanup s)) = sinkLog (host s)
  /\ recordingState (react (cleanup s)) = recordingState (react s).
Proof.
  unfold cleanup.
  destruct (animationFrameRef (refs s));
    destruct (streamRef (refs s)) eqn:Es; cbn; rewrite ?Es; cbn;
    destruct (audioContextRef (refs s)) as [[| |]|] eqn:Ec; cbn; rewrite ?Ec;
    repeat split; reflexivity.
Qed.

Lemma silenceInv_same (s s' : App) :
  silenceTimerRef (refs s') = silenceTimerRef (refs s) ->
  timers (host s') = timers (host s) ->
  silenceInv s -> silenceInv s'.
Proof.
  unfold silenceInv, pendingPauses. intros -> ->. exact (fun H => H).
Qed.

Lemma silenceInv_cleanup (s : App) : silenceInv s -> silenceInv (cleanup s).
Proof.
  unfold silenceInv, pendingPauses.
  destruct (cleanup_keeps_the_timers s) as [Ht [Hr _]]. rewrite Ht, Hr.
  exact (fun H => H).
Qed.

Lemma silenceInv_startCalibration
    (o : Orientation) (outcome : AcquireOutcome) (s : App) :
  silenceInv s -> silenceInv (startCalibration o outcome s).
Proof.
  intro H. unfold startCalibration.
  destruct outcome as [name|name|ctx name|ctx].
  1-3: unfold catchBlock; apply silenceInv_cleanup;
    apply (silenceInv_same s); [reflexivity | reflexivity | exact H].
  revert H. unfold silenceInv, pendingPauses. cbn.
  rewrite !filter_snoc. cbn. rewrite !app_nil_r. exact (fun H => H).
Qed.

Lemma stopRecording_before_clearing (s : App) :
  exists s1 : App,
    timers (host s1) = timers (host s)
    /\ silenceTimerRef (refs s1) = silenceTimerRef (refs s)
    /\ stopRecording s
       = match silenceTimerRef (refs s1) with
         | Some (S _ as id) => clearTimeout id s1
         | _ => s1
         end.
Proof.
  unfold stopRecording.
  match goal with
  | |- context [match silenceTimerRef (refs ?x) with _ => _ end] =>
      exists x
  end.
  split; [|split; [|reflexivity]];
    unfold stopRecorder, request;
    destruct (mediaRecorderRef (refs s)) as [[| |]|];
    destruct (negb (isIdleOrStopped (recordingState (react s))));
    reflexivity.
Qed.

Lemma silenceInv_stopRecording (s : App) :
  silenceInv s -> silenceInv (stopRecording s).
Proof.
  intro H. destruct (stopRecording_before_clearing s) as [s1 [Ht [Hr E]]].
  assert (H1 : silenceInv s1).
  { unfold silenceInv, pendingPauses in *. rewrite Ht, Hr. exact H. }
  rewrite E. destruct (silenceTimerRef (refs s1)) as [[|n]|]; try exact H1.
  apply silenceInv_clearTimeout, H1.
Qed.

Lemma silenceInv_step (s : App) (e : Event) :
  silenceInv s -> silenceInv (step s e).
Proof.
  intro H. destruct e; cbn [step].
  - exact H.
  - apply invariant_animationFrame;
      [ intros s0 H0; exact H0
      | apply silenceInv_runAudioAnalysis
      | exact H ].
  - apply invariant_elapse;
      [ intros s0 H0; exact H0 | apply silenceInv_fire | exact H ].
  - apply silenceInv_startCalibration, H.
  - apply silenceInv_stopRecording, H.
  - unfold handleReset. apply silenceInv_cleanup. exact H.
  - unfold ondataavailable. destruct (0 <? size); exact H.
  - unfold deliverStop. destruct (onstopQueued (host s)); [exact H|].
    unfold onstop. apply silenceInv_cleanup. exact H.
Qed.

(** X12.  In every execution, whatever the events and their order, at most
    one silence timer is pending and [silenceTimerRef] names it; so a Sound
    sample of a recording sink, which clears the timer the reference names,
    leaves no pause pending, and so does a stop request. *)
Theorem at_most_one_pause_is_pending (events : list Event) :
  (length (pendingPauses (run events initial)) <= 1)%nat
  /\ (forall t : Timer,
        In t (timers (host (run events initial))) ->
        callback t = SilenceTimeout ->
        silenceTimerRef (refs (run events initial)) = Some (tid t))
  /\ pendingPauses (step (run events initial) Stop) = []
  /\ (forall closure : RecordingState,
        analyserRef (refs (run events initial)) = true ->
        closure <> CALIBRATING ->
        mediaRecorderRef (refs (run events initial)) = Some recording ->
        isSilent (averageVolume (getByteFrequencyData (run events initial)))
                 (silenceThresholdRef (refs (run events initial))) = false ->
        pendingPauses (runAudioAnalysis closure (run events initial)) = []).
Proof.
  assert (H : silenceInv (run events initial)).
  { apply invariant_run; [apply silenceInv_step | exact I]. }
  set (s := run events initial) in *. clearbody s.
  split; [|split; [|split]].
  - unfold silenceInv in H. destruct (pendingPauses s) as [|t [|u l]];
      try contradiction; simpl; lia.
  - intros t Hin Hcb.
    assert (Hp : In t (pendingPauses s)).
    { apply filter_In. split; [exact Hin|].
      unfold isSilenceTimeout. rewrite Hcb. reflexivity. }
    unfold silenceInv in H. destruct (pendingPauses s) as [|u [|v l]];
      try contradiction.
    destruct Hp as [-> | []]. exact (proj1 H).
  - cbn [step].
    destruct (stopRecording_before_clearing s) as [s1 [Ht [Hr E]]].
    assert (E1 : pendingPauses s1 = pendingPauses s)
      by (unfold pendingPauses; rewrite Ht; reflexivity).
    rewrite E. unfold silenceInv in H.
    destruct (pendingPauses s) as [|t [|u l]] eqn:Ef; try contradiction.
    + destruct (silenceTimerRef (refs s1)) as [[|n]|];
        rewrite ?pendingPauses_clearTimeout, E1; reflexivity.
    + destruct H as [Href Hpos]. rewrite Hr, Href.
      destruct (tid t) as [|n] eqn:En; [exfalso; apply Hpos; reflexivity|].
      rewrite pendingPauses_clearTimeout, E1. simpl.
      rewrite En, Nat.eqb_refl. reflexivity.
  - intros closure Ha Hc Hr Hs. unfold runAudioAnalysis. rewrite Ha.
    assert (Ec : isCalibrating closure = false)
      by (destruct closure; try reflexivity; exfalso; apply Hc; reflexivity).
    rewrite Ec. cbn [negb orb]. cbv zeta. rewrite Hr, Hs.
    unfold silenceInv in H.
    destruct (pendingPauses s) as [|t [|u l]] eqn:Ef; try contradiction.
    + destruct (silenceTimerRef (refs s)) as [[|n]|].
      * change (pendingPauses s = []). exact Ef.
      * change (pendingPauses (clearTimeout (S n) s) = []).
        rewrite pendingPauses_clearTimeout, Ef. reflexivity.
      * change (pendingPauses s = []). exact Ef.
    + destruct H as [Href Hpos]. rewrite Href.
      destruct (tid t) as [|n] eqn:En; [exfalso; apply Hpos; reflexivity|].
      change (pendingPauses (clearTimeout (S n) s) = []).
      rewrite pendingPauses_clearTimeout, Ef. simpl.
      rewrite En, Nat.eqb_refl. reflexivity.
Qed.

Lemma pending_pause_witness :
  length (pendingPauses (run (calibrate ++ speak ++ fallSilent 3) initial))
  = 1%nat
  /\ pendingPauses (step (run (calibrate ++ speak ++ fallSilent 3) initial) Stop)
     = [].
Proof.
  split; [vm_compute; reflexivity|].
  exact (proj1 (proj2 (proj2
           (at_most_one_pause_is_pending
              (calibrate ++ speak ++ fallSilent 3))))).
Defined.

(** ** The range of the stored noise floor *)

Lemma runAudioAnalysis_frame (closure : RecordingState) (s : App) :
  silenceThresholdRef (refs (runAudioAnalysis closure s))
  = silenceThresholdRef (refs s)
  /\ calStore (host (runAudioAnalysis closure s)) = calStore (host s)
  /\ streamRef (refs (runAudioAnalysis closure s)) = streamRef (refs s)
  /\ liveStreams (host (runAudioAnalysis closure s)) = liveStreams (host s).
Proof.
  unfold runAudioAnalysis.
  destruct (negb (analyserRef (refs s)) || isCalibrating closure);
    [repeat split; reflexivity|].
  cbv zeta.
  destruct (mediaRecorderRef (refs s)) as [[| |]|] eqn:Er;
    try (repeat split; reflexivity).
  - destruct (isSilent _ _).
    + destruct (negb (truthy (silenceTimerRef (refs s))));
        repeat split; reflexivity.
    + destruct (silenceTimerRef (refs s)) as [[|n]|];
        repeat split; reflexivity.
  - destruct (isSilent _ _); [repeat split; reflexivity|].
    unfold request. rewrite Er. repeat split; reflexivity.
Qed.

Lemma cleanup_frame (s : App) :
  silenceThresholdRef (refs (cleanup s)) = silenceThresholdRef (refs s)
  /\ calStore (host (cleanup s)) = calStore (host s).
Proof.
  unfold cleanup.
  destruct (animationFrameRef (refs s));
    destruct (streamRef (refs s)) eqn:Es; cbn; rewrite ?Es; cbn;
    destruct (audioContextRef (refs s)) as [[| |]|] eqn:Ec; cbn; rewrite ?Ec;
    split; reflexivity.
Qed.

Lemma stopRecording_frame (s : App) :
  silenceThresholdRef (refs (stopRecording s)) = silenceThresholdRef (refs s)
  /\ calStore (host (stopRecording s)) = calStore (host s)
  /\ streamRef (refs (stopRecording s)) = streamRef (refs s)
  /\ liveStreams (host (stopRecording s)) = liveStreams (host s)
  /\ rafRequests (host (stopRecording s)) = rafRequests (host s)
  /\ animationFrameRef (refs (stopRecording s)) = animationFrameRef (refs s).
Proof.
  unfold stopRecording, stopRecorder, request.
  match goal with
  | |- context [match silenceTimerRef (refs ?x) with _ => _ end] =>
      set (s1 := x)
  end.
  assert (E : silenceThresholdRef (refs s1) = silenceThresholdRef (refs s)
              /\ calStore (host s1) = calStore (host s)
              /\ streamRef (refs s1) = streamRef (refs s)
              /\ liveStreams (host s1) = liveStreams (host s)
              /\ rafRequests (host s1) = rafRequests (host s)
              /\ animationFrameRef (refs s1) = animationFrameRef (refs s)).
  { subst s1.
    destruct (mediaRecorderRef (refs s)) as [[| |]|];
      destruct (negb (isIdleOrStopped (recordingState (react s))));
      repeat split; reflexivity. }
  clearbody s1. destruct (silenceTimerRef (refs s1)) as [[|n]|]; exact E.
Qed.

Lemma pushCalibration_in_range (cal : nat) (v : Q)
    (store : list (nat * list Q)) :
  (0 <= v <= 255)%Q ->
  Forall (fun entry => Forall (fun x => 0 <= x <= 255)%Q (snd entry)) store ->
  Forall (fun entry => Forall (fun x => 0 <= x <= 255)%Q (snd entry))
         (pushCalibration cal v store).
Proof.
  intros Hv H. induction H as [|[c data] rest Hd Hrest IH]; simpl.
  - constructor.
  - destruct (Nat.eqb c cal).
    + constructor; [|exact Hrest]. simpl in *.
      apply Forall_app. split; [exact Hd|]. constructor; [exact Hv|constructor].
    + constructor; [exact Hd | exact IH].
Qed.

Lemma calibrationData_in_range (cal : nat) (store : list (nat * list Q)) :
  Forall (fun entry => Forall (fun x => 0 <= x <= 255)%Q (snd entry)) store ->
  Forall (fun x => 0 <= x <= 255)%Q (calibrationData cal store).
Proof.
  intro H. induction H as [|[c data] rest Hd _ IH]; simpl.
  - constructor.
  - destruct (Nat.eqb c cal); [exact Hd | exact IH].
Qed.

Lemma noiseFloor_in_range (samples : list Q) :
  Forall (fun x => 0 <= x <= 255)%Q samples ->
  (0 <= noiseFloor samples <= 255)%Q.
Proof.
  intro H. destruct (noiseFloor_cases samples) as [[E [Hpos Hne]] | E].
  - rewrite E. apply (arithmeticMean_bounds 0 255 samples Hne H).
  - rewrite E. split; discriminate.
Qed.

Lemma thresholdInv_same (s s' : App) :
  silenceThresholdRef (refs s') = silenceThresholdRef (refs s) ->
  calStore (host s') = calStore (host s) ->
  thresholdInv s -> thresholdInv s'.
Proof. unfold thresholdInv. intros -> ->. exact (fun H => H). Qed.

Lemma thresholdInv_runAudioAnalysis (closure : RecordingState) (s : App) :
  thresholdInv s -> thresholdInv (runAudioAnalysis closure s).
Proof.
  unfold thresholdInv.
  destruct (runAudioAnalysis_frame closure s) as [Ht [Hc _]].
  rewrite Ht, Hc. exact (fun H => H).
Qed.

Lemma thresholdInv_cleanup (s : App) :
  thresholdInv s -> thresholdInv (cleanup s).
Proof.
  unfold thresholdInv. destruct (cleanup_frame s) as [Ht Hc].
  rewrite Ht, Hc. exact (fun H => H).
Qed.

Lemma thresholdInv_fire (id : nat) (s : App) :
  thresholdInv s -> thresholdInv (fire id s).
Proof.
  intro H. unfold fire. destruct (find _ _) as [t|]; [|exact H].
  assert (H1 : thresholdInv (rearm id t s)).
  { unfold rearm. destruct (period t); exact H. }
  revert H1. generalize (rearm id t s). intros s1 H1.
  destruct (callback t) as [| |cal|cal ci cdi closure]; cbn [runCallback].
  - unfold silenceTimeout, request.
    destruct (mediaRecorderRef (refs s1)) as [[| |]|]; exact H1.
  - exact H1.
  - unfold collectCalibrationData.
    destruct (audioContextRef (refs s1)) as [[| |]|]; try exact H1.
    destruct (analyserRef (refs s1)); [|exact H1].
    destruct H1 as [Ht Hc]. split; [exact Ht|]. cbn.
    apply pushCalibration_in_range; [|exact Hc].
    split; [apply averageVolume_nonneg | apply averageVolume_le_255].
  - unfold calibrationTimeout, startActualRecording. cbn.
    assert (H2 : thresholdInv
                   (set_silenceThresholdRef
                      (noiseFloor (calibrationData cal (calStore (host s1))))
                      (clearInterval cdi (clearInterval ci s1)))).
    { destruct H1 as [_ Hc]. split; [|exact Hc]. cbn.
      apply noiseFloor_in_range, calibrationData_in_range, Hc. }
    destruct (streamRef (refs s1)); [|exact H2].
    apply thresholdInv_runAudioAnalysis. exact H2.
Qed.

Lemma thresholdInv_step (s : App) (e : Event) :
  thresholdInv s -> thresholdInv (step s e).
Proof.
  intro H. destruct e; cbn [step].
  - exact H.
  - apply invariant_animationFrame;
      [ intros s0 H0; exact H0
      | apply thresholdInv_runAudioAnalysis
      | exact H ].
  - apply invariant_elapse;
      [ intros s0 H0; exact H0 | apply thresholdInv_fire | exact H ].
  - unfold startCalibration.
    destruct outcome as [name|name|ctx name|ctx].
    1-3: unfold catchBlock; apply thresholdInv_cleanup;
      apply (thresholdInv_same s); [reflexivity | reflexivity | exact H].
    destruct H as [Ht Hc]. split; [exact Ht|]. cbn.
    apply Forall_app. split; [exact Hc|].
    constructor; [constructor | constructor].
  - unfold thresholdInv. destruct (stopRecording_frame s) as [Ht [Hc _]].
    rewrite Ht, Hc. exact H.
  - unfold handleReset. apply thresholdInv_cleanup. exact H.
  - unfold ondataavailable. destruct (0 <? size); exact H.
  - unfold deliverStop. destruct (onstopQueued (host s)); [exact H|].
    unfold onstop. apply thresholdInv_cleanup. exact H.
Qed.

(** X13.  In every execution, whatever the events and their order, the
    stored noise floor lies between 0 and 255, so the threshold derived from
    it never exceeds 459; and every calibration sample collected is an
    energy between 0 and 255. *)
Theorem stored_noise_floor_is_an_energy (events : list Event) :
  (0 <= silenceThresholdRef (refs (run events initial)) <= 255)%Q
  /\ (SilenceThreshold (silenceThresholdRef (refs (run events initial)))
      <= 459)%Q
  /\ (forall cal : nat,
        Forall (fun x => 0 <= x <= 255)%Q
               (calibrationData cal (calStore (host (run events initial))))).
Proof.
  assert (H : thresholdInv (run events initial)).
  { apply invariant_run; [apply thresholdInv_step|].
    split; [split; discriminate | constructor]. }
  destruct H as [[H0 H255] Hc].
  split; [split; assumption|]. split.
  - unfold SilenceThreshold.
    apply Qle_trans with (255 * THRESHOLD_MULTIPLIER)%Q; [|discriminate].
    apply Qmult_le_compat_r; [exact H255|].
    apply Qlt_le_weak, THRESHOLD_MULTIPLIER_pos.
  - intro cal. apply calibrationData_in_range, Hc.
Qed.

(** ** What the rendered controls guarantee *)

Lemma calibrationInv_none (s : App) :
  pendingCalibrations s = [] -> calibrationInv s.
Proof. unfold calibrationInv. intros ->. exact I. Qed.

Lemma calibrationInv_elsewhere (s : App) :
  calibrationInv s -> recordingState (react s) <> CALIBRATING ->
  pendingCalibrations s = [].
Proof.
  unfold calibrationInv. destruct (pendingCalibrations s) as [|t [|u l]];
    try contradiction; [reflexivity|].
  intros [H _] Hne. contradiction.
Qed.

Lemma pendingCalibrations_clearTimeout (id : nat) (s : App) :
  pendingCalibrations (clearTimeout id s)
  = filter (fun t => negb (Nat.eqb (tid t) id)) (pendingCalibrations s).
Proof. unfold pendingCalibrations. cbn. apply filter_comm. Qed.

Lemma sinkSession_snoc (log : list (SinkRequest * RecorderState))
    (entry : SinkRequest * RecorderState) :
  sinkSession (log ++ [entry]) = sinkStep (sinkSession log) entry.
Proof. unfold sinkSession. rewrite fold_left_app. reflexivity. Qed.

Lemma protocolInv_inactive (s : App) :
  protocolInv s ->
  recordingState (react s) <> RECORDING ->
  recordingState (react s) <> PAUSED ->
  sinkSession (sinkLog (host s)) = Some inactive.
Proof.
  intros [q [Hq [_ Hopen]]] H1 H2. destruct q; try exact Hq;
    exfalso; destruct Hopen as [H | H]; try discriminate; contradiction.
Qed.

Lemma uiInvariant_cleanup (s : App) :
  liveStreams (host s) = heldStream (streamRef (refs s)) ->
  protocolInv s ->
  (rafRequests (host s) = []
   \/ exists n : nat,
        animationFrameRef (refs s) = S n
        /\ rafRequests (host s) = [(S n, IDLE)]) ->
  calibrationInv s ->
  uiInvariant (cleanup s).
Proof.
  intros Hlive [q [Hq [_ Hopen]]] Hraf Hcal.
  destruct (cleanup_refs s) as [Hstream [Hrec _]].
  destruct (cleanup_keeps_the_timers s) as [Htimers [_ [Hlog Hstate]]].
  unfold uiInvariant, streamsInv, protocolInv, loopInv.
  rewrite Hstream, Hrec, Hlog, Hstate.
  assert (Hraf' : rafRequests (host (cleanup s)) = []).
  { rewrite cleanup_rafRequests.
    destruct Hraf as [E | [n [En E]]].
    - rewrite E. destruct (animationFrameRef (refs s)); reflexivity.
    - rewrite En, E. cbn. rewrite Nat.eqb_refl. reflexivity. }
  rewrite Hraf'.
  split; [split; [reflexivity|]|].
  - rewrite cleanup_liveStreams, Hlive.
    destruct (streamRef (refs s)) as [i|]; cbn; [|reflexivity].
    rewrite Nat.eqb_refl. reflexivity.
  - split; [exact I|]. split.
    + exists q. split; [exact Hq|]. split; [discriminate | exact Hopen].
    + split; [split; [left; reflexivity | reflexivity]|].
      revert Hcal. unfold calibrationInv, pendingCalibrations.
      rewrite Htimers, Hstate. exact (fun H => H).
Qed.

(** The analysis run by a frame or by the start of the recording. *)
Lemma uiInvariant_runAudioAnalysis (s : App) :
  streamsInv s ->
  agrees (recordingState (react s)) (mediaRecorderRef (refs s)) ->
  protocolInv s ->
  calibrationInv s ->
  rafRequests (host s) = [] ->
  recordingState (react s) <> IDLE ->
  recordingState (react s) <> CALIBRATING ->
  uiInvariant (runAudioAnalysis IDLE s).
Proof.
  intros Hstreams Hagree Hprot Hcal Hraf Hidle Hcalib.
  pose proof (calibrationInv_elsewhere s Hcal Hcalib) as Hnone.
  assert (Hsched : forall s1 : App,
            streamsInv s1 ->
            agrees (recordingState (react s1)) (mediaRecorderRef (refs s1)) ->
            protocolInv s1 -> pendingCalibrations s1 = [] ->
            rafRequests (host s1) = [] ->
            recordingState (react s1) <> IDLE ->
            recordingState (react s1) <> CALIBRATING ->
            uiInvariant (scheduleAnalysis IDLE s1)).
  { intros s1 H1 H2 H3 H4 H5 H6 H7.
    split; [exact H1|]. split; [exact H2|]. split; [exact H3|]. split.
    - unfold loopInv. cbn. rewrite H5. split.
      + right. exists (nextId (host s1)). split; reflexivity.
      + intros [H | H]; contradiction.
    - apply calibrationInv_none. exact H4. }
  pose proof (Hsched s Hstreams Hagree Hprot Hnone Hraf Hidle Hcalib) as Hbase.
  unfold runAudioAnalysis.
  destruct (negb (analyserRef (refs s)) || isCalibrating IDLE);
    [exact Hbase|].
  cbv zeta.
  destruct (mediaRecorderRef (refs s)) as [[| |]|] eqn:Er;
    try exact Hbase.
  - destruct (isSilent _ _).
    + destruct (negb (truthy (silenceTimerRef (refs s))));
        [|exact Hbase].
      apply Hsched; try assumption.
      * cbn. rewrite Er. exact Hagree.
      * unfold pendingCalibrations in *. cbn. rewrite filter_snoc, Hnone.
        reflexivity.
    + destruct (silenceTimerRef (refs s)) as [[|n]|];
        try exact Hbase.
      apply Hsched; try assumption.
      * cbn. rewrite Er. exact Hagree.
      * change (pendingCalibrations
                  (set_silenceTimerRef None (clearTimeout (S n) s)))
          with (pendingCalibrations (clearTimeout (S n) s)).
        rewrite pendingCalibrations_clearTimeout, Hnone. reflexivity.
  - destruct (isSilent _ _); [exact Hbase|].
    unfold request. rewrite Er.
    apply Hsched; try assumption; try discriminate.
    + destruct Hstreams as [_ Hl]. split; [discriminate | exact Hl].
    + reflexivity.
    + destruct Hprot as [q [Hq [Hr _]]].
      specialize (Hr paused Er). subst q.
      exists recording. cbn -[sinkSession]. rewrite sinkSession_snoc, Hq.
      split; [reflexivity|]. split.
      * intros r E. injection E as <-. reflexivity.
      * intros _. left. reflexivity.
Qed.

Lemma calibrationInv_rearm (id : nat) (t : Timer) (s : App) :
  calibrationInv s -> calibrationInv (rearm id t s).
Proof.
  unfold rearm. destruct (period t) as [p|].
  - unfold calibrationInv, pendingCalibrations. cbn.
    rewrite filter_map_stable
      by (intro x; unfold isCalibrationTimeout;
          destruct (Nat.eqb (tid x) id); reflexivity).
    destruct (filter isCalibrationTimeout (timers (host s))) as [|u [|v l]];
      simpl; try contradiction; trivial.
    destruct (Nat.eqb (tid u) id); trivial.
  - unfold calibrationInv. rewrite pendingCalibrations_clearTimeout.
    destruct (pendingCalibrations s) as [|u [|v l]];
      simpl; try contradiction; trivial.
    destruct (negb (Nat.eqb (tid u) id)); trivial.
Qed.

Lemma uiInvariant_rearm (id : nat) (t : Timer) (s : App) :
  uiInvariant s -> uiInvariant (rearm id t s).
Proof.
  intros [Hs [Ha [Hp [Hl Hc]]]].
  pose proof (calibrationInv_rearm id t s Hc) as Hc'.
  revert Hc'. unfold rearm. destruct (period t); intro Hc';
    (split; [exact Hs|]; split; [exact Ha|]; split; [exact Hp|];
     split; [exact Hl | exact Hc']).
Qed.

Lemma uiInvariant_silenceTimeout (s : App) :
  uiInvariant s -> uiInvariant (silenceTimeout s).
Proof.
  intros H. pose proof H as [Hs [Ha [Hp [Hl Hc]]]].
  unfold silenceTimeout.
  destruct (mediaRecorderRef (refs s)) as [[| |]|] eqn:Er; try exact H.
  cbn in Ha.
  assert (Hnone : pendingCalibrations s = []).
  { apply calibrationInv_elsewhere; [exact Hc|]. rewrite Ha. discriminate. }
  unfold request. rewrite Er.
  split; [|split; [|split; [|split]]].
  - destruct Hs as [_ Hlive]. split; [discriminate | exact Hlive].
  - reflexivity.
  - destruct Hp as [q [Hq [Hr _]]]. specialize (Hr recording Er). subst q.
    exists paused. cbn -[sinkSession]. rewrite sinkSession_snoc, Hq.
    split; [reflexivity|]. split.
    + intros r E. injection E as <-. reflexivity.
    + intros _. right. reflexivity.
  - destruct Hl as [Hl1 _]. split; [exact Hl1|].
    intros [E | E]; discriminate E.
  - apply calibrationInv_none. exact Hnone.
Qed.

Lemma In_singleton_filter {A : Type} (f : A -> bool) (l : list A) (x u : A) :
  In x l -> f x = true -> filter f l = [u] -> u = x.
Proof.
  intros Hin Hf E.
  assert (H : In x (filter f l)) by (apply filter_In; split; assumption).
  rewrite E in H. destruct H as [H | []]. exact H.
Qed.

Lemma uiInvariant_startActualRecording (s : App) :
  streamsInv s ->
  agrees (recordingState (react s)) (mediaRecorderRef (refs s)) ->
  protocolInv s ->
  loopInv s ->
  recordingState (react s) = CALIBRATING ->
  pendingCalibrations s = [] ->
  uiInvariant (startActualRecording IDLE s).
Proof.
  intros Hs Ha Hp Hl Hstate Hnone.
  assert (Hraf : rafRequests (host s) = []).
  { destruct Hl as [_ Hl2]. apply Hl2. right. exact Hstate. }
  assert (Hinactive : sinkSession (sinkLog (host s)) = Some inactive).
  { apply protocolInv_inactive; [exact Hp| |]; rewrite Hstate; discriminate. }
  unfold startActualRecording.
  destruct (streamRef (refs s)) as [stream|] eqn:Es.
  - apply uiInvariant_runAudioAnalysis.
    + destruct Hs as [_ Hlive]. split; [discriminate|].
      cbn. rewrite Es. rewrite Es in Hlive. exact Hlive.
    + reflexivity.
    + exists recording. cbn -[sinkSession].
      rewrite sinkSession_snoc, Hinactive.
      split; [reflexivity|]. split.
      * intros r E. injection E as <-. reflexivity.
      * intros _. left. reflexivity.
    + apply calibrationInv_none. exact Hnone.
    + exact Hraf.
    + discriminate.
    + discriminate.
  - split; [exact Hs|]. split; [exact Ha|]. split; [exact Hp|].
    split; [exact Hl|]. apply calibrationInv_none. exact Hnone.
Qed.

Lemma uiInvariant_calibrationTimeout
    (id cal ci cdi : nat) (closure : RecordingState) (t : Timer) (s : App) :
  In t (timers (host s)) ->
  Nat.eqb (tid t) id = true ->
  callback t = CalibrationTimeout cal ci cdi closure ->
  uiInvariant s ->
  uiInvariant (calibrationTimeout cal ci cdi closure (rearm id t s)).
Proof.
  intros Hin Hid Hcb [Hs [Ha [Hp [Hl Hc]]]].
  assert (Hcalt : isCalibrationTimeout t = true)
    by (unfold isCalibrationTimeout; rewrite Hcb; reflexivity).
  (* the timer that fires is the one pending calibration *)
  unfold calibrationInv in Hc.
  destruct (pendingCalibrations s) as [|u [|v l]] eqn:Ep; try contradiction.
  { exfalso.
    assert (Hx : In t (pendingCalibrations s))
      by (apply filter_In; split; assumption).
    rewrite Ep in Hx. exact Hx. }
  assert (Eu : u = t) by (apply (In_singleton_filter _ _ _ _ Hin Hcalt Ep)).
  subst u. destruct Hc as [Hstate [Hperiod Hclosure]].
  rewrite Hcb in Hclosure. cbn in Hclosure. injection Hclosure as ->.
  unfold rearm. rewrite Hperiod. unfold calibrationTimeout.
  apply uiInvariant_startActualRecording.
  - exact Hs.
  - exact Ha.
  - exact Hp.
  - exact Hl.
  - exact Hstate.
  - change (pendingCalibrations
              (clearTimeout cdi (clearTimeout ci (clearTimeout id s))) = []).
    do 3 rewrite pendingCalibrations_clearTimeout. rewrite Ep. simpl.
    rewrite Hid. reflexivity.
Qed.

Lemma uiInvariant_fire (id : nat) (s : App) :
  uiInvariant s -> uiInvariant (fire id s).
Proof.
  intro H. unfold fire.
  destruct (find (fun t => Nat.eqb (tid t) id) (timers (host s))) as [t|] eqn:Ef;
    [|exact H].
  apply find_some in Ef. destruct Ef as [Hin Hid].
  destruct (callback t) as [| |cal|cal ci cdi closure] eqn:Ecb;
    cbn [runCallback].
  - apply uiInvariant_silenceTimeout, uiInvariant_rearm, H.
  - exact (uiInvariant_rearm id t s H).
  - pose proof (uiInvariant_rearm id t s H) as H1.
    revert H1. generalize (rearm id t s). intros s1 H1.
    unfold collectCalibrationData.
    destruct (audioContextRef (refs s1)) as [[| |]|]; try exact H1.
    destruct (analyserRef (refs s1)); exact H1.
  - apply (uiInvariant_calibrationTimeout id cal ci cdi closure t s);
      assumption.
Qed.

Lemma offered_Start (s : App) (o : Orientation) (outcome : AcquireOutcome) :
  offered s (Start o outcome) = true -> recordingState (react s) = IDLE.
Proof.
  unfold offered. cbn. destruct (recordingState (react s)); cbn;
    intro H; try discriminate H; reflexivity.
Qed.

Lemma offered_Stop (s : App) :
  offered s Stop = true ->
  recordingState (react s) = RECORDING \/ recordingState (react s) = PAUSED.
Proof.
  unfold offered. cbn. destruct (recordingState (react s)); cbn;
    intro H; try discriminate H; [left | right]; reflexivity.
Qed.

Lemma offered_Reset (s : App) :
  offered s Reset = true -> recordingState (react s) = STOPPED.
Proof.
  unfold offered. cbn. destruct (recordingState (react s)); cbn;
    intro H; try discriminate H; reflexivity.
Qed.

Lemma uiInvariant_clearTimeout (id : nat) (s : App) :
  uiInvariant s -> uiInvariant (clearTimeout id s).
Proof.
  exact (uiInvariant_rearm id (mkTimer 0 0 None SilenceTimeout) s).
Qed.

Lemma uiInvariant_animationFrame (s : App) :
  uiInvariant s -> uiInvariant (animationFrame s).
Proof.
  intros [Hs [Ha [Hp [[Hl1 Hl2] Hc]]]]. unfold animationFrame.
  destruct Hl1 as [E | [n [En E]]]; rewrite E; cbn [fold_left snd].
  - split; [exact Hs|]. split; [exact Ha|]. split; [exact Hp|].
    split; [|exact Hc]. split; [left; reflexivity | reflexivity].
  - apply uiInvariant_runAudioAnalysis.
    + exact Hs.
    + exact Ha.
    + exact Hp.
    + exact Hc.
    + reflexivity.
    + intro Hi. rewrite (Hl2 (or_introl Hi)) in E. discriminate E.
    + intro Hi. rewrite (Hl2 (or_intror Hi)) in E. discriminate E.
Qed.

Lemma uiInvariant_startCalibration
    (o : Orientation) (outcome : AcquireOutcome) (s : App) :
  recordingState (react s) = IDLE ->
  uiInvariant s -> uiInvariant (startCalibration o outcome s).
Proof.
  intros Hidle [[Hs1 Hs2] [Ha [Hp [[_ Hl2] Hc]]]].
  pose proof (Hs1 Hidle) as Hstream.
  rewrite Hstream in Hs2. cbn in Hs2.
  assert (Hraf : rafRequests (host s) = []) by (apply Hl2; left; exact Hidle).
  assert (Hnone : pendingCalibrations s = []).
  { apply calibrationInv_elsewhere; [exact Hc|]. rewrite Hidle. discriminate. }
  assert (Hinactive : sinkSession (sinkLog (host s)) = Some inactive).
  { apply protocolInv_inactive; [exact Hp| |]; rewrite Hidle; discriminate. }
  assert (Hrec : mediaRecorderRef (refs s) = None).
  { rewrite Hidle in Ha. destruct (mediaRecorderRef (refs s)) as [[| |]|];
      try discriminate Ha; reflexivity. }
  assert (Hprot : forall s1 : App,
            sinkLog (host s1) = sinkLog (host s) ->
            mediaRecorderRef (refs s1) = None ->
            protocolInv s1).
  { intros s1 E1 E2. exists inactive. rewrite E1, E2.
    split; [exact Hinactive|]. split; [discriminate|].
    intro H. exfalso. apply H. reflexivity. }
  unfold startCalibration.
  destruct outcome as [name|name|ctx name|ctx]; unfold catchBlock.
  - apply uiInvariant_cleanup.
    + cbn. rewrite Hs2, Hstream. reflexivity.
    + apply Hprot; [reflexivity | exact Hrec].
    + left. exact Hraf.
    + apply calibrationInv_none. exact Hnone.
  - apply uiInvariant_cleanup.
    + cbn. rewrite Hs2. reflexivity.
    + apply Hprot; [reflexivity | exact Hrec].
    + left. exact Hraf.
    + apply calibrationInv_none. exact Hnone.
  - apply uiInvariant_cleanup.
    + cbn. rewrite Hs2. reflexivity.
    + apply Hprot; [reflexivity | exact Hrec].
    + left. exact Hraf.
    + apply calibrationInv_none. exact Hnone.
  - split; [|split; [|split; [|split]]].
    + split; [discriminate|]. cbn. rewrite Hs2. reflexivity.
    + cbn. rewrite Hrec. exact I.
    + apply Hprot; [reflexivity | exact Hrec].
    + split; [left; exact Hraf | intros _; exact Hraf].
    + unfold calibrationInv, pendingCalibrations in *. cbn.
      rewrite !filter_snoc, Hnone. cbn.
      split; [reflexivity|]. split; [reflexivity|]. rewrite Hidle. reflexivity.
Qed.

Lemma uiInvariant_stopRecording (s : App) :
  recordingState (react s) = RECORDING \/ recordingState (react s) = PAUSED ->
  uiInvariant s -> uiInvariant (stopRecording s).
Proof.
  intros Hstate H. pose proof H as [[_ Hlive] [Ha [Hp [[Hl1 _] Hc]]]].
  assert (Hnone : pendingCalibrations s = []).
  { apply calibrationInv_elsewhere; [exact Hc|].
    destruct Hstate as [E | E]; rewrite E; discriminate. }
  assert (Hactive : negb (isIdleOrStopped (recordingState (react s))) = true)
    by (destruct Hstate as [E | E]; rewrite E; reflexivity).
  assert (Hstopped : forall st : RecorderState,
            mediaRecorderRef (refs s) = Some st ->
            st <> inactive ->
            uiInvariant
              (set_recordingState STOPPED
                 (set_onstopQueued (S (onstopQueued (host s)))
                    (set_mediaRecorderRef (Some inactive)
                       (set_sinkLog (sinkLog (host s) ++ [(SinkStop, st)])
                                    s))))).
  { intros st Er Hne.
    split; [|split; [|split; [|split]]].
    - split; [discriminate | exact Hlive].
    - reflexivity.
    - destruct Hp as [q [Hq [Hr _]]]. specialize (Hr st Er). subst q.
      exists inactive. cbn -[sinkSession]. rewrite sinkSession_snoc, Hq.
      split; [destruct st; try reflexivity; exfalso; apply Hne; reflexivity|].
      split.
      + intros r E. injection E as <-. reflexivity.
      + intro Hq'. exfalso. apply Hq'. reflexivity.
    - split; [exact Hl1 | intros [E | E]; discriminate E].
    - apply calibrationInv_none. exact Hnone. }
  unfold stopRecording, stopRecorder, request.
  destruct (mediaRecorderRef (refs s)) as [st|] eqn:Er.
  - rewrite Hactive.
    assert (Hne : st <> inactive).
    { intro E. subst st. cbn in Ha.
      destruct Hstate as [E | E]; rewrite E in Ha; discriminate Ha. }
    specialize (Hstopped st eq_refl Hne).
    destruct st; [exfalso; apply Hne; reflexivity| |];
      cbn;
      destruct (silenceTimerRef (refs s)) as [[|n]|];
      try exact Hstopped;
      exact (uiInvariant_clearTimeout _ _ Hstopped).
  - destruct (silenceTimerRef (refs s)) as [[|n]|]; try exact H.
    apply uiInvariant_clearTimeout, H.
Qed.

Lemma uiInvariant_step (s : App) (e : Event) :
  offered s e = true -> uiInvariant s -> uiInvariant (step s e).
Proof.
  intros Ho H. destruct e; cbn [step].
  - exact H.
  - apply uiInvariant_animationFrame, H.
  - apply invariant_elapse;
      [ intros s0 H0; exact H0 | apply uiInvariant_fire | exact H ].
  - apply uiInvariant_startCalibration; [|exact H].
    exact (offered_Start s o outcome Ho).
  - apply uiInvariant_stopRecording; [|exact H]. exact (offered_Stop s Ho).
  - pose proof (offered_Reset s Ho) as Hstopped.
    destruct H as [[_ Hlive] [Ha [Hp [[Hl1 _] Hc]]]].
    unfold handleReset. apply uiInvariant_cleanup.
    + exact Hlive.
    + assert (Hinactive : sinkSession (sinkLog (host s)) = Some inactive).
      { apply protocolInv_inactive; [exact Hp| |]; rewrite Hstopped;
          discriminate. }
      destruct Hp as [q [Hq [Hr _]]]. exists inactive.
      split; [exact Hinactive|]. split.
      * intros r E. rewrite (Hr r E). rewrite Hq in Hinactive.
        injection Hinactive as ->. reflexivity.
      * intro Hq'. exfalso. apply Hq'. reflexivity.
    + exact Hl1.
    + apply calibrationInv_none.
      assert (Hn : pendingCalibrations s = []).
      { apply calibrationInv_elsewhere; [exact Hc|]. rewrite Hstopped.
        discriminate. }
      exact Hn.
  - unfold ondataavailable. destruct (0 <? size); exact H.
  - unfold deliverStop. destruct (onstopQueued (host s)) as [|k]; [exact H|].
    destruct H as [[_ Hlive] [Ha [Hp [[Hl1 _] Hc]]]].
    unfold onstop. apply uiInvariant_cleanup.
    + exact Hlive.
    + exact Hp.
    + exact Hl1.
    + exact Hc.
Qed.

Lemma uiInvariant_initial : uiInvariant initial.
Proof.
  split; [split; reflexivity|]. split; [exact I|]. split.
  - exists inactive. split; [reflexivity|]. split; [discriminate|].
    intro H. exfalso. apply H. reflexivity.
  - split; [split; [left; reflexivity | reflexivity] | exact I].
Qed.

Lemma uiInvariant_run (events : list Event) :
  allOffered events initial = true -> uiInvariant (run events initial).
Proof.
  intro Ho. apply invariant_offered_run;
    [apply uiInvariant_step | exact Ho | apply uiInvariant_initial].
Qed.

(** X14.  In every execution the rendered controls allow, no stream is live
    but the one [streamRef] holds: at most one stream is live at any time,
    and none while the controller is idle. *)
Theorem no_stream_outlives_its_reference (events : list Event)
    (Hui : allOffered events initial = true) :
  liveStreams (host (run events initial))
  = heldStream (streamRef (refs (run events initial)))
  /\ (length (liveStreams (host (run events initial))) <= 1)%nat
  /\ (recordingState (react (run events initial)) = IDLE ->
      streamRef (refs (run events initial)) = None
      /\ liveStreams (host (run events initial)) = []).
Proof.
  destruct (uiInvariant_run events Hui) as [[Hs1 Hs2] _].
  split; [exact Hs2|]. split.
  - rewrite Hs2. destruct (streamRef _); simpl; lia.
  - intro Hidle. specialize (Hs1 Hidle). rewrite Hs2, Hs1.
    split; reflexivity.
Qed.

Lemma no_stream_witness :
  allOffered untilRestarted initial = true
  /\ liveStreams (host afterRestart) = heldStream (streamRef (refs afterRestart)).
Proof.
  assert (Hui : allOffered untilRestarted initial = true)
    by (vm_compute; reflexivity).
  split; [exact Hui|].
  exact (proj1 (no_stream_outlives_its_reference untilRestarted Hui)).
Defined.

(** X15.  In every execution the rendered controls allow, the displayed
    state tells the state of the recorder whenever a recorder is held:
    Recording exactly when it records, Paused exactly when it is paused,
    Stopped exactly when it is inactive; and no recorder is held while idle
    or calibrating. *)
Theorem displayed_state_tells_the_recorder_state (events : list Event)
    (Hui : allOffered events initial = true) :
  forall st : RecorderState,
    mediaRecorderRef (refs (run events initial)) = Some st ->
    (st = recording <-> recordingState (react (run events initial)) = RECORDING)
    /\ (st = paused <-> recordingState (react (run events initial)) = PAUSED)
    /\ (st = inactive <-> recordingState (react (run events initial)) = STOPPED)
    /\ recordingState (react (run events initial)) <> IDLE
    /\ recordingState (react (run events initial)) <> CALIBRATING.
Proof.
  destruct (uiInvariant_run events Hui) as [_ [Ha _]].
  intros st Er. rewrite Er in Ha.
  destruct st; cbn in Ha; rewrite Ha;
    repeat split; intro H; try discriminate H; reflexivity.
Qed.

Lemma displayed_state_witness :
  allOffered (untilPaused ++ [Audio loudFrame]) initial = true
  /\ mediaRecorderRef (refs pausedHearingSound) = Some paused
  /\ recordingState (react pausedHearingSound) = PAUSED.
Proof.
  assert (Hui : allOffered (untilPaused ++ [Audio loudFrame]) initial = true)
    by (vm_compute; reflexivity).
  assert (Er : mediaRecorderRef (refs pausedHearingSound) = Some paused)
    by (vm_compute; reflexivity).
  split; [exact Hui|]. split; [exact Er|].
  exact (proj1 (proj1 (proj2 (displayed_state_tells_the_recorder_state
                                (untilPaused ++ [Audio loudFrame]) Hui
                                paused Er)))
           eq_refl).
Defined.

(** X16.  In every execution the rendered controls allow, the requests the
    sink receives form sessions a [MediaRecorder] admits: a start only when
    inactive, never twice without a stop between; a pause only when
    recording, a resume only when paused, a stop only when recording or
    paused; each logged with the state the session is in.  The recorder
    held is in the state of the last session, and a session is open only
    while the controller is in Recording or Paused. *)
Theorem sink_requests_form_recorder_sessions (events : list Event)
    (Hui : allOffered events initial = true) :
  exists q : RecorderState,
    sinkSession (sinkLog (host (run events initial))) = Some q
    /\ (forall r : RecorderState,
          mediaRecorderRef (refs (run events initial)) = Some r -> r = q)
    /\ (q <> inactive ->
        recordingState (react (run events initial)) = RECORDING
        \/ recordingState (react (run events initial)) = PAUSED).
Proof.
  destruct (uiInvariant_run events Hui) as [_ [_ [Hp _]]]. exact Hp.
Qed.

Lemma sink_sessions_witness :
  allOffered untilRestarted initial = true
  /\ sinkLog (host afterRestart)
     = [(SinkStart, inactive); (SinkStop, recording); (SinkStart, inactive)]
  /\ exists q : RecorderState,
       sinkSession (sinkLog (host afterRestart)) = Some q.
Proof.
  assert (Hui : allOffered untilRestarted initial = true)
    by (vm_compute; reflexivity).
  split; [exact Hui|]. split; [vm_compute; reflexivity|].
  destruct (sink_requests_form_recorder_sessions untilRestarted Hui)
    as [q [Hq _]].
  exists q. exact Hq.
Defined.

(** X17.  In every execution the rendered controls allow, at most one
    analysis callback is pending; it is the one [animationFrameRef] names
    and it closes over the state IDLE, so the test for CALIBRATING at the
    head of [runAudioAnalysis] never holds.  None is pending while idle or
    calibrating, and none is left once the recorder's stop event has been
    handled: sampling has halted. *)
Theorem one_analysis_loop (events : list Event)
    (Hui : allOffered events initial = true) :
  (length (rafRequests (host (run events initial))) <= 1)%nat
  /\ (forall r : nat * RecordingState,
        In r (rafRequests (host (run events initial))) ->
        fst r = animationFrameRef (refs (run events initial))
        /\ snd r = IDLE /\ isCalibrating (snd r) = false)
  /\ (recordingState (react (run events initial)) = IDLE
      \/ recordingState (react (run events initial)) = CALIBRATING ->
      rafRequests (host (run events initial)) = [])
  /\ (forall k : nat,
        onstopQueued (host (run events initial)) = S k ->
        rafRequests (host (step (run events initial) RecorderStopped)) = []).
Proof.
  destruct (uiInvariant_run events Hui) as [_ [_ [_ [[Hl1 Hl2] _]]]].
  split; [|split; [|split]].
  - destruct Hl1 as [E | [n [_ E]]]; rewrite E; simpl; lia.
  - intros r Hin. destruct Hl1 as [E | [n [En E]]]; rewrite E in Hin.
    + destruct Hin.
    + destruct Hin as [<- | []]. rewrite En. repeat split; reflexivity.
  - exact Hl2.
  - intros k Hk. cbn [step]. unfold deliverStop. rewrite Hk. unfold onstop.
    rewrite cleanup_rafRequests. cbn.
    destruct Hl1 as [E | [n [En E]]].
    + rewrite E. destruct (animationFrameRef _); reflexivity.
    + rewrite En, E. cbn. rewrite Nat.eqb_refl. reflexivity.
Qed.

Lemma one_analysis_loop_witness :
  allOffered untilRestarted initial = true
  /\ rafRequests (host afterRestart) = [(21%nat, IDLE)]
  /\ (length (rafRequests (host afterRestart)) <= 1)%nat.
Proof.
  assert (Hui : allOffered untilRestarted initial = true)
    by (vm_compute; reflexivity).
  split; [exact Hui|]. split; [vm_compute; reflexivity|].
  exact (proj1 (one_analysis_loop untilRestarted Hui)).
Defined.

(** X18.  In every execution the rendered controls allow, at most one
    calibration window is pending, and only while the controller is
    calibrating; its expiry is a single timeout and the analysis it will
    start closes over IDLE. *)
Theorem one_calibration_at_a_time (events : list Event)
    (Hui : allOffered events initial = true) :
  (length (pendingCalibrations (run events initial)) <= 1)%nat
  /\ (forall t : Timer,
        In t (timers (host (run events initial))) ->
        isCalibrationTimeout t = true ->
        recordingState (react (run events initial)) = CALIBRATING
        /\ period t = None
        /\ closureOf (callback t) = Some IDLE).
Proof.
  destruct (uiInvariant_run events Hui) as [_ [_ [_ [_ Hc]]]].
  unfold calibrationInv in Hc.
  split.
  - destruct (pendingCalibrations _) as [|t [|u l]]; try contradiction;
      simpl; lia.
  - intros t Hin Ht.
    assert (Hp : In t (pendingCalibrations (run events initial)))
      by (apply filter_In; split; assumption).
    destruct (pendingCalibrations _) as [|u [|v l]]; try contradiction.
    destruct Hp as [<- | []]. exact Hc.
Qed.

Lemma one_calibration_witness :
  allOffered [Start landscape (Acquired running); Audio quietFrame; Elapse 1000]
             initial = true
  /\ length (pendingCalibrations whileCalibrating) = 1%nat
  /\ (length (pendingCalibrations whileCalibrating) <= 1)%nat.
Proof.
  assert (Hui : allOffered
                  [Start landscape (Acquired running); Audio quietFrame;
                   Elapse 1000] initial = true)
    by (vm_compute; reflexivity).
  split; [exact Hui|]. split; [vm_compute; reflexivity|].
  exact (proj1 (one_calibration_at_a_time _ Hui)).
Defined.

(** ** The debounce, once the timer is armed *)

Lemma advance1_unfold (s : App) :
  advance1 s
  = fold_left (fun acc id => fire id acc)
      (map tid (filter (fun t => due t <=? now (host s) + 1) (timers (host s))))
      (set_now (now (host s) + 1) s).
Proof. reflexivity. Qed.

Lemma advance1_silence_due (i : nat) (d : Z) (s : App) :
  timers (host s) = [mkTimer i d None SilenceTimeout] ->
  d <= now (host s) + 1 ->
  advance1 s = silenceTimeout (clearTimeout i (set_now (now (host s) + 1) s)).
Proof.
  intros Ht Hd. rewrite advance1_unfold, Ht. cbn [filter due].
  rewrite (proj2 (Z.leb_le _ _) Hd). cbn [map tid fold_left].
  unfold fire.
  change (timers (host (set_now (now (host s) + 1) s))) with (timers (host s)).
  rewrite Ht. cbn [find tid]. rewrite Nat.eqb_refl.
  cbn [callback runCallback]. unfold rearm. cbn [period]. reflexivity.
Qed.

Lemma advance1_not_due (t : Timer) (s : App) :
  timers (host s) = [t] ->
  now (host s) + 1 < due t ->
  advance1 s = set_now (now (host s) + 1) s.
Proof.
  intros Ht Hd. rewrite advance1_unfold, Ht. cbn [filter].
  rewrite (proj2 (Z.leb_gt _ _) Hd). reflexivity.
Qed.

Lemma advance1_no_timer (s : App) :
  timers (host s) = [] ->
  advance1 s = set_now (now (host s) + 1) s.
Proof. intros Ht. rewrite advance1_unfold, Ht. reflexivity. Qed.

Section Debounce.

Variable nf : Q.
Variable deadline : Z.
Variable log : list (SinkRequest * RecorderState).

Lemma armed_runAudioAnalysis (closure : RecordingState) (s : App) :
  armed nf deadline log s -> armed nf deadline log (runAudioAnalysis closure s).
Proof.
  intros H. pose proof H as [H1 [H2 [[id [H3 H4]] [H5 [H6 [H7 H8]]]]]].
  unfold runAudioAnalysis.
  destruct (negb (analyserRef (refs s)) || isCalibrating closure);
    [exact H|].
  cbv zeta. rewrite H2, H7, H6, H3. exact H.
Qed.

Lemma pausedBySilence_runAudioAnalysis (closure : RecordingState) (s : App) :
  pausedBySilence nf deadline log s ->
  pausedBySilence nf deadline log (runAudioAnalysis closure s).
Proof.
  intros H. pose proof H as [H1 [H2 [H3 [H4 [H5 [H6 H7]]]]]].
  unfold runAudioAnalysis.
  destruct (negb (analyserRef (refs s)) || isCalibrating closure);
    [exact H|].
  cbv zeta. rewrite H2, H6, H5. exact H.
Qed.

Lemma debouncing_animationFrame (s : App) :
  debouncing nf deadline log s -> debouncing nf deadline log (animationFrame s).
Proof.
  intros [H | H]; [left | right]; revert H;
    apply invariant_animationFrame;
    try (intros s0 H0; exact H0).
  - apply armed_runAudioAnalysis.
  - apply pausedBySilence_runAudioAnalysis.
Qed.

Lemma debouncing_advance1 (s : App) :
  debouncing nf deadline log s -> debouncing nf deadline log (advance1 s).
Proof.
  intros [H | H].
  - destruct H as [H1 [H2 [[id [H3 H4]] [H5 [H6 [H7 H8]]]]]].
    destruct (Z_lt_le_dec (now (host s) + 1) deadline) as [Hlt | Hle].
    + left. rewrite (advance1_not_due _ s H4 Hlt).
      split; [exact H1|]. split; [exact H2|].
      split; [exists id; split; assumption|].
      split; [exact Hlt|]. split; [exact H6|]. split; [exact H7 | exact H8].
    + right. rewrite (advance1_silence_due _ _ s H4 Hle).
      unfold silenceTimeout, request.
      change (mediaRecorderRef
                (refs (clearTimeout (S id) (set_now (now (host s) + 1) s))))
        with (mediaRecorderRef (refs s)).
      rewrite H2.
      split; [reflexivity|]. split; [reflexivity|]. split.
      * cbn. rewrite H4. cbn. rewrite Nat.eqb_refl. reflexivity.
      * split; [exact Hle|]. split; [exact H6|]. split; [exact H7|].
        cbn. rewrite H8. reflexivity.
  - right. destruct H as [H1 [H2 [H3 [H4 [H5 [H6 H7]]]]]].
    rewrite (advance1_no_timer s H3).
    split; [exact H1|]. split; [exact H2|]. split; [exact H3|].
    split; [cbn; lia|]. split; [exact H5|]. split; [exact H6 | exact H7].
Qed.

Lemma debouncing_elapse (ms : nat) (s : App) :
  debouncing nf deadline log s -> debouncing nf deadline log (elapse ms s).
Proof.
  revert s. induction ms as [|k IH]; intros s H; simpl.
  - exact H.
  - apply IH, debouncing_advance1, H.
Qed.

Lemma debouncing_step (s : App) (e : Event) :
  quiet nf e -> debouncing nf deadline log s ->
  debouncing nf deadline log (step s e).
Proof.
  intros Hq H. destruct e; cbn in Hq; try contradiction; cbn [step].
  - destruct H as [H | H]; [left | right].
    + destruct H as [H1 [H2 [H3 [H4 [_ [H6 H7]]]]]].
      repeat split; assumption.
    + destruct H as [H1 [H2 [H3 [H4 [_ [H6 H7]]]]]].
      repeat split; assumption.
  - apply debouncing_animationFrame, H.
  - apply debouncing_elapse, H.
Qed.

Lemma debouncing_run (events : list Event) (s : App) :
  Forall (quiet nf) events -> debouncing nf deadline log s ->
  debouncing nf deadline log (run events s).
Proof.
  revert s. induction events as [|e events IH]; intros s Hq H; simpl.
  - exact H.
  - inversion Hq; subst. apply IH; [assumption|].
    apply debouncing_step; assumption.
Qed.

End Debounce.

(** X19.  Once a silent sample of a recording sink has armed the silence
    timer, and as long as every sample stays silent, however many frames
    run and however time is cut up: the controller is still in Recording,
    with nothing asked of the sink, at every moment before the deadline, and
    it is in Paused, the sink having been paused exactly once, at every
    moment from the deadline on. *)
Theorem armed_timer_pauses_exactly_at_its_deadline
    (nf : Q) (deadline : Z) (log : list (SinkRequest * RecorderState))
    (events : list Event) (s : App)
    (Harmed : armed nf deadline log s)
    (Hquiet : Forall (quiet nf) events) :
  (now (host (run events s)) < deadline ->
   recordingState (react (run events s)) = RECORDING
   /\ mediaRecorderRef (refs (run events s)) = Some recording
   /\ sinkLog (host (run events s)) = log)
  /\ (deadline <= now (host (run events s)) ->
      recordingState (react (run events s)) = PAUSED
      /\ mediaRecorderRef (refs (run events s)) = Some paused
      /\ sinkLog (host (run events s)) = log ++ [(SinkPause, recording)]
      /\ timers (host (run events s)) = []).
Proof.
  pose proof (debouncing_run nf deadline log events s Hquiet
                (or_introl Harmed)) as H.
  split; intro Ht.
  - destruct H as [H | H].
    + destruct H as [H1 [H2 [_ [_ [_ [_ H7]]]]]]. repeat split; assumption.
    + destruct H as [_ [_ [_ [H4 _]]]]. lia.
  - destruct H as [H | H].
    + destruct H as [_ [_ [_ [H4 _]]]]. lia.
    + destruct H as [H1 [H2 [H3 [_ [_ [_ H7]]]]]]. repeat split; assumption.
Qed.

(** ** A calibration in a steady room *)

Lemma elapse_add (a b : nat) (s : App) :
  elapse (a + b) s = elapse b (elapse a s).
Proof.
  revert s. induction a as [|a IH]; intro s; [reflexivity|].
  simpl. apply IH.
Qed.

Lemma fold_right_Qplus_repeat (v : Q) (n : nat) :
  (fold_right Qplus 0 (repeat v n) == v * inject_Z (Z.of_nat n))%Q.
Proof.
  induction n as [|n IH].
  - simpl. ring.
  - change (repeat v (S n)) with (v :: repeat v n).
    change (fold_right Qplus 0 (v :: repeat v n))%Q
      with (v + fold_right Qplus 0 (repeat v n))%Q.
    rewrite IH, Nat2Z.inj_succ. unfold Z.succ. rewrite inject_Z_plus. ring.
Qed.

Lemma arithmeticMean_repeat (v : Q) (n : nat) :
  (arithmeticMean (repeat v (S n)) == v)%Q.
Proof.
  unfold arithmeticMean. rewrite fold_right_Qplus_repeat, repeat_length.
  field. change 0%Q with (inject_Z 0). rewrite inject_Z_injective. lia.
Qed.

Lemma noiseFloor_repeat (v : Q) (n : nat) :
  (noiseFloor (repeat v (S n)) == if Qltb 0 v then v else 1)%Q.
Proof.
  pose proof (calibrationAverage_mean (repeat v (S n))) as Em.
  rewrite arithmeticMean_repeat in Em.
  unfold noiseFloor.
  change (0 <? Z.of_nat (length (repeat v (S n)))) with true. cbv zeta.
  destruct (Qltb 0 (calibrationAverage (repeat v (S n)))) eqn:Ea.
  - apply Qltb_lt in Ea. rewrite Em in Ea.
    rewrite (proj2 (Qltb_lt 0 v) Ea). exact Em.
  - apply Qltb_ge in Ea. rewrite Em in Ea.
    rewrite (proj2 (Qltb_ge 0 v) Ea). reflexivity.
Qed.

(** In a room whose energy does not change, the sample that follows the
    calibration is silent against the noise floor just computed. *)
Lemma steady_room_is_silent (v : Q) (n : nat) :
  isSilent v (noiseFloor (repeat v (S n))) = true.
Proof.
  unfold isSilent. apply Qltb_lt. rewrite noiseFloor_repeat.
  destruct (Qltb 0 v) eqn:E.
  - apply Qltb_lt in E. unfold THRESHOLD_MULTIPLIER.
    setoid_replace v with (v * 1)%Q at 1 by ring.
    apply Qmult_lt_l; [exact E | reflexivity].
  - apply Qltb_ge in E. rewrite Qmult_1_l.
    apply Qle_lt_trans with 0%Q; [exact E | reflexivity].
Qed.

Lemma elapse_2999 (o : Orientation) (data : list byte) :
  elapse 2999 (run [Start o (Acquired running); Audio data] initial)
  = beforeExpiry data.
Proof. vm_compute. reflexivity. Qed.

Lemma intervals_at_expiry (data : list byte) :
  fire 4 (fire 3 (set_now (now (host (beforeExpiry data)) + 1)
                          (beforeExpiry data)))
  = atExpiry data.
Proof. vm_compute. reflexivity. Qed.

Lemma expiry_starts_the_recording (data : list byte) :
  fire 5 (atExpiry data) = afterExpiry data.
Proof.
  pose proof (steady_room_is_silent (roomEnergy data) 59) as Hs.
  unfold fire. cbn [atExpiry steadySession host timers find tid Nat.eqb].
  cbn [callback runCallback]. unfold rearm. cbn [period].
  unfold calibrationTimeout.
  change (startActualRecording IDLE
            (steadySession running data CALIBRATING 0 None None
               (noiseFloor (repeat (roomEnergy data) 60))
               0%nat 3000 5%nat [] []
               (repeat (roomEnergy data) 60) [])
          = afterExpiry data).
  unfold startActualRecording.
  cbn [steadySession refs streamRef].
  change (runAudioAnalysis IDLE
            (steadySession running data RECORDING 0 (Some recording) None
               (noiseFloor (repeat (roomEnergy data) 60))
               0%nat 3000 5%nat [] []
               (repeat (roomEnergy data) 60)
               [(SinkStart, inactive)])
          = afterExpiry data).
  unfold runAudioAnalysis.
  cbn [steadySession refs analyserRef mediaRecorderRef silenceTimerRef
       silenceThresholdRef negb orb isCalibrating truthy].
  cbv zeta.
  change (getByteFrequencyData _) with (frameOf data).
  change (averageVolume (frameOf data)) with (roomEnergy data).
  rewrite Hs. reflexivity.
Qed.

Lemma run_app (a b : list Event) (s : App) :
  run (a ++ b) s = run b (run a s).
Proof. apply fold_left_app. Qed.

Lemma steady_room_session (o : Orientation) (data : list byte) :
  run [Start o (Acquired running); Audio data; Elapse 3000] initial
  = afterExpiry data.
Proof.
  change (run [Start o (Acquired running); Audio data; Elapse 3000] initial)
    with (elapse (2999 + 1)
            (run [Start o (Acquired running); Audio data] initial)).
  rewrite elapse_add, elapse_2999.
  change (elapse 1 (beforeExpiry data)) with (advance1 (beforeExpiry data)).
  rewrite advance1_unfold.
  change (fire 5 (fire 4 (fire 3
            (set_now (now (host (beforeExpiry data)) + 1)
                     (beforeExpiry data))))
          = afterExpiry data).
  rewrite intervals_at_expiry. apply expiry_starts_the_recording.
Qed.

Lemma afterExpiry_armed (data : list byte) :
  armed (noiseFloor (repeat (roomEnergy data) 60)) 3500
        [(SinkStart, inactive)] (afterExpiry data).
Proof.
  split; [reflexivity|]. split; [reflexivity|].
  split; [exists 5%nat; split; reflexivity|].
  split; [reflexivity|].
  split; [|split; reflexivity].
  change (getByteFrequencyData (afterExpiry data)) with (frameOf data).
  apply (steady_room_is_silent (roomEnergy data) 59).
Qed.


Lemma armed_timer_witness :
  let nf := noiseFloor (repeat (roomEnergy quietFrame) 60) in
  let events := [Elapse 200; AnimationFrame; Audio silentFrame; Elapse 300] in
  armed nf 3500 [(SinkStart, inactive)] (afterExpiry quietFrame)
  /\ Forall (quiet nf) events
  /\ recordingState (react (run events (afterExpiry quietFrame))) = PAUSED.
Proof.
  cbv zeta.
  assert (Ha : armed (noiseFloor (repeat (roomEnergy quietFrame) 60))
                 3500 [(SinkStart, inactive)] (afterExpiry quietFrame))
    by apply afterExpiry_armed.
  assert (Hq : Forall (quiet (noiseFloor (repeat (roomEnergy quietFrame) 60)))
                 [Elapse 200; AnimationFrame; Audio silentFrame; Elapse 300]).
  { constructor; [exact I|]. constructor; [exact I|].
    constructor; [vm_compute; reflexivity|].
    constructor; [exact I | constructor]. }
  assert (Ht : 3500 <= now (host (run [Elapse 200; AnimationFrame;
                                       Audio silentFrame; Elapse 300]
                                      (afterExpiry quietFrame)))).
  { vm_compute. discriminate. }
  split; [exact Ha|]. split; [exact Hq|].
  exact (proj1 (proj2 (armed_timer_pauses_exactly_at_its_deadline
                         _ _ _ _ _ Ha Hq) Ht)).
Defined.

(** X21.  A recording in the room it was calibrated in pauses itself: if the
    room's sound stays what it was during the calibration, or any sound that
    is silent against the threshold, the controller is in Recording until
    500 ms after the calibration window and in Paused from then on, the sink
    having been started and paused once. *)
Theorem steady_room_pauses_after_half_a_second
    (o : Orientation) (data : list byte) (events : list Event)
    (Hquiet : Forall (quiet (noiseFloor (repeat (roomEnergy data) 60)))
                     events) :
  let s := run ([Start o (Acquired running); Audio data; Elapse 3000]
                ++ events) initial in
  (now (host s) < 3500 ->
   recordingState (react s) = RECORDING
   /\ sinkLog (host s) = [(SinkStart, inactive)])
  /\ (3500 <= now (host s) ->
      recordingState (react s) = PAUSED
      /\ sinkLog (host s) = [(SinkStart, inactive); (SinkPause, recording)]).
Proof.
  cbv zeta. rewrite run_app, steady_room_session.
  pose proof (afterExpiry_armed data) as Ha.
  pose proof (debouncing_run _ _ _ events _ Hquiet (or_introl Ha)) as H.
  split; intro Ht.
  - destruct H as [H | H].
    + destruct H as [H1 [_ [_ [_ [_ [_ H7]]]]]]. split; assumption.
    + destruct H as [_ [_ [_ [H4 _]]]]. lia.
  - destruct H as [H | H].
    + destruct H as [_ [_ [_ [H4 _]]]]. lia.
    + destruct H as [H1 [_ [_ [_ [_ [_ H7]]]]]]. split; assumption.
Qed.

Lemma steady_room_witness :
  Forall (quiet (noiseFloor (repeat (roomEnergy quietFrame) 60)))
         [AnimationFrame; Elapse 499; AnimationFrame]
  /\ recordingState
       (react (run ([Start portrait (Acquired running); Audio quietFrame;
                     Elapse 3000]
                    ++ [AnimationFrame; Elapse 499; AnimationFrame]) initial))
     = RECORDING.
Proof.
  assert (Hq : Forall (quiet (noiseFloor
                        (repeat (roomEnergy quietFrame) 60)))
                 [AnimationFrame; Elapse 499; AnimationFrame])
    by (repeat constructor).
  assert (Ht : now (host (run ([Start portrait (Acquired running);
                                Audio quietFrame; Elapse 3000]
                               ++ [AnimationFrame; Elapse 499;
                                   AnimationFrame]) initial)) < 3500)
    by (vm_compute; reflexivity).
  split; [exact Hq|].
  exact (proj1 (proj1 (steady_room_pauses_after_half_a_second
                         portrait quietFrame _ Hq) Ht)).
Defined.

(** ** From the first silent sample to the pause *)

Lemma onset_is_armed (closure : RecordingState) (s : App) :
  analyserRef (refs s) = true ->
  closure <> CALIBRATING ->
  recordingState (react s) = RECORDING ->
  mediaRecorderRef (refs s) = Some recording ->
  isSilent (averageVolume (getByteFrequencyData s))
           (silenceThresholdRef (refs s)) = true ->
  truthy (silenceTimerRef (refs s)) = false ->
  timers (host s) = [] ->
  armed (silenceThresholdRef (refs s))
        (now (host s) + SILENCE_DETECTION_TIME_MS) (sinkLog (host s))
        (runAudioAnalysis closure s).
Proof.
  intros Ha Hc Hst Hr Hs Ht Htm. unfold runAudioAnalysis. rewrite Ha.
  assert (E : isCalibrating closure = false)
    by (destruct closure; try reflexivity; exfalso; apply Hc; reflexivity).
  rewrite E. cbn [negb orb]. cbv zeta. rewrite Hr, Hs, Ht.
  split; [exact Hst|]. split; [exact Hr|].
  split.
  { exists (nextId (host s)). split; [reflexivity|].
    cbn. rewrite Htm. reflexivity. }
  split; [unfold SILENCE_DETECTION_TIME_MS; cbn; lia|].
  split; [exact Hs|]. split; reflexivity.
Qed.

(** X22.  From the first silent sample to the pause: when an analysis of a
    recording session that has no timer pending and whose silence timer
    reference is not truthy hears a silent frame, and every later sample is
    silent too, the controller stays in Recording, nothing being asked of
    the sink, until 500 ms after that analysis, and is in Paused, the sink
    paused once, from then on. *)
Theorem silence_pauses_half_a_second_after_its_onset
    (closure : RecordingState) (s : App) (events : list Event)
    (Hanalyser : analyserRef (refs s) = true)
    (Hclosure : closure <> CALIBRATING)
    (Hstate : recordingState (react s) = RECORDING)
    (Hrecorder : mediaRecorderRef (refs s) = Some recording)
    (Hsilent : isSilent (averageVolume (getByteFrequencyData s))
                        (silenceThresholdRef (refs s)) = true)
    (Hfresh : truthy (silenceTimerRef (refs s)) = false)
    (Htimers : timers (host s) = [])
    (Hquiet : Forall (quiet (silenceThresholdRef (refs s))) events) :
  let s' := run events (runAudioAnalysis closure s) in
  let deadline := now (host s) + SILENCE_DETECTION_TIME_MS in
  (now (host s') < deadline ->
   recordingState (react s') = RECORDING
   /\ sinkLog (host s') = sinkLog (host s))
  /\ (deadline <= now (host s') ->
      recordingState (react s') = PAUSED
      /\ sinkLog (host s') = sinkLog (host s) ++ [(SinkPause, recording)]).
Proof.
  cbv zeta.
  pose proof (onset_is_armed closure s Hanalyser Hclosure Hstate Hrecorder
                Hsilent Hfresh Htimers) as Ha.
  pose proof (debouncing_run _ _ _ events _ Hquiet (or_introl Ha)) as H.
  split; intro Ht.
  - destruct H as [H | H].
    + destruct H as [H1 [_ [_ [_ [_ [_ H7]]]]]]. split; assumption.
    + destruct H as [_ [_ [_ [H4 _]]]]. lia.
  - destruct H as [H | H].
    + destruct H as [_ [_ [_ [H4 _]]]]. lia.
    + destruct H as [H1 [_ [_ [_ [_ [_ H7]]]]]]. split; assumption.
Qed.

Lemma silence_onset_witness :
  let s := run (calibrate ++ speak ++ [Audio silentFrame]) initial in
  let events := [Elapse 250; AnimationFrame; Elapse 250] in
  analyserRef (refs s) = true
  /\ recordingState (react s) = RECORDING
  /\ mediaRecorderRef (refs s) = Some recording
  /\ truthy (silenceTimerRef (refs s)) = false
  /\ timers (host s) = []
  /\ Forall (quiet (silenceThresholdRef (refs s))) events
  /\ recordingState (react (run events (runAudioAnalysis IDLE s))) = PAUSED.
Proof.
  cbv zeta.
  set (s := run (calibrate ++ speak ++ [Audio silentFrame]) initial).
  assert (H1 : analyserRef (refs s) = true) by (vm_compute; reflexivity).
  assert (H2 : IDLE <> CALIBRATING) by discriminate.
  assert (H3 : recordingState (react s) = RECORDING)
    by (vm_compute; reflexivity).
  assert (H4 : mediaRecorderRef (refs s) = Some recording)
    by (vm_compute; reflexivity).
  assert (H5 : isSilent (averageVolume (getByteFrequencyData s))
                        (silenceThresholdRef (refs s)) = true)
    by (vm_compute; reflexivity).
  assert (H6 : truthy (silenceTimerRef (refs s)) = false)
    by (vm_compute; reflexivity).
  assert (H7 : timers (host s) = []) by (vm_compute; reflexivity).
  assert (H8 : Forall (quiet (silenceThresholdRef (refs s)))
                 [Elapse 250; AnimationFrame; Elapse 250]).
  { constructor; [exact I|]. constructor; [exact I|].
    constructor; [exact I | constructor]. }
  assert (H9 : now (host s) + SILENCE_DETECTION_TIME_MS
               <= now (host (run [Elapse 250; AnimationFrame; Elapse 250]
                                 (runAudioAnalysis IDLE s))))
    by (vm_compute; discriminate).
  repeat (split; [assumption|]).
  exact (proj1 (proj2 (silence_pauses_half_a_second_after_its_onset
                         IDLE s _ H1 H2 H3 H4 H5 H6 H7 H8) H9)).
Defined.

(** ** A calibration without a running audio context *)

Lemma unsampled_2999 (o : Orientation) (ctx : AudioContextState)
    (data : list byte) :
  ctx <> running ->
  elapse 2999 (run [Start o (Acquired ctx); Audio data] initial)
  = steadySession ctx data CALIBRATING 100 None None 0 0%nat 2999 5%nat
      [mkTimer 3 3000 (Some 100) CountdownTick;
       mkTimer 4 3000 (Some 50) (CollectCalibrationData 2);
       mkTimer 5 3000 None (CalibrationTimeout 2 4 3 IDLE)]
      [] [] [].
Proof.
  intro Hctx. destruct ctx; [| contradiction |]; vm_compute; reflexivity.
Qed.

Lemma unsampled_expiry (ctx : AudioContextState) (data : list byte) :
  ctx <> running ->
  advance1
    (steadySession ctx data CALIBRATING 100 None None 0 0%nat 2999 5%nat
       [mkTimer 3 3000 (Some 100) CountdownTick;
        mkTimer 4 3000 (Some 50) (CollectCalibrationData 2);
        mkTimer 5 3000 None (CalibrationTimeout 2 4 3 IDLE)]
       [] [] [])
  = runAudioAnalysis IDLE (unsampledRecording ctx data).
Proof.
  intro Hctx. destruct ctx; [| contradiction |]; reflexivity.
Qed.

Lemma unsampled_session (o : Orientation) (ctx : AudioContextState)
    (data : list byte) :
  ctx <> running ->
  run [Start o (Acquired ctx); Audio data; Elapse 3000] initial
  = runAudioAnalysis IDLE (unsampledRecording ctx data).
Proof.
  intro Hctx.
  change (run [Start o (Acquired ctx); Audio data; Elapse 3000] initial)
    with (elapse (2999 + 1)
            (run [Start o (Acquired ctx); Audio data] initial)).
  rewrite elapse_add, (unsampled_2999 o ctx data Hctx).
  apply (unsampled_expiry ctx data Hctx).
Qed.

(** X23.  A calibration while the audio context is not running (suspended,
    as browsers leave it until a user gesture, or closed) collects no sample
    at all: at expiry the noise floor is the fallback 1, the recording starts
    all the same, and its first analysis arms the silence timer exactly when
    the frame's energy is below the threshold of that fallback. *)
Theorem calibration_without_a_running_context
    (o : Orientation) (ctx : AudioContextState) (data : list byte)
    (Hctx : ctx <> running) :
  let s := run [Start o (Acquired ctx); Audio data; Elapse 3000] initial in
  calStore (host s) = [(2%nat, [])]
  /\ silenceThresholdRef (refs s) = 1%Q
  /\ recordingState (react s) = RECORDING
  /\ mediaRecorderRef (refs s) = Some recording
  /\ sinkLog (host s) = [(SinkStart, inactive)]
  /\ timers (host s)
     = if isSilent (roomEnergy data) 1
       then [mkTimer 6 (3000 + SILENCE_DETECTION_TIME_MS) None SilenceTimeout]
       else [].
Proof.
  cbv zeta. rewrite (unsampled_session o ctx data Hctx).
  unfold runAudioAnalysis.
  cbn [unsampledRecording steadySession refs analyserRef mediaRecorderRef
       silenceTimerRef silenceThresholdRef negb orb isCalibrating truthy].
  cbv zeta.
  change (getByteFrequencyData _) with (frameOf data).
  change (averageVolume (frameOf data)) with (roomEnergy data).
  destruct (isSilent (roomEnergy data) 1);
    repeat split; reflexivity.
Qed.

Lemma unsampled_calibration_witness :
  suspended <> running
  /\ silenceThresholdRef
       (refs (run [Start landscape (Acquired suspended); Audio loudFrame;
                   Elapse 3000] initial)) = 1%Q.
Proof.
  assert (H : suspended <> running) by discriminate.
  split; [exact H|].
  exact (proj1 (proj2 (calibration_without_a_running_context
                         landscape suspended loudFrame H))).
Defined.
